(** * moltworker: restore / reconcile / supervise subsystem

    A shallow embedding of the boot script [start-openclaw.sh] (and its
    older s3fs variant), of [src/gateway/sync.ts], of the auth-state
    summary and of the public force-restart route.

    Conventions of the embedding.
    - A JavaScript or shell string is a [string] (a sequence of bytes);
      case folding and white space are the ASCII ones.
    - A thrown exception is the [None] of an option result.
    - External programs ([date], [rclone], the sandbox SDK) are oracles:
      section variables, or fields of the state that is passed around. *)

From Stdlib Require Import String Ascii List ZArith NArith Bool Lia Arith DecimalString.
Import ListNotations.
Local Open Scope string_scope.

Set Warnings "-register-all".

(** ** Shell helpers *)

Definition LF : ascii := Ascii.ascii_of_nat 10.

(** [$(cmd)] removes every trailing newline of the captured output. *)
Fixpoint strip_newlines (s : string) : string :=
  match s with
  | EmptyString => EmptyString
  | String c r =>
      match strip_newlines r with
      | EmptyString => if Ascii.eqb c LF then EmptyString else String c EmptyString
      | r' => String c r'
      end
  end.

(** [$(cmd 2>/dev/null) || true]: the captured output, empty when the
    command fails ([None]: the file or the remote object is missing). *)
Definition capture (out : option string) : string :=
  match out with
  | Some s => strip_newlines s
  | None => ""
  end.

(** [[ -z "$V" ]] *)
Definition is_empty (s : string) : bool :=
  match s with EmptyString => true | _ => false end.

(** ** TimestampResolver (start-openclaw.sh, [should_restore_from_r2]) *)

Module TimestampResolver.
Section Resolver.

(** [date -d "$T" +%s]: the epoch seconds, [None] when [date] rejects
    the text. *)
Variable date_epoch : string -> option Z.

(** [$(date -d "$T" +%s 2>/dev/null || echo "0")] *)
Definition parse_epoch (t : string) : Z :=
  match date_epoch t with
  | Some z => z
  | None => 0%Z
  end.

(** The rclone variant. [remote] is what
    [rclone cat $RCLONE_REMOTE/.last-sync] prints, [loc] what
    [cat $CONFIG_DIR/.last-sync] prints ([None]: the command fails). *)
Definition should_restore_from_r2
    (RCLONE_AVAILABLE : bool) (remote loc : option string) : bool :=
  if negb RCLONE_AVAILABLE then false
  else
    let R2_TIME := capture remote in
    if is_empty R2_TIME then false
    else
      let LOCAL_TIME := capture loc in
      if is_empty LOCAL_TIME then true
      else
        let R2_EPOCH := parse_epoch R2_TIME in
        let LOCAL_EPOCH := parse_epoch LOCAL_TIME in
        (R2_EPOCH >? LOCAL_EPOCH)%Z.


End Resolver.
End TimestampResolver.

(** ** JavaScript strings *)

(** White space removed by [String.prototype.trim] (ASCII range). *)
Definition is_space (c : ascii) : bool :=
  let n := nat_of_ascii c in
  existsb (Nat.eqb n) [32; 9; 10; 11; 12; 13]%nat.

Fixpoint trim_start (s : string) : string :=
  match s with
  | String c r => if is_space c then trim_start r else s
  | EmptyString => EmptyString
  end.

Fixpoint trim_end (s : string) : string :=
  match s with
  | EmptyString => EmptyString
  | String c r =>
      match trim_end r with
      | EmptyString => if is_space c then EmptyString else String c EmptyString
      | r' => String c r'
      end
  end.

(** [s.trim()] *)
Definition trim (s : string) : string := trim_end (trim_start s).

(** Truthiness of a [string | undefined] binding: [!!v]. *)
Definition truthy_str (v : option string) : bool :=
  match v with
  | Some s => negb (is_empty s)
  | None => false
  end.

(** ** SyncLoop entry point (src/gateway/sync.ts) *)

Module Sync.

(** The part of [MoltbotEnv] that [syncToR2] reads. *)
Record MoltbotEnv : Type := {
  R2_ACCESS_KEY_ID : option string;
  R2_SECRET_ACCESS_KEY : option string;
  CF_ACCOUNT_ID : option string;
  R2_BUCKET_NAME : option string
}.

Record SyncResult : Type := {
  success : bool;
  lastSync : option string;
  error : option string;
  details : option string
}.

(** What [sandbox.exec] resolves to. *)
Record ExecResult : Type := {
  stdout : string;
  stderr : string;
  exec_success : bool;
  exitCode : Z
}.

(** The options object of a call of [sandbox.exec]. *)
Record ExecOptions : Type := {
  opt_env : option (list (string * string));
  opt_timeout : option Z
}.

Definition no_options : ExecOptions :=
  {| opt_env := None; opt_timeout := None |}.

Definition ExecCall : Type := (string * ExecOptions)%type.

(** The sandbox is an oracle: what a command resolves to depends on the
    calls made so far and on the command. Every call is recorded. *)
Record Sandbox : Type := {
  respond : list ExecCall -> ExecCall -> ExecResult;
  calls : list ExecCall
}.

Definition exec (sb : Sandbox) (cmd : string) (o : ExecOptions)
  : ExecResult * Sandbox :=
  (respond sb (calls sb) (cmd, o),
   {| respond := respond sb; calls := calls sb ++ [(cmd, o)] |}).

(** [rcloneConfigCmd()] *)
Definition rcloneConfigCmd : string :=
  String.concat (String LF "")
    [ "mkdir -p /root/.config/rclone && cat > /root/.config/rclone/rclone.conf << EOF";
      "[r2]";
      "type = s3";
      "provider = Cloudflare";
      "access_key_id = $R2_ACCESS_KEY_ID";
      "secret_access_key = $R2_SECRET_ACCESS_KEY";
      "endpoint = https://$CF_ACCOUNT_ID.r2.cloudflarestorage.com";
      "acl = private";
      "EOF" ].

Definition detectCmd : string :=
  "test -f /root/.openclaw/openclaw.json && echo openclaw || (test -f /root/.clawdbot/clawdbot.json && echo clawdbot || echo none)".

Definition excludes : string :=
  "--exclude '.git/**' --exclude '*.lock' --exclude '*.log' --exclude '*.tmp'".

Definition configSyncCmd (configDir remote : string) : string :=
  "rclone sync " ++ configDir ++ "/ " ++ remote
    ++ "/openclaw/ --transfers=8 --fast-list --s3-no-check-bucket " ++ excludes.

Definition workspaceSyncCmd (remote : string) : string :=
  "[ -d /root/clawd ] && rclone sync /root/clawd/ " ++ remote
    ++ "/workspace/ --transfers=8 --fast-list --s3-no-check-bucket --exclude 'skills/**' --exclude '.git/**' || true".

Definition skillsSyncCmd (remote : string) : string :=
  "[ -d /root/clawd/skills ] && rclone sync /root/clawd/skills/ " ++ remote
    ++ "/skills/ --transfers=8 --fast-list --s3-no-check-bucket || true".

Definition timestampCmd (remote : string) : string :=
  "date -Iseconds | rclone rcat " ++ remote ++ "/.last-sync".

(** What the shell prints for [detectCmd], from the two files it tests. *)
Definition detect_output (has_openclaw_json has_clawdbot_json : bool) : string :=
  (if has_openclaw_json then "openclaw"
   else if has_clawdbot_json then "clawdbot" else "none") ++ String LF "".

Definition failure (e : string) (d : option string) : SyncResult :=
  {| success := false; lastSync := None; error := Some e; details := d |}.

Section SyncToR2.

(** [getR2BucketName] lives in [../config], outside the files at hand. *)
Variable getR2BucketName : MoltbotEnv -> string.

(** [new Date().toISOString()] at the moment of the return. *)
Variable Date_toISOString : string.

Definition syncToR2 (sandbox : Sandbox) (env : MoltbotEnv)
  : SyncResult * Sandbox :=
  match R2_ACCESS_KEY_ID env, R2_SECRET_ACCESS_KEY env, CF_ACCOUNT_ID env with
  | Some key, Some secret, Some account =>
    if is_empty key || is_empty secret || is_empty account then
      (failure "R2 storage is not configured" None, sandbox)
    else
      let bucket := getR2BucketName env in
      let remote := "r2:" ++ bucket in
      let rcloneEnv :=
        [ ("R2_ACCESS_KEY_ID", key);
          ("R2_SECRET_ACCESS_KEY", secret);
          ("CF_ACCOUNT_ID", account) ] in
      let (configResult, sb1) :=
        exec sandbox rcloneConfigCmd
          {| opt_env := Some rcloneEnv; opt_timeout := None |} in
      if negb (exec_success configResult) then
        (failure "Failed to create rclone config" (Some (stderr configResult)), sb1)
      else
        let (check, sb2) := exec sb1 detectCmd no_options in
        let configType := trim (stdout check) in
        if String.eqb configType "none" then
          (failure "Sync aborted: no config file found"
             (Some "Neither openclaw.json nor clawdbot.json found in config directory."),
           sb2)
        else
          let configDir :=
            if String.eqb configType "openclaw"
            then "/root/.openclaw" else "/root/.clawdbot" in
          let long := {| opt_env := None; opt_timeout := Some 120000%Z |} in
          let (configSync, sb3) := exec sb2 (configSyncCmd configDir remote) long in
          if negb (exec_success configSync) then
            (failure "Config sync failed" (Some (stderr configSync)), sb3)
          else
            let (_, sb4) := exec sb3 (workspaceSyncCmd remote) long in
            let (_, sb5) := exec sb4 (skillsSyncCmd remote) long in
            let (_, sb6) := exec sb5 (timestampCmd remote) no_options in
            ({| success := true; lastSync := Some Date_toISOString;
                error := None; details := None |}, sb6)
  | _, _, _ => (failure "R2 storage is not configured" None, sandbox)
  end.

(** The three calls whose outcome decides the result, as [syncToR2]
    makes them. *)
Definition configured (env : MoltbotEnv) : bool :=
  truthy_str (R2_ACCESS_KEY_ID env) && truthy_str (R2_SECRET_ACCESS_KEY env)
  && truthy_str (CF_ACCOUNT_ID env).

Definition cred (v : option string) : string :=
  match v with Some s => s | None => "" end.

Definition remote_of (env : MoltbotEnv) : string := "r2:" ++ getR2BucketName env.

Definition long_timeout : ExecOptions :=
  {| opt_env := None; opt_timeout := Some 120000%Z |}.

Definition config_call (env : MoltbotEnv) : ExecCall :=
  (rcloneConfigCmd,
   {| opt_env := Some [ ("R2_ACCESS_KEY_ID", cred (R2_ACCESS_KEY_ID env));
                        ("R2_SECRET_ACCESS_KEY", cred (R2_SECRET_ACCESS_KEY env));
                        ("CF_ACCOUNT_ID", cred (CF_ACCOUNT_ID env)) ];
      opt_timeout := None |}).

Definition config_step (sb : Sandbox) (env : MoltbotEnv) : ExecResult * Sandbox :=
  exec sb (fst (config_call env)) (snd (config_call env)).

Definition detect_step (sb : Sandbox) (env : MoltbotEnv) : ExecResult * Sandbox :=
  exec (snd (config_step sb env)) detectCmd no_options.

Definition configDir_of (check : ExecResult) : string :=
  if String.eqb (trim (stdout check)) "openclaw"
  then "/root/.openclaw" else "/root/.clawdbot".

Definition sync_step (sb : Sandbox) (env : MoltbotEnv) : ExecResult * Sandbox :=
  exec (snd (detect_step sb env))
    (configSyncCmd (configDir_of (fst (detect_step sb env))) (remote_of env))
    long_timeout.

End SyncToR2.
End Sync.

(** ** Public routes: POST /api/force-restart *)

(** The double quote, and a way of writing texts that contain it:
    [dq s] is [s] with every apostrophe turned into a double quote. *)
Definition DQ : ascii := Ascii.ascii_of_nat 34.
Definition APOS : ascii := Ascii.ascii_of_nat 39.

Fixpoint dq (s : string) : string :=
  match s with
  | EmptyString => EmptyString
  | String c r => String (if Ascii.eqb c APOS then DQ else c) (dq r)
  end.

Module Routes.

(** A thrown value: an [Error] with its message, or anything else. *)
Inductive exn : Type :=
| ErrorObj (message : string)
| OtherThrown.

(** [err instanceof Error ? err.message : 'Unknown error'] *)
Definition error_text (e : exn) : string :=
  match e with
  | ErrorObj m => m
  | OtherThrown => "Unknown error"
  end.

Inductive ProcessStatus : Type :=
| starting | running | completed | failed | killed | status_error.

(** A tracked process, with what its [kill()] will do. *)
Record Process : Type := {
  proc_id : string;
  kill_throws : bool
}.

(** The cleanup process started by the route: whether [waitForProcess]
    throws on it, its status after the wait, what its [kill()] does. *)
Record CleanupProcess : Type := {
  wait_throws : bool;
  status_after_wait : ProcessStatus;
  cleanup_kill_throws : bool
}.

(** The sandbox as this route sees it. *)
Record Sandbox : Type := {
  listProcesses : exn + list Process;
  startProcess : string -> exn + CleanupProcess
}.

Inductive Event : Type :=
| KillAttempt (id : string) (threw : bool)
| Started (cmd : string)
| StartFailed (cmd : string)
| Waited (timeoutMs : Z)
| CleanupKillAttempt (threw : bool).

Inductive Body : Type :=
| Killed (ok : bool) (killed_count : nat) (message : string)
| Failed (ok : bool) (err : string).

Record Response : Type := {
  http_status : nat;
  body : Body
}.

Definition cleanupCmd : string :=
  dq "bash -lc 'if command -v pkill >/dev/null 2>&1; then timeout 2 pkill -f "
  ++ String DQ "[o]penclaw-gateway" ++ String DQ " || true; timeout 2 pkill -f "
  ++ String DQ "[/]usr/local/bin/start-openclaw.sh" ++ String DQ
       " || true; timeout 2 pkill -x openclaw || true; fi; true'".

(** [for (const proc of processes) { try { await proc.kill() } catch {} }] *)
Definition kill_all (processes : list Process) : list Event :=
  map (fun p => KillAttempt (proc_id p) (kill_throws p)) processes.

(** The best-effort cleanup pass, inside its own [try]/[catch]. *)
Definition cleanup_pass (sandbox : Sandbox) : list Event :=
  match startProcess sandbox cleanupCmd with
  | inl _ => [StartFailed cleanupCmd]
  | inr proc =>
      if wait_throws proc then [Started cleanupCmd; Waited 5000%Z]
      else
        match status_after_wait proc with
        | running | starting =>
            [Started cleanupCmd; Waited 5000%Z;
             CleanupKillAttempt (cleanup_kill_throws proc)]
        | _ => [Started cleanupCmd; Waited 5000%Z]
        end
  end.

(** The handler of [POST /api/force-restart]. *)
Definition forceRestart (sandbox : Sandbox) : Response * list Event :=
  match listProcesses sandbox with
  | inr processes =>
      ({| http_status := 200;
          body := Killed true (length processes)
                    "All processes killed. Gateway will restart on next request." |},
       kill_all processes ++ cleanup_pass sandbox)%list
  | inl err =>
      ({| http_status := 500; body := Failed false (error_text err) |}, [])
  end.

End Routes.

(** ** JavaScript values

    What [JSON.parse] returns and what the scripts build from it. A
    number is kept as the text of its literal; an array carries, besides
    its items, the named properties a script may have assigned to it
    (they are lost when the value is written with [JSON.stringify]). *)

Module Js.

Inductive value : Type :=
| VUndef
| VNull
| VBool (b : bool)
| VNum (literal : string)
| VStr (s : string)
| VArr (items : list value) (props : list (string * value))
| VObj (fields : list (string * value)).

Definition fields_t : Type := list (string * value).

(** The digits of a number literal before its exponent are all zero:
    the literal denotes zero (a literal too small to be represented is
    outside this test). *)
Fixpoint zero_mantissa (l : string) : bool :=
  match l with
  | EmptyString => true
  | String c r =>
      if Ascii.eqb c "e" || Ascii.eqb c "E" then true
      else (Ascii.eqb c "0" || Ascii.eqb c "." || Ascii.eqb c "-")
           && zero_mantissa r
  end.

(** [!!v] for a number: false of zero and of [NaN]. *)
Definition is_zero_literal (l : string) : bool :=
  String.eqb l "NaN" || (negb (is_empty l) && zero_mantissa l).

Definition truthy (v : value) : bool :=
  match v with
  | VUndef | VNull => false
  | VBool b => b
  | VNum l => negb (is_zero_literal l)
  | VStr s => negb (is_empty s)
  | VArr _ _ | VObj _ => true
  end.

(** [typeof v === 'object'] (true of [null] as well). *)
Definition typeof_object (v : value) : bool :=
  match v with
  | VNull | VArr _ _ | VObj _ => true
  | _ => false
  end.

(** [a || b] *)
Definition or_else (a b : value) : value := if truthy a then a else b.

(** *** Property keys *)

Definition is_digit (c : ascii) : bool :=
  let n := nat_of_ascii c in (48 <=? n)%nat && (n <=? 57)%nat.

Fixpoint all_digits (s : string) : bool :=
  match s with
  | EmptyString => true
  | String c r => is_digit c && all_digits r
  end.

Fixpoint digits_value (s : string) (acc : N) : N :=
  match s with
  | EmptyString => acc
  | String c r => digits_value r (acc * 10 + N.of_nat (nat_of_ascii c - 48))%N
  end.

(** A key is an array index when it is the canonical decimal text of an
    integer below 2^32 - 1; such keys come first, in ascending order,
    when the properties of an object are listed. *)
Definition array_index (k : string) : option N :=
  match k with
  | EmptyString => None
  | String c r =>
      if negb (all_digits k) then None
      else if Ascii.eqb c "0" && negb (is_empty r) then None
      else if (10 <? String.length k)%nat then None
      else
        let n := digits_value k 0%N in
        if (n <=? 4294967294)%N then Some n else None
  end.

Fixpoint lookup (k : string) (fs : fields_t) : option value :=
  match fs with
  | [] => None
  | (k', v) :: r => if String.eqb k k' then Some v else lookup k r
  end.

(** Assignment to a property that is not an array index: in place when
    the key exists, appended otherwise. *)
Fixpoint assoc_set (k : string) (v : value) (fs : fields_t) : fields_t :=
  match fs with
  | [] => [(k, v)]
  | (k', v') :: r =>
      if String.eqb k k' then (k, v) :: r else (k', v') :: assoc_set k v r
  end.

(** Assignment to an array-index key: in place when it exists, else at
    its rank among the index keys that lead the list. *)
Fixpoint index_set (n : N) (k : string) (v : value) (fs : fields_t) : fields_t :=
  match fs with
  | [] => [(k, v)]
  | (k', v') :: r =>
      match array_index k' with
      | Some n' =>
          if (n =? n')%N then (k, v) :: r
          else if (n <? n')%N then (k, v) :: fs
          else (k', v') :: index_set n k v r
      | None => if existsb (fun kv => String.eqb k (fst kv)) fs
                then assoc_set k v fs else (k, v) :: fs
      end
  end.

(** [o[k] = v] on the own properties of an object. *)
Definition obj_set (k : string) (v : value) (fs : fields_t) : fields_t :=
  match array_index k with
  | Some n => index_set n k v fs
  | None => assoc_set k v fs
  end.

(** *** Reading and writing properties

    [None] is a thrown [TypeError]. The keys the scripts use are never
    inherited by a primitive, an array or an object, except where the
    embedding of a script says so. *)

(** [v[k]] *)
Definition getp (v : value) (k : string) : option value :=
  match v with
  | VUndef | VNull => None
  | VObj fs => Some (match lookup k fs with Some x => x | None => VUndef end)
  | VArr items ps =>
      Some (match array_index k with
            | Some n => nth (N.to_nat n) items VUndef
            | None => match lookup k ps with Some x => x | None => VUndef end
            end)
  | VBool _ | VNum _ | VStr _ => Some VUndef
  end.

(** [v?.[k]] *)
Definition getp_opt (v : value) (k : string) : value :=
  match getp v k with
  | Some x => x
  | None => VUndef
  end.

(** [v[k] = x] in sloppy mode, for a key [k] that is not an array index:
    the updated [v]. A write to a primitive is dropped. *)
Definition setp (v : value) (k : string) (x : value) : option value :=
  match v with
  | VUndef | VNull => None
  | VObj fs => Some (VObj (obj_set k x fs))
  | VArr items ps => Some (VArr items (assoc_set k x ps))
  | VBool _ | VNum _ | VStr _ => Some v
  end.

(** [Object.entries(v)] for an object or an array without holes. *)
Fixpoint index_entries (i : nat) (items : list value) : fields_t :=
  match items with
  | [] => []
  | x :: r => (NilEmpty.string_of_uint (Nat.to_uint i), x) :: index_entries (S i) r
  end.

Definition entries (v : value) : fields_t :=
  match v with
  | VObj fs => fs
  | VArr items ps => (index_entries 0 items ++ ps)%list
  | _ => []
  end.

(** *** What a value becomes when written with [JSON.stringify] and
    read back with [JSON.parse]: fields holding [undefined] are left
    out, [undefined] items become [null], the named properties of
    arrays are dropped. *)
Fixpoint reload (v : value) : value :=
  match v with
  | VArr items _ =>
      VArr (map (fun x => match x with VUndef => VNull | _ => reload x end) items) []
  | VObj fs =>
      VObj (flat_map
              (fun kv =>
                 match kv with
                 | (k, VUndef) => []
                 | (k, x) => [(k, reload x)]
                 end) fs)
  | _ => v
  end.

(** The fields of an object as they are written and read back. *)
Definition reload_fields (fs : fields_t) : fields_t :=
  flat_map
    (fun kv =>
       match kv with
       | (k, VUndef) => []
       | (k, x) => [(k, reload x)]
       end) fs.

(** A field that [JSON.stringify] writes and [JSON.parse] gives back
    as it is. *)
Definition stable_field (kv : string * value) : Prop :=
  snd kv <> VUndef /\ reload (snd kv) = snd kv.

(** What [JSON.parse] returns: no [undefined], arrays without named
    properties, objects without a repeated key. *)
Fixpoint distinct (l : list string) : bool :=
  match l with
  | [] => true
  | x :: r => negb (existsb (String.eqb x) r) && distinct r
  end.

Fixpoint is_json (v : value) : bool :=
  match v with
  | VUndef => false
  | VArr items ps => forallb is_json items && match ps with [] => true | _ => false end
  | VObj fs =>
      forallb (fun kv => match kv with (_, x) => is_json x end) fs
      && distinct (map fst fs)
  | _ => true
  end.



(** *** Statements that update an object in place

    [None] is a thrown [TypeError]. A statement [o.k... = e] of a script
    is a pair of the key [k] and of what the statement does to the
    value held under [k]. *)

Definition update : Type := value -> option value.
Definition statement : Type := (string * update)%type.

(** The part [o.k] of a statement on [o.k.rest]: read [o.k], let [f]
    act on it, and put the result back under [k]. *)
Definition upd (k : string) (f : update) : update :=
  fun o =>
    match getp o k with
    | None => None
    | Some v =>
        match f v with
        | None => None
        | Some v' => setp o k v'
        end
    end.

(** [x = x || d] *)
Definition init (d : value) : update := fun v => Some (or_else v d).

(** [x = e] *)
Definition const (e : value) : update := fun _ => Some e.

(** The statements of a script, run in order on [o]. *)
Fixpoint run (seq : list statement) (o : value) : option value :=
  match seq with
  | [] => Some o
  | (k, f) :: rest =>
      match upd k f o with
      | Some o' => run rest o'
      | None => None
      end
  end.

(** What the statements of [seq] that touch the key [k] do, in order,
    to the value held under [k]. *)
Fixpoint final (k : string) (seq : list statement) (v : value) : option value :=
  match seq with
  | [] => Some v
  | (k', f) :: rest =>
      if String.eqb k' k then
        match f v with
        | Some v' => final k rest v'
        | None => None
        end
      else final k rest v
  end.

(** The statements [o.k.rest = e] made of the statements [seq] on
    [o.k]. *)
Definition under (k : string) (seq : list statement) : list statement :=
  map (fun s => (k, upd (fst s) (snd s))) seq.

(** The value of the field [k], [undefined] when there is none. *)
Definition field (k : string) (fs : fields_t) : value :=
  match lookup k fs with
  | Some x => x
  | None => VUndef
  end.


(** Keys that are not array indices. *)
Definition name_keys (seq : list statement) : Prop :=
  Forall (fun s => array_index (fst s) = None) seq.

(** *** Conversions *)

(** [s.split(sep)] for a one-character separator. *)
Fixpoint split_on (sep : ascii) (s : string) : list string :=
  match s with
  | EmptyString => [EmptyString]
  | String c r =>
      if Ascii.eqb c sep then EmptyString :: split_on sep r
      else
        match split_on sep r with
        | x :: xs => String c x :: xs
        | [] => [String c EmptyString]
        end
  end.

(** [String(v)]; a number prints as its literal. *)
Fixpoint to_string (v : value) : string :=
  match v with
  | VUndef => "undefined"
  | VNull => "null"
  | VBool b => if b then "true" else "false"
  | VNum l => l
  | VStr s => s
  | VArr items _ =>
      String.concat ","
        (map (fun x => match x with
                       | VUndef | VNull => EmptyString
                       | _ => to_string x
                       end) items)
  | VObj _ => "[object Object]"
  end.

End Js.

(** ** JSON texts: [JSON.parse] and the quoting of [JSON.stringify] *)

Module Json.
Import Js.

Definition is_json_space (c : ascii) : bool :=
  existsb (Nat.eqb (nat_of_ascii c)) [32; 9; 10; 13]%nat.

Fixpoint skip_ws (s : string) : string :=
  match s with
  | String c r => if is_json_space c then skip_ws r else s
  | EmptyString => EmptyString
  end.

Definition hex_value (c : ascii) : option nat :=
  let n := nat_of_ascii c in
  if (48 <=? n)%nat && (n <=? 57)%nat then Some (n - 48)%nat
  else if (65 <=? n)%nat && (n <=? 70)%nat then Some (n - 55)%nat
  else if (97 <=? n)%nat && (n <=? 102)%nat then Some (n - 87)%nat
  else None.

(** The bytes (UTF-8) of the code unit written [\uXXXX]. *)
Definition utf8_of_unit (u : nat) (tail : string) : string :=
  if (u <? 128)%nat then String (ascii_of_nat u) tail
  else if (u <? 2048)%nat then
    String (ascii_of_nat (192 + u / 64))
      (String (ascii_of_nat (128 + u mod 64)) tail)
  else
    String (ascii_of_nat (224 + u / 4096))
      (String (ascii_of_nat (128 + (u / 64) mod 64))
         (String (ascii_of_nat (128 + u mod 64)) tail)).

(** The character denoted by a one-letter escape: quote, backslash,
    slash, b, f, n, r, t. *)
Definition unescape (e : ascii) : option ascii :=
  let n := nat_of_ascii e in
  if (n =? 34)%nat then Some e
  else if (n =? 92)%nat then Some e
  else if (n =? 47)%nat then Some e
  else if (n =? 98)%nat then Some (ascii_of_nat 8)
  else if (n =? 102)%nat then Some (ascii_of_nat 12)
  else if (n =? 110)%nat then Some (ascii_of_nat 10)
  else if (n =? 114)%nat then Some (ascii_of_nat 13)
  else if (n =? 116)%nat then Some (ascii_of_nat 9)
  else None.

(** The rest of a string literal, after its opening quote: the string
    it denotes and what follows the closing quote. *)
Fixpoint parse_string_body (s : string) : option (string * string) :=
  match s with
  | EmptyString => None
  | String c r =>
      let n := nat_of_ascii c in
      if (n =? 34)%nat then Some (EmptyString, r)
      else if (n <? 32)%nat then None
      else if (n =? 92)%nat then
        match r with
        | String e r1 =>
            if (nat_of_ascii e =? 117)%nat then
              match r1 with
              | String h1 (String h2 (String h3 (String h4 r5))) =>
                  match hex_value h1, hex_value h2, hex_value h3, hex_value h4 with
                  | Some a, Some b, Some c', Some d =>
                      match parse_string_body r5 with
                      | Some (str, rest) =>
                          Some (utf8_of_unit (((a * 16 + b) * 16 + c') * 16 + d) str, rest)
                      | None => None
                      end
                  | _, _, _, _ => None
                  end
              | _ => None
              end
            else
              match unescape e with
              | Some x =>
                  match parse_string_body r1 with
                  | Some (str, rest) => Some (String x str, rest)
                  | None => None
                  end
              | None => None
              end
        | EmptyString => None
        end
      else
        match parse_string_body r with
        | Some (str, rest) => Some (String c str, rest)
        | None => None
        end
  end.

(** The longest prefix of digits, and the rest. *)
Fixpoint span_digits (s : string) : string * string :=
  match s with
  | String c r =>
      if is_digit c then let (d, rest) := span_digits r in (String c d, rest)
      else (EmptyString, s)
  | EmptyString => (EmptyString, EmptyString)
  end.

Definition parse_int_part (s : string) : option (string * string) :=
  match s with
  | String c r =>
      if Ascii.eqb c "0" then Some ("0", r)
      else if is_digit c then Some (span_digits s)
      else None
  | EmptyString => None
  end.

Definition parse_frac_part (s : string) : option (string * string) :=
  match s with
  | String c r =>
      if Ascii.eqb c "." then
        match span_digits r with
        | (EmptyString, _) => None
        | (d, rest) => Some (String c d, rest)
        end
      else Some (EmptyString, s)
  | EmptyString => Some (EmptyString, s)
  end.

Definition parse_exp_part (s : string) : option (string * string) :=
  match s with
  | String c r =>
      if Ascii.eqb c "e" || Ascii.eqb c "E" then
        let (sign, r1) :=
          match r with
          | String g r' =>
              if Ascii.eqb g "+" || Ascii.eqb g "-"
              then (String g EmptyString, r') else (EmptyString, r)
          | EmptyString => (EmptyString, r)
          end in
        match span_digits r1 with
        | (EmptyString, _) => None
        | (d, rest) => Some (String c (sign ++ d), rest)
        end
      else Some (EmptyString, s)
  | EmptyString => Some (EmptyString, s)
  end.

(** A number literal: its text and the rest. *)
Definition parse_number (s : string) : option (string * string) :=
  let (sign, r0) :=
    match s with
    | String c r => if Ascii.eqb c "-" then ("-", r) else ("", s)
    | EmptyString => ("", s)
    end in
  match parse_int_part r0 with
  | None => None
  | Some (i, r1) =>
      match parse_frac_part r1 with
      | None => None
      | Some (f, r2) =>
          match parse_exp_part r2 with
          | None => None
          | Some (e, r3) => Some (sign ++ i ++ f ++ e, r3)
          end
      end
  end.

(** [expect w s]: [s] without its prefix [w]. *)
Fixpoint expect (w s : string) : option string :=
  match w, s with
  | EmptyString, _ => Some s
  | String a w', String b s' => if Ascii.eqb a b then expect w' s' else None
  | _, EmptyString => None
  end.

Section Containers.

(** The parser of one value, white space before it included. *)
Variable parse_one : string -> option (value * string).

(** The items of an array after the first check for the closing
    bracket: [n] bounds their number. *)
Fixpoint parse_elems (n : nat) (s : string) : option (list value * string) :=
  match n with
  | O => None
  | S n' =>
      match parse_one s with
      | None => None
      | Some (v, r) =>
          match skip_ws r with
          | String c r' =>
              if Ascii.eqb c "," then
                match parse_elems n' r' with
                | Some (vs, rest) => Some (v :: vs, rest)
                | None => None
                end
              else if Ascii.eqb c "]" then Some ([v], r')
              else None
          | EmptyString => None
          end
      end
  end.

(** The members of an object, in the order they are written. *)
Fixpoint parse_members (n : nat) (s : string) : option (fields_t * string) :=
  match n with
  | O => None
  | S n' =>
      match skip_ws s with
      | String q r0 =>
          if negb (Ascii.eqb q DQ) then None
          else
            match parse_string_body r0 with
            | None => None
            | Some (k, r1) =>
                match skip_ws r1 with
                | String colon r2 =>
                    if negb (Ascii.eqb colon ":") then None
                    else
                      match parse_one r2 with
                      | None => None
                      | Some (v, r3) =>
                          match skip_ws r3 with
                          | String c r4 =>
                              if Ascii.eqb c "," then
                                match parse_members n' r4 with
                                | Some (ms, rest) => Some ((k, v) :: ms, rest)
                                | None => None
                                end
                              else if Ascii.eqb c "}" then Some ([(k, v)], r4)
                              else None
                          | EmptyString => None
                          end
                      end
                | EmptyString => None
                end
            end
      | EmptyString => None
      end
  end.

End Containers.

(** The object made of members written in this order: a repeated key
    keeps its first place and its last value, index keys come first. *)
Definition object_of (ms : fields_t) : value :=
  VObj (fold_left (fun fs kv => obj_set (fst kv) (snd kv) fs) ms []).

(** One value and what follows it. The fuel bounds the nesting depth
    and the number of items of a container; the length of the text
    bounds both. *)
Fixpoint parse_value (fuel : nat) (s : string) : option (value * string) :=
  match fuel with
  | O => None
  | S f =>
      match skip_ws s with
      | EmptyString => None
      | String c r =>
          if Ascii.eqb c "{" then
            match skip_ws r with
            | String c' r' =>
                if Ascii.eqb c' "}" then Some (VObj [], r')
                else
                  match parse_members (parse_value f) f r with
                  | Some (ms, rest) => Some (object_of ms, rest)
                  | None => None
                  end
            | EmptyString => None
            end
          else if Ascii.eqb c "[" then
            match skip_ws r with
            | String c' r' =>
                if Ascii.eqb c' "]" then Some (VArr [] [], r')
                else
                  match parse_elems (parse_value f) f r with
                  | Some (vs, rest) => Some (VArr vs [], rest)
                  | None => None
                  end
            | EmptyString => None
            end
          else if Ascii.eqb c DQ then
            match parse_string_body r with
            | Some (str, rest) => Some (VStr str, rest)
            | None => None
            end
          else if Ascii.eqb c "t" then
            option_map (fun rest => (VBool true, rest)) (expect "rue" r)
          else if Ascii.eqb c "f" then
            option_map (fun rest => (VBool false, rest)) (expect "alse" r)
          else if Ascii.eqb c "n" then
            option_map (fun rest => (VNull, rest)) (expect "ull" r)
          else
            match parse_number (String c r) with
            | Some (l, rest) => Some (VNum l, rest)
            | None => None
            end
      end
  end.

(** [JSON.parse(text)]; [None] is the thrown [SyntaxError]. *)
Definition parse (text : string) : option value :=
  match parse_value (S (String.length text)) text with
  | Some (v, rest) => if is_empty (skip_ws rest) then Some v else None
  | None => None
  end.

(** *** Writing *)

Definition hex_digit (n : nat) : ascii :=
  if (n <? 10)%nat then ascii_of_nat (48 + n) else ascii_of_nat (87 + n).

(** The escape of one character inside a string literal. *)
Definition escape_char (c : ascii) (tail : string) : string :=
  let n := nat_of_ascii c in
  if (n =? 34)%nat then String "\" (String c tail)
  else if (n =? 92)%nat then String "\" (String "\" tail)
  else if (n =? 8)%nat then String "\" (String "b" tail)
  else if (n =? 12)%nat then String "\" (String "f" tail)
  else if (n =? 10)%nat then String "\" (String "n" tail)
  else if (n =? 13)%nat then String "\" (String "r" tail)
  else if (n =? 9)%nat then String "\" (String "t" tail)
  else if (n <? 32)%nat then
    String "\" (String "u" (String "0" (String "0"
      (String (hex_digit (n / 16)) (String (hex_digit (n mod 16)) tail)))))
  else String c tail.

Fixpoint escape (s : string) : string :=
  match s with
  | EmptyString => EmptyString
  | String c r => escape_char c (escape r)
  end.

(** [JSON.stringify(s)] for a string. *)
Definition quote (s : string) : string :=
  String DQ (escape s ++ String DQ EmptyString).

End Json.

(** ** Here-documents and the rclone configuration
    (start-openclaw.sh, [setup_rclone]) *)

Module Heredoc.

Definition is_name_start (c : ascii) : bool :=
  let n := nat_of_ascii c in
  ((97 <=? n) && (n <=? 122) || (65 <=? n) && (n <=? 90) || (n =? 95))%nat.

Definition is_name_char (c : ascii) : bool :=
  is_name_start c || Js.is_digit c.

(** Where the expansion stands: in plain text, after a dollar, in a
    name, or in a name between braces. *)
Inductive mode : Type :=
| Text
| Dollar
| Name (acc : string)
| Brace (acc : string).

(** Parameter expansion in the body of a here-document whose delimiter
    is not quoted: [$NAME] and [${NAME}] are replaced by the value of
    the variable (empty when unset). The bodies at hand hold nothing
    else that the shell expands. *)
Fixpoint expand_in (vars : string -> string) (m : mode) (t : string) : string :=
  match t with
  | EmptyString =>
      match m with
      | Text => EmptyString
      | Dollar => "$"
      | Name acc => vars acc
      | Brace acc => "${" ++ acc
      end
  | String c r =>
      let plain :=
        if Ascii.eqb c "$" then expand_in vars Dollar r
        else String c (expand_in vars Text r) in
      match m with
      | Text => plain
      | Dollar =>
          if Ascii.eqb c "{" then expand_in vars (Brace EmptyString) r
          else if is_name_start c
               then expand_in vars (Name (String c EmptyString)) r
               else String "$" plain
      | Name acc =>
          if is_name_char c
          then expand_in vars (Name (acc ++ String c EmptyString)) r
          else vars acc ++ plain
      | Brace acc =>
          if Ascii.eqb c "}" then vars acc ++ expand_in vars Text r
          else expand_in vars (Brace (acc ++ String c EmptyString)) r
      end
  end.

Definition expand (vars : string -> string) (t : string) : string :=
  expand_in vars Text t.

(** The lines up to the delimiter [EOF]. *)
Fixpoint until_delimiter (lines : list string) : option (list string) :=
  match lines with
  | [] => None
  | l :: r =>
      if String.eqb l "EOF" then Some []
      else option_map (cons l) (until_delimiter r)
  end.

Definition lines_text (ls : list string) : string :=
  String.concat EmptyString (map (fun l => l ++ String LF EmptyString) ls).

(** The body of the here-document that a command [... << EOF] opens on
    its first line. *)
Definition body (cmd : string) : option string :=
  match Js.split_on LF cmd with
  | _ :: rest => option_map lines_text (until_delimiter rest)
  | [] => None
  end.

End Heredoc.

Module Boot.

(** The body of the here-document of [setup_rclone]. *)
Definition rclone_conf_template : string :=
  Heredoc.lines_text
    [ "[r2]";
      "type = s3";
      "provider = Cloudflare";
      "access_key_id = ${R2_ACCESS_KEY_ID}";
      "secret_access_key = ${R2_SECRET_ACCESS_KEY}";
      "endpoint = https://${CF_ACCOUNT_ID}.r2.cloudflarestorage.com";
      "acl = private" ].

(** [setup_rclone]: the content of [/root/.config/rclone/rclone.conf]
    when the function returns 0, [None] when it returns 1. *)
Definition setup_rclone (vars : string -> string) : option string :=
  if is_empty (vars "R2_ACCESS_KEY_ID")
     || is_empty (vars "R2_SECRET_ACCESS_KEY")
     || is_empty (vars "CF_ACCOUNT_ID")
  then None
  else Some (Heredoc.expand vars rclone_conf_template).

(** The configuration file for given values of the three variables. *)
Definition rclone_conf (key secret account : string) : string :=
  Heredoc.lines_text
    [ "[r2]";
      "type = s3";
      "provider = Cloudflare";
      "access_key_id = " ++ key;
      "secret_access_key = " ++ secret;
      "endpoint = https://" ++ account ++ ".r2.cloudflarestorage.com";
      "acl = private" ].

(** [RCLONE_AVAILABLE] *)
Definition RCLONE_AVAILABLE (vars : string -> string) : bool :=
  match setup_rclone vars with
  | Some _ => true
  | None => false
  end.

(** The variables that [syncToR2] passes to its rclone configuration
    command. *)
Definition rcloneEnv (env : Sync.MoltbotEnv) (name : string) : string :=
  if String.eqb name "R2_ACCESS_KEY_ID" then Sync.cred (Sync.R2_ACCESS_KEY_ID env)
  else if String.eqb name "R2_SECRET_ACCESS_KEY"
  then Sync.cred (Sync.R2_SECRET_ACCESS_KEY env)
  else if String.eqb name "CF_ACCOUNT_ID" then Sync.cred (Sync.CF_ACCOUNT_ID env)
  else EmptyString.

End Boot.

(** ** Auth-state summary (src/gateway/auth-state.ts) *)

Module AuthState.
Import Js.

Record AuthStateInput : Type := {
  configText : option string;
  authProfilesText : option string;
  oauthFilePresent : option bool;
  agentId : option string
}.

Record AuthStateSummary : Type := {
  primary_model : option string;
  primary_provider : option string;
  agent_id : string;
  auth_profiles_present : bool;
  providers_with_profiles : list string;
  has_legacy_oauth_import_file : bool;
  mismatch_detected : bool
}.

(** *** Character classes of the two regular expressions (flag [i]) *)

Definition is_alnum (c : ascii) : bool :=
  let n := nat_of_ascii c in
  ((48 <=? n) && (n <=? 57) || (97 <=? n) && (n <=? 122)
   || (65 <=? n) && (n <=? 90))%nat.

(** [[a-z0-9._-]] *)
Definition is_token_char (c : ascii) : bool :=
  is_alnum c || existsb (Ascii.eqb c) ["."; "_"; "-"]%char.

Fixpoint all_chars (p : ascii -> bool) (s : string) : bool :=
  match s with
  | EmptyString => true
  | String c r => p c && all_chars p r
  end.

Definition lower_char (c : ascii) : ascii :=
  let n := nat_of_ascii c in
  if ((65 <=? n) && (n <=? 90))%nat then ascii_of_nat (n + 32) else c.

(** [s.toLowerCase()] *)
Fixpoint toLowerCase (s : string) : string :=
  match s with
  | EmptyString => EmptyString
  | String c r => String (lower_char c) (toLowerCase r)
  end.

(** [SIMPLE_PROVIDER_RE.test(s)]: [/^[a-z0-9][a-z0-9._-]*$/i] *)
Definition simple_provider (s : string) : bool :=
  match s with
  | EmptyString => false
  | String c r => is_alnum c && all_chars is_token_char r
  end.

(** The text before the first slash and the text after it. *)
Fixpoint split_slash (s : string) : option (string * string) :=
  match s with
  | EmptyString => None
  | String c r =>
      if Ascii.eqb c "/" then Some (EmptyString, r)
      else
        match split_slash r with
        | Some (a, b) => Some (String c a, b)
        | None => None
        end
  end.

(** [s.match(MODEL_PROVIDER_RE)], the two groups: a provider shaped as
    in [SIMPLE_PROVIDER_RE], a slash, then one or more characters that
    are not white space, up to the end. The first group cannot hold a
    slash, so it is the text before the first one. *)
Definition model_provider_match (s : string) : option (string * string) :=
  match split_slash s with
  | Some (provider, model) =>
      if simple_provider provider && negb (is_empty model)
         && all_chars (fun c => negb (is_space c)) model
      then Some (provider, model) else None
  | None => None
  end.

(** [s.startsWith(w)] *)
Definition startsWith (s w : string) : bool := String.prefix w s.

Definition parseJson (text : option string) : value :=
  match text with
  | None => VNull
  | Some t =>
      if is_empty t || is_empty (trim t) then VNull
      else
        match Json.parse t with
        | Some v => v
        | None => VNull
        end
  end.

Definition getPrimaryModelFromConfig (config : value) : option string :=
  if negb (truthy config) || negb (typeof_object config) then None
  else
    let agents := getp_opt config "agents" in
    let defaults := getp_opt agents "defaults" in
    let model := getp_opt defaults "model" in
    match model with
    | VStr s => Some s
    | _ =>
        if truthy model && typeof_object model then
          match getp_opt model "primary" with
          | VStr p => Some p
          | _ => None
          end
        else None
    end.

Definition providerFromModelRef (modelRef : option string) : option string :=
  match modelRef with
  | None => None
  | Some m =>
      if is_empty m then None
      else
        let trimmed := trim m in
        if is_empty trimmed || startsWith trimmed "http://"
           || startsWith trimmed "https://"
        then None
        else
          match model_provider_match trimmed with
          | Some (provider, _) => Some provider
          | None => None
          end
  end.

(** [set.add(x)] on a [Set], listed in insertion order. *)
Definition set_add (x : string) (set : list string) : list string :=
  if existsb (String.eqb x) set then set else (set ++ [x])%list.

Definition addProvider (set : list string) (maybeProvider : option string)
  : list string :=
  match maybeProvider with
  | None => set
  | Some p =>
      if is_empty p then set
      else
        let normalized := toLowerCase (trim p) in
        if is_empty normalized || negb (simple_provider normalized) then set
        else set_add normalized set
  end.

Definition is_provider_key (parentKey : string) : bool :=
  existsb (String.eqb parentKey) ["provider"; "providername"; "providerid"].

(** [collectProviders(value, out, parentKey)]. The [seen] set of the
    source guards against cycles, which a parsed text never has. *)
Fixpoint collectProviders (v : value) (out : list string) (parentKey : string)
  : list string :=
  match v with
  | VStr s =>
      let out1 := if is_provider_key parentKey then addProvider out (Some s) else out in
      addProvider out1 (providerFromModelRef (Some s))
  | VArr items _ =>
      fold_left (fun o item => collectProviders item o parentKey) items out
  | VObj fs =>
      fold_left
        (fun o kv =>
           match kv with
           | (key, child) =>
               collectProviders child
                 (addProvider o (providerFromModelRef (Some key)))
                 (toLowerCase key)
           end) fs out
  | _ => out
  end.

(** [w] at the head of [s], letters compared without case: the rest. *)
Fixpoint strip_prefix_ci (w s : string) : option string :=
  match w, s with
  | EmptyString, _ => Some s
  | String a w', String b s' =>
      if Ascii.eqb (lower_char a) (lower_char b) then strip_prefix_ci w' s' else None
  | _, EmptyString => None
  end.

(** The provider at the head of [s], followed by the end of the text
    or by a character outside [[a-z0-9._-]]. *)
Definition token_here (provider s : string) : bool :=
  match strip_prefix_ci provider s with
  | Some EmptyString => true
  | Some (String c _) => negb (is_token_char c)
  | None => false
  end.

(** The search of [(^|[^a-z0-9._-])provider([^a-z0-9._-]|$)] in [s];
    [boundary] tells whether the text may start here. *)
Fixpoint token_search (provider : string) (boundary : bool) (s : string) : bool :=
  (boundary && token_here provider s)
  || match s with
     | EmptyString => false
     | String c r => token_search provider (negb (is_token_char c)) r
     end.

(** [hasProviderToken(raw, provider)]: the provider is escaped before it
    is put in the expression, so it matches as a literal. *)
Definition hasProviderToken (raw provider : option string) : bool :=
  match raw, provider with
  | Some r, Some p =>
      if is_empty r || is_empty p then false else token_search p true r
  | _, _ => false
  end.

Definition summarizeAuthState (input : AuthStateInput) : AuthStateSummary :=
  let configObj := parseJson (configText input) in
  let authProfilesObj := parseJson (authProfilesText input) in
  let primaryModel := getPrimaryModelFromConfig configObj in
  let primaryProvider := providerFromModelRef primaryModel in
  let authProfilesPresent :=
    match authProfilesText input with
    | Some t => negb (is_empty (trim t))
    | None => false
    end in
  let providers := collectProviders authProfilesObj [] "" in
  let providers :=
    match primaryProvider with
    | Some p =>
        if negb (is_empty p) && hasProviderToken (authProfilesText input) primaryProvider
        then set_add p providers else providers
    | None => providers
    end in
  let providersWithProfiles := providers in
  let hasPrimaryProviderProfile :=
    match primaryProvider with
    | Some p =>
        if is_empty p then true
        else existsb (String.eqb p) providersWithProfiles
    | None => true
    end in
  {| primary_model := primaryModel;
     primary_provider := primaryProvider;
     agent_id := match agentId input with
                 | Some a => if is_empty a then "main" else a
                 | None => "main"
                 end;
     auth_profiles_present := authProfilesPresent;
     providers_with_profiles := providersWithProfiles;
     has_legacy_oauth_import_file :=
       match oauthFilePresent input with Some b => b | None => false end;
     mismatch_detected :=
       truthy_str primaryProvider && negb hasPrimaryProviderProfile |}.

(** *** [JSON.stringify(summary)] *)





(** The last character of a text. *)
Fixpoint last_char (s : string) : option ascii :=
  match s with
  | EmptyString => None
  | String c EmptyString => Some c
  | String _ r => last_char r
  end.

(** [provider] occurs in [text] as a token: spelled as it is, with the
    start of the text or a character outside [[a-z0-9._-]] before it,
    and the end of the text or such a character after it. *)
Definition token_bounded (provider text : string) : Prop :=
  exists pre post,
    text = pre ++ provider ++ post
    /\ match last_char pre with
       | Some c => is_token_char c = false
       | None => True
       end
    /\ match post with
       | String c _ => is_token_char c = false
       | EmptyString => True
       end.

(** No slash in the text. *)
Definition slash_free (s : string) : bool :=
  all_chars (fun c => negb (Ascii.eqb c "/")) s.

(** [haystack.includes(needle)] *)
Fixpoint includes (haystack needle : string) : bool :=
  String.prefix needle haystack
  || match haystack with
     | EmptyString => false
     | String _ r => includes r needle
     end.

(** *** Where the strings of the summary come from *)

(** [c] occurs in [s]. *)
Definition occurs (c s : string) : Prop :=
  exists pre post, s = pre ++ c ++ post.


(** [p] is what [addProvider] keeps of [s]. *)
Definition normalized (s p : string) : Prop :=
  p = toLowerCase (trim s) /\ simple_provider p = true.

(** [p] is the normalized provider prefix of the model reference [s]. *)
Definition model_ref_provider (s p : string) : Prop :=
  exists q, providerFromModelRef (Some s) = Some q /\ normalized q p.

(** The provider names a parsed store declares, read under the parent
    key [parentKey]: the strings held under a provider key, and the
    provider prefixes of the strings and keys shaped as model
    references. *)
Inductive declares : value -> string -> string -> Prop :=
| declares_provider_field (s parentKey p : string) :
    is_provider_key parentKey = true -> normalized s p ->
    declares (VStr s) parentKey p
| declares_model_ref (s parentKey p : string) :
    model_ref_provider s p ->
    declares (VStr s) parentKey p
| declares_item (items : list value) (ps : fields_t) (parentKey p : string)
    (item : value) :
    In item items -> declares item parentKey p ->
    declares (VArr items ps) parentKey p
| declares_key (fs : fields_t) (parentKey p key : string) (child : value) :
    In (key, child) fs -> model_ref_provider key p ->
    declares (VObj fs) parentKey p
| declares_child (fs : fields_t) (parentKey p key : string) (child : value) :
    In (key, child) fs -> declares child (toLowerCase key) p ->
    declares (VObj fs) parentKey p.


End AuthState.

(** ** Mounting the bucket (src/gateway/r2.ts) *)

Module R2.

(** What one run of the probe of [isR2Mounted] meets: a rejected
    [startProcess], [waitForProcess] or [getLogs], or the logs with
    their [stdout], which may be missing. *)
Inductive Probe : Type :=
| StartThrows
| WaitThrows
| LogsThrow
| Logs (stdout : option string).

(** The calls made on the sandbox. *)
Inductive Event : Type :=
| Probed (cmd : string)
| MountCalled (bucket path endpoint accessKeyId secretAccessKey : string).

(** The sandbox is an oracle: what a probe meets, and whether
    [mountBucket] resolves, depend on the calls made so far. *)
Record Sandbox : Type := {
  probe : list Event -> Probe;
  mount_resolves : list Event -> bool;
  events : list Event
}.

Definition record (e : Event) (sb : Sandbox) : Sandbox :=
  {| probe := probe sb; mount_resolves := mount_resolves sb;
     events := events sb ++ [e] |}.

Section Mount.

(** [R2_MOUNT_PATH] and [getR2BucketName] live in [../config]. *)
Variable R2_MOUNT_PATH : string.
Variable getR2BucketName : Sync.MoltbotEnv -> string.

Definition probeCmd : string :=
  "mount | grep -q " ++ String DQ ("s3fs on " ++ R2_MOUNT_PATH)
  ++ String DQ " && echo mounted || echo not-mounted".

(** The test made on the logs. *)
Definition says_mounted (p : Probe) : bool :=
  match p with
  | Logs (Some out) =>
      negb (is_empty out)
      && AuthState.includes out "mounted"
      && negb (AuthState.includes out "not-mounted")
  | _ => false
  end.

Definition isR2Mounted (sb : Sandbox) : bool * Sandbox :=
  (says_mounted (probe sb (events sb)), record (Probed probeCmd) sb).

Definition mountR2Storage (sb : Sandbox) (env : Sync.MoltbotEnv)
  : bool * Sandbox :=
  if negb (truthy_str (Sync.R2_ACCESS_KEY_ID env))
     || negb (truthy_str (Sync.R2_SECRET_ACCESS_KEY env))
     || negb (truthy_str (Sync.CF_ACCOUNT_ID env))
  then (false, sb)
  else
    let (mounted, sb1) := isR2Mounted sb in
    if mounted then (true, sb1)
    else
      let bucketName := getR2BucketName env in
      let call :=
        MountCalled bucketName R2_MOUNT_PATH
          ("https://" ++ Sync.cred (Sync.CF_ACCOUNT_ID env)
           ++ ".r2.cloudflarestorage.com")
          (Sync.cred (Sync.R2_ACCESS_KEY_ID env))
          (Sync.cred (Sync.R2_SECRET_ACCESS_KEY env)) in
      let resolves := mount_resolves sb1 (events sb1) in
      let sb2 := record call sb1 in
      if resolves then (true, sb2)
      else isR2Mounted sb2.

Definition is_mount (e : Event) : bool :=
  match e with
  | MountCalled _ _ _ _ _ => true
  | Probed _ => false
  end.

End Mount.
End R2.

(** ** Auth store migration (start-openclaw.sh, the openai-codex
    bootstrap script) *)

Module AuthStore.
Import Js.

(** [[A-Za-z0-9_-]] *)
Definition is_b64url_char (c : ascii) : bool :=
  AuthState.is_alnum c || Ascii.eqb c "_" || Ascii.eqb c "-".

Definition b64url_segment (s : string) : bool :=
  negb (is_empty s) && AuthState.all_chars is_b64url_char s.

(** [isJwt(t)]: three non-empty base64url segments joined by dots. *)
Definition isJwt (t : string) : bool :=
  match split_on "." t with
  | [a; b; c] => b64url_segment a && b64url_segment b && b64url_segment c
  | _ => false
  end.

Section Store.

(** [Number(v)] for a string, an array or an object: the literal of the
    number, or [NaN]. *)
Variable number_of : value -> string.

(** The expiry that the script reads from a token: [exp * 1000] when
    the payload of the token decodes (base64, then JSON) to an object
    whose [exp] is a number other than zero. *)
Variable jwt_expires : string -> option string.

(** [Number(v)] *)
Definition to_number (v : value) : value :=
  match v with
  | VNum l => VNum l
  | VBool b => VNum (if b then "1" else "0")
  | VNull => VNum "0"
  | VUndef => VNum "NaN"
  | _ => VNum (number_of v)
  end.

Definition ensureStoreShape (raw : value) : value :=
  if truthy raw && typeof_object raw
     && truthy (getp_opt raw "profiles")
     && typeof_object (getp_opt raw "profiles")
  then
    VObj [ ("version",
            or_else (to_number (or_else (getp_opt raw "version") (VNum "1")))
                    (VNum "1"));
           ("profiles", getp_opt raw "profiles");
           ("order", getp_opt raw "order");
           ("lastGood", getp_opt raw "lastGood");
           ("usageStats", getp_opt raw "usageStats") ]
  else VObj [("version", VNum "1"); ("profiles", VObj [])].

(** The profile written for one entry of a legacy store, with its id;
    [None] when the entry is skipped. *)
Definition migrate_entry (id : string) (cred : value) : option (string * value) :=
  if negb (truthy cred) || negb (typeof_object cred) then None
  else
    let providerId :=
      trim (to_string
              (or_else (getp_opt cred "provider")
                 (or_else (VStr (hd EmptyString (split_on ":" id)))
                          (VStr EmptyString)))) in
    if is_empty providerId then None
    else
      let apiKey :=
        trim (to_string
                (or_else (getp_opt cred "apiKey")
                   (or_else (getp_opt cred "key")
                      (or_else (getp_opt cred "token") (VStr EmptyString))))) in
      if is_empty apiKey then None
      else
        let profileId := providerId ++ ":default" in
        if String.eqb providerId "openai-codex" then
          let expires := if isJwt apiKey then jwt_expires apiKey else None in
          Some (profileId,
                VObj ([ ("type", VStr "token");
                        ("provider", VStr providerId);
                        ("token", VStr apiKey) ]
                      ++ match expires with
                         | Some e => [("expires", VNum e)]
                         | None => []
                         end))
        else
          Some (profileId,
                VObj [ ("type", VStr "api_key");
                       ("provider", VStr providerId);
                       ("key", VStr apiKey) ])
  .

(** The loop of [migrateLegacyIntoStore] over [Object.entries(raw)]:
    the profiles collected. *)
Definition migrate_entries (es : fields_t) : fields_t :=
  fold_left
    (fun profiles kv =>
       match migrate_entry (fst kv) (snd kv) with
       | Some (profileId, profile) => obj_set profileId profile profiles
       | None => profiles
       end) es [].

(** [migrateLegacyIntoStore(raw)]; [None] is the [null] it returns. *)
Definition migrateLegacyIntoStore (raw : value) : option value :=
  if negb (truthy raw) || negb (typeof_object raw)
     || truthy (getp_opt raw "profiles")
  then None
  else
    match migrate_entries (entries raw) with
    | [] => None
    | profiles => Some (VObj [("version", VNum "1"); ("profiles", VObj profiles)])
    end.

(** Step 1 of the script, on what [loadJson(AUTH_PATH)] returned
    ([VNull] when the file is missing or unreadable): the store held in
    memory afterwards, and the content of the file afterwards as a later
    [loadJson] returns it. The file is written only when a migration
    took place. *)
Definition load_and_migrate (raw : value) : value * value :=
  let store := ensureStoreShape raw in
  match migrateLegacyIntoStore raw with
  | Some migrated =>
      let store := ensureStoreShape migrated in
      (store, reload store)
  | None => (store, raw)
  end.

End Store.
End AuthStore.

(** ** The boot-time auth check (start-openclaw.sh,
    [check_auth_provider_state], the [EOFAUTH] script) *)

Module AuthCheck.
Import Js.

(** The variables the script reads. *)
Record Env : Type := {
  ANTHROPIC_OAUTH_TOKEN : option string;
  ANTHROPIC_API_KEY : option string;
  OPENAI_API_KEY : option string
}.

(** What the script computes and writes to [/tmp/openclaw-auth-state.json]. *)
Record State : Type := {
  primaryModel : option string;
  primaryProvider : option string;
  authProfilesPresent : bool;
  hasRequiredProvider : bool;
  mismatch : bool
}.

(** [readJson(path)], on the text of the file ([None]: no file). *)
Definition readJson (file : option string) : value :=
  match file with
  | Some text =>
      match Json.parse text with
      | Some v => v
      | None => VNull
      end
  | None => VNull
  end.

Definition getPrimaryModel (config : value) : option string :=
  if negb (truthy config) || negb (typeof_object config) then None
  else
    let model :=
      getp_opt (getp_opt (getp_opt config "agents") "defaults") "model" in
    match model with
    | VStr s => Some s
    | _ =>
        if truthy model && typeof_object model then
          match getp_opt model "primary" with
          | VStr p => Some p
          | _ => None
          end
        else None
    end.

Definition providerFromModel (modelRef : option string) : option string :=
  match modelRef with
  | None => None
  | Some m =>
      if is_empty m then None
      else
        let trimmed := trim m in
        if is_empty trimmed || AuthState.startsWith trimmed "http://"
           || AuthState.startsWith trimmed "https://"
        then None
        else
          match AuthState.split_slash trimmed with
          | Some (provider, _) =>
              if is_empty provider then None
              else Some (AuthState.toLowerCase provider)
          | None => None
          end
  end.

Definition hasProviderEnvKey (env : Env) (provider : string) : bool :=
  let p := AuthState.toLowerCase provider in
  if String.eqb p "anthropic"
  then truthy_str (ANTHROPIC_OAUTH_TOKEN env) || truthy_str (ANTHROPIC_API_KEY env)
  else if String.eqb p "openai" then truthy_str (OPENAI_API_KEY env)
  else false.

(** [Object.entries(v)]; the entries of a string are its characters. *)
Fixpoint characters (s : string) : list value :=
  match s with
  | EmptyString => []
  | String c r => VStr (String c EmptyString) :: characters r
  end.

Definition entries_of (v : value) : fields_t :=
  match v with
  | VStr s => index_entries 0 (characters s)
  | _ => entries v
  end.

Section Store.

(** [String(n)] for the number of a literal. *)
Variable Number_toString : string -> string.

(** [String(v)] *)
Fixpoint to_text (v : value) : string :=
  match v with
  | VUndef => "undefined"
  | VNull => "null"
  | VBool b => if b then "true" else "false"
  | VNum l => Number_toString l
  | VStr s => s
  | VArr items _ =>
      String.concat ","
        (map (fun x => match x with
                       | VUndef | VNull => EmptyString
                       | _ => to_text x
                       end) items)
  | VObj _ => "[object Object]"
  end.

(** The test the two loops of [hasProviderInAuthStore] make on an
    entry. *)
Definition entry_matches (p : string) (kv : string * value) : bool :=
  let (id, cred) := kv in
  if negb (truthy cred) || negb (typeof_object cred) then false
  else
    String.eqb
      (AuthState.toLowerCase
         (to_text (or_else (getp_opt cred "provider") (VStr EmptyString)))) p
    || AuthState.startsWith (AuthState.toLowerCase id) (p ++ ":").

Definition hasProviderInAuthStore (storeObj : value) (provider : string) : bool :=
  if negb (truthy storeObj) || is_empty provider then false
  else
    let p := AuthState.toLowerCase provider in
    let profiles := getp_opt storeObj "profiles" in
    if truthy profiles && typeof_object profiles
    then existsb (entry_matches p) (entries_of profiles)
    else existsb (entry_matches p) (entries_of storeObj).

(** The script, on the texts of the config file and of the auth store
    ([None]: no such file). *)
Definition check (env : Env) (configFile authFile : option string) : State :=
  let config := readJson configFile in
  let primaryModel := getPrimaryModel config in
  let primaryProvider := providerFromModel primaryModel in
  let (authRaw, authObj) :=
    match authFile with
    | Some text =>
        match Json.parse text with
        | Some v => (text, v)
        | None => (EmptyString, VNull)
        end
    | None => (EmptyString, VNull)
    end in
  let authProfilesPresent := negb (is_empty (trim authRaw)) in
  let hasRequiredProvider :=
    match primaryProvider with
    | Some p =>
        hasProviderEnvKey env p || hasProviderInAuthStore authObj p
    | None => true
    end in
  {| primaryModel := primaryModel;
     primaryProvider := primaryProvider;
     authProfilesPresent := authProfilesPresent;
     hasRequiredProvider := hasRequiredProvider;
     mismatch :=
       match primaryProvider with
       | Some _ => negb hasRequiredProvider
       | None => false
       end |}.

(** [process.exit(mismatch ? 42 : 0)] *)
Definition exit_code (s : State) : Z := if mismatch s then 42%Z else 0%Z.

End Store.
End AuthCheck.

(** ** The openai-codex bootstrap (start-openclaw.sh, the test on the
    model references and the [EOFCODEX] script)

    The clock is read once per run: [is_past] and [now_reached] answer
    for the instant of the run. *)

Module CodexBootstrap.
Import Js.

Definition provider : string := "openai-codex".
Definition PROFILE_ID : string := "openai-codex:default".

(** The strings among the items of an array. *)
Fixpoint string_items (items : list value) : list string :=
  match items with
  | [] => []
  | VStr s :: r => s :: string_items r
  | _ :: r => string_items r
  end.

(** The [node -e] test that sets [NEEDS_OPENAI_CODEX]: whether a model
    reference of the config starts with [openai-codex/]. A config that
    cannot be read or parsed makes the test fail. *)
Definition needs_codex (configFile : option string) : bool :=
  match configFile with
  | None => false
  | Some text =>
      match Json.parse text with
      | None => false
      | Some c =>
          let m :=
            or_else
              (getp_opt (getp_opt (getp_opt c "agents") "defaults") "model")
              (VObj []) in
          let refs :=
            app (match m with VStr s => [s] | _ => [] end)
              (if truthy m && typeof_object m then
                 app (match getp_opt m "primary" with VStr p => [p] | _ => [] end)
                   (match getp_opt m "fallbacks" with
                    | VArr items _ => string_items items
                    | _ => []
                    end)
               else []) in
          existsb (fun r => AuthState.startsWith r "openai-codex/") refs
      end
  end.

Section Script.

Variable number_of : value -> string.
Variable jwt_expires : string -> option string.

(** [String(n)] for the number of a literal. *)
Variable Number_toString : string -> string.

(** The number of the literal is finite, positive, and not after
    [Date.now()]. *)
Variable is_past : string -> bool.

(** [Date.now() >= n] for the number [n] of the literal. *)
Variable now_reached : string -> bool.

Definition findProfileIds (store : value) (providerId : string) : list string :=
  let pref := AuthState.toLowerCase providerId ++ ":" in
  filter (fun id => AuthState.startsWith (AuthState.toLowerCase id) pref)
    (map fst (entries (or_else (getp_opt store "profiles") (VObj [])))).

Definition isExpired (cred : value) : bool :=
  if negb (truthy cred) || negb (typeof_object cred) then false
  else
    match getp_opt cred "expires" with
    | VNum l => is_past l
    | _ => false
    end.

(** The test that [hasValid] makes on a profile id. *)
Definition valid_profile (store : value) (id : string) : bool :=
  let cred := getp_opt (getp_opt store "profiles") id in
  if negb (truthy cred) then false
  else
    let type := AuthCheck.to_text Number_toString (getp_opt cred "type") in
    if negb (String.eqb type "token") && negb (String.eqb type "oauth") then false
    else if negb (String.eqb
                    (AuthState.toLowerCase
                       (AuthCheck.to_text Number_toString
                          (or_else (getp_opt cred "provider") (VStr EmptyString))))
                    provider)
    then false
    else negb (isExpired cred).

Definition hasValid (store : value) : bool :=
  existsb (valid_profile store) (findProfileIds store provider).

(** The profile written for the token of the environment. *)
Definition token_profile (envToken : string) : value :=
  VObj (app [ ("type", VStr "token");
              ("provider", VStr provider);
              ("token", VStr envToken) ]
           match jwt_expires envToken with
           | Some e => [("expires", VNum e)]
           | None => []
           end).

(** Step 2 of the script, on the store held in memory: what it writes
    to the file, if it writes. *)
Definition bootstrap (store : value) (envToken : string) : option value :=
  if hasValid store || is_empty envToken then None
  else if negb (AuthStore.isJwt envToken) then None
  else if match jwt_expires envToken with
          | Some e => now_reached e
          | None => false
          end
  then None
  else
    match setp (getp_opt store "profiles") PROFILE_ID (token_profile envToken) with
    | Some profiles =>
        Some (VObj [("version", VNum "1"); ("profiles", profiles)])
    | None => None
    end.

(** The script, on what [loadJson(AUTH_PATH)] returns ([VNull] when the
    file is missing or unreadable) and on [OPENAI_API_KEY]: the content
    of the file afterwards, as a later [loadJson] returns it. *)
Definition script (raw : value) (OPENAI_API_KEY : option string) : value :=
  let envToken :=
    trim (match OPENAI_API_KEY with Some s => s | None => EmptyString end) in
  let (store, file) := AuthStore.load_and_migrate number_of jwt_expires raw in
  match bootstrap store envToken with
  | Some written => reload written
  | None => file
  end.

(** The part of the boot that runs the script: only with
    [OPENAI_API_KEY] set and a model reference that needs the
    provider. *)
Definition boot_step (configFile : option string) (raw : value)
    (OPENAI_API_KEY : option string) : value :=
  if truthy_str OPENAI_API_KEY && needs_codex configFile
  then script raw OPENAI_API_KEY
  else raw.

End Script.
End CodexBootstrap.

(** ** Auth reconciliation (start-openclaw.sh, the steps around
    [check_auth_provider_state])

    The auth store is followed as the value that [JSON.parse] gives for
    its file ([null] when the file is missing or is not JSON), which is
    all that the outcome of the check depends on. *)

Module Reconcile.
Import Js.

(** Whether [check_auth_provider_state] exits with 42, on the parsed
    config and auth store. *)
Section Check.

Variable Number_toString : string -> string.

Definition mismatch_parsed (env : AuthCheck.Env) (config authObj : value) : bool :=
  match AuthCheck.providerFromModel (AuthCheck.getPrimaryModel config) with
  | Some p =>
      negb (AuthCheck.hasProviderEnvKey env p
            || AuthCheck.hasProviderInAuthStore Number_toString authObj p)
  | None => false
  end.

End Check.

(** What the boot finds and what the external commands do. *)
Record Inputs : Type := {
  env : AuthCheck.Env;
  configFile : option string;
  auth : value;
  RCLONE_AVAILABLE : bool;
  OAUTH_STORE_present : bool;
  (** the auth store after the attempt to restore it with rclone
      ([None]: [rclone copy] fails, which stops the script) *)
  restored : option value;
  (** the config file and the auth store after
      [openclaw models list] / [openclaw doctor] *)
  refreshed : option string * value
}.

(** [AUTH_DEGRADED_MARKER]: written with the primary provider of the
    last check, or removed. *)
Inductive Marker : Type :=
| Degraded (PRIMARY_PROVIDER : string)
| Removed.

Section Flow.

Variable number_of : value -> string.
Variable jwt_expires : string -> option string.
Variable Number_toString : string -> string.
Variable is_past : string -> bool.
Variable now_reached : string -> bool.

(** [s.primaryProvider || 'unknown'] of the state file of a check. *)
Definition provider_text (configFile : option string) : string :=
  match AuthCheck.providerFromModel
          (AuthCheck.getPrimaryModel (AuthCheck.readJson configFile)) with
  | Some p => p
  | None => "unknown"
  end.

(** The reconciliation: the marker and the auth store at the end;
    [None] when the script stops on a failed [rclone copy]. *)
Definition reconcile (i : Inputs) : option (Marker * value) :=
  let config := AuthCheck.readJson (configFile i) in
  let required0 := mismatch_parsed Number_toString (env i) config (auth i) in
  let after_restore :=
    if required0 && RCLONE_AVAILABLE i then
      match restored i with
      | Some auth1 =>
          Some (mismatch_parsed Number_toString (env i) config auth1, auth1)
      | None => None
      end
    else Some (required0, auth i) in
  match after_restore with
  | None => None
  | Some (required1, auth1) =>
      let auth2 :=
        CodexBootstrap.boot_step number_of jwt_expires Number_toString
          is_past now_reached (configFile i) auth1
          (AuthCheck.OPENAI_API_KEY (env i)) in
      if required1 && OAUTH_STORE_present i then
        let (configFile3, auth3) := refreshed i in
        if mismatch_parsed Number_toString (env i)
             (AuthCheck.readJson configFile3) auth3
        then Some (Degraded (provider_text configFile3), auth3)
        else Some (Removed, auth3)
      else if required1 then Some (Degraded (provider_text (configFile i)), auth2)
      else Some (Removed, auth2)
  end.

End Flow.
End Reconcile.

(** ** ConfigPatcher (start-openclaw.sh, the [EOFPATCH] script) *)

Module ConfigPatcher.
Import Js.

(** The environment variables the script reads. *)
Record Env : Type := {
  OPENCLAW_GATEWAY_TOKEN : option string;
  OPENCLAW_DEV_MODE : option string;
  CF_AI_GATEWAY_MODEL : option string;
  CF_AI_GATEWAY_ACCOUNT_ID : option string;
  CF_AI_GATEWAY_GATEWAY_ID : option string;
  CLOUDFLARE_AI_GATEWAY_API_KEY : option string;
  CF_ACCOUNT_ID : option string;
  TELEGRAM_BOT_TOKEN : option string;
  TELEGRAM_DM_POLICY : option string;
  TELEGRAM_DM_ALLOW_FROM : option string;
  DISCORD_BOT_TOKEN : option string;
  DISCORD_DM_POLICY : option string;
  SLACK_BOT_TOKEN : option string;
  SLACK_APP_TOKEN : option string
}.

(** The value of a variable that is set and not empty. *)
Definition env_value (v : option string) : string :=
  match v with Some s => s | None => EmptyString end.

(** [process.env.X || d] *)
Definition env_or (v : option string) (d : string) : string :=
  if truthy_str v then env_value v else d.

Definition EXTENSIONS_PATH : string := "/root/.openclaw/extensions".

Definition strings (l : list string) : value := VArr (map VStr l) [].

(** [if (!paths.includes(p)) paths.push(p)] on the value of
    [config.plugins.load.paths]. A string has [includes] and no
    [push]; a number, a boolean or an object has neither; an array has
    both unless a property of its own hides them. *)
Definition add_extension_path : update :=
  fun paths =>
    match paths with
    | VArr items ps =>
        match lookup "includes" ps with
        | Some _ => None
        | None =>
            if existsb (fun x => match x with
                                 | VStr s => String.eqb s EXTENSIONS_PATH
                                 | _ => false
                                 end) items
            then Some paths
            else
              match lookup "push" ps with
              | Some _ => None
              | None => Some (VArr (items ++ [VStr EXTENSIONS_PATH]) ps)
              end
        end
    | VStr s => if AuthState.includes s EXTENSIONS_PATH then Some paths else None
    | _ => None
    end.

(** *** The AI Gateway model override *)

(** [raw.substring(0, raw.indexOf('/'))] and
    [raw.substring(raw.indexOf('/') + 1)]. *)
Definition gateway_model_parts (raw : string) : string * string :=
  match AuthState.split_slash raw with
  | Some (gwProvider, modelId) => (gwProvider, modelId)
  | None => (EmptyString, raw)
  end.

Definition gateway_base_url (env : Env) (gwProvider : string) : option string :=
  if truthy_str (CF_AI_GATEWAY_ACCOUNT_ID env)
     && truthy_str (CF_AI_GATEWAY_GATEWAY_ID env)
  then
    let baseUrl :=
      "https://gateway.ai.cloudflare.com/v1/"
      ++ env_value (CF_AI_GATEWAY_ACCOUNT_ID env) ++ "/"
      ++ env_value (CF_AI_GATEWAY_GATEWAY_ID env) ++ "/" ++ gwProvider in
    Some (if String.eqb gwProvider "workers-ai" then baseUrl ++ "/v1" else baseUrl)
  else if String.eqb gwProvider "workers-ai" && truthy_str (CF_ACCOUNT_ID env)
  then Some ("https://api.cloudflare.com/client/v4/accounts/"
             ++ env_value (CF_ACCOUNT_ID env) ++ "/ai/v1")
  else None.

(** The provider entry and the default model of the override; [None]
    when the override is skipped. *)
Definition gateway_override_values (env : Env) : option (string * value * value) :=
  if truthy_str (CF_AI_GATEWAY_MODEL env) then
    let raw := env_value (CF_AI_GATEWAY_MODEL env) in
    let (gwProvider, modelId) := gateway_model_parts raw in
    match gateway_base_url env gwProvider with
    | Some baseUrl =>
        if negb (is_empty baseUrl)
           && truthy_str (CLOUDFLARE_AI_GATEWAY_API_KEY env)
        then
          let apiKey := env_value (CLOUDFLARE_AI_GATEWAY_API_KEY env) in
          let api := if String.eqb gwProvider "anthropic"
                     then "anthropic-messages" else "openai-completions" in
          let providerName := "cf-ai-gw-" ++ gwProvider in
          Some (providerName,
                VObj [ ("baseUrl", VStr baseUrl);
                       ("apiKey", VStr apiKey);
                       ("api", VStr api);
                       ("models",
                        VArr [ VObj [ ("id", VStr modelId);
                                      ("name", VStr modelId);
                                      ("contextWindow", VNum "131072");
                                      ("maxTokens", VNum "8192") ] ] []) ],
                VObj [("primary", VStr (providerName ++ "/" ++ modelId))])
        else None
    | None => None
    end
  else None.

Definition gateway_override (env : Env) : list statement :=
  match gateway_override_values env with
  | Some (providerName, entry, model) =>
      (("models", init (VObj []))
       :: under "models"
            (("providers", init (VObj []))
             :: under "providers" [(providerName, const entry)]))
      ++ (("agents", init (VObj []))
          :: under "agents"
               (("defaults", init (VObj []))
                :: under "defaults" [("model", const model)]))
  | None => []
  end.

(** *** Channels: the statements on [config.channels] *)

Definition telegram (env : Env) : list statement :=
  if truthy_str (TELEGRAM_BOT_TOKEN env) then
    let dmPolicy := env_or (TELEGRAM_DM_POLICY env) "pairing" in
    ("telegram",
     const (VObj [ ("botToken", VStr (env_value (TELEGRAM_BOT_TOKEN env)));
                   ("enabled", VBool true);
                   ("dmPolicy", VStr dmPolicy) ]))
    :: under "telegram"
         (if truthy_str (TELEGRAM_DM_ALLOW_FROM env) then
            [ ("allowFrom",
               const (strings (split_on "," (env_value (TELEGRAM_DM_ALLOW_FROM env))))) ]
          else if String.eqb dmPolicy "open" then
            [ ("allowFrom", const (strings ["*"])) ]
          else [])
  else [].

Definition discord (env : Env) : list statement :=
  if truthy_str (DISCORD_BOT_TOKEN env) then
    let dmPolicy := env_or (DISCORD_DM_POLICY env) "pairing" in
    let dm :=
      VObj ([("policy", VStr dmPolicy)]
            ++ (if String.eqb dmPolicy "open"
                then [("allowFrom", strings ["*"])] else [])) in
    [ ("discord",
       const (VObj [ ("token", VStr (env_value (DISCORD_BOT_TOKEN env)));
                     ("enabled", VBool true);
                     ("dm", dm) ])) ]
  else [].

Definition slack (env : Env) : list statement :=
  if truthy_str (SLACK_BOT_TOKEN env) && truthy_str (SLACK_APP_TOKEN env) then
    [ ("slack",
       const (VObj [ ("botToken", VStr (env_value (SLACK_BOT_TOKEN env)));
                     ("appToken", VStr (env_value (SLACK_APP_TOKEN env)));
                     ("enabled", VBool true) ])) ]
  else [].

Definition channels (env : Env) : list statement :=
  telegram env ++ discord env ++ slack env.

(** *** Plugins: the statements on [config.plugins] *)

Definition plugin_paths : list statement :=
  [ ("paths", init (VArr [] [])); ("paths", add_extension_path) ].

Definition plugin_entries : list statement :=
  ("trace-model", init (VObj []))
  :: under "trace-model" [("enabled", const (VBool true))].

Definition plugins : list statement :=
  [ ("entries", init (VObj [])); ("load", init (VObj [])) ]
  ++ under "load" plugin_paths
  ++ under "entries" plugin_entries.

(** *** Gateway: the statements on [config.gateway] *)

Definition gateway_auth (env : Env) : list statement :=
  if truthy_str (OPENCLAW_GATEWAY_TOKEN env) then
    ("auth", init (VObj []))
    :: under "auth" [("token", const (VStr (env_value (OPENCLAW_GATEWAY_TOKEN env))))]
  else [].

Definition gateway_controlUi (env : Env) : list statement :=
  if match OPENCLAW_DEV_MODE env with
     | Some m => String.eqb m "true"
     | None => false
     end
  then
    ("controlUi", init (VObj []))
    :: under "controlUi" [("allowInsecureAuth", const (VBool true))]
  else [].

Definition gateway (env : Env) : list statement :=
  [ ("port", const (VNum "18789"));
    ("mode", const (VStr "local"));
    ("trustedProxies", const (strings ["10.1.0.0"])) ]
  ++ gateway_auth env
  ++ gateway_controlUi env.

(** *** The script

    The statements between the read of the file and the write, in the
    order of the source. *)
Definition statements (env : Env) : list statement :=
  [ ("gateway", init (VObj []));
    ("channels", init (VObj []));
    ("plugins", init (VObj [])) ]
  ++ under "plugins" plugins
  ++ under "gateway" (gateway env)
  ++ gateway_override env
  ++ under "channels" (channels env).


(** [config] as the script starts with it: the parsed file, or [{}]
    when the file is missing or is not JSON. *)
Definition read_config (file : option string) : value :=
  match file with
  | Some text =>
      match Json.parse text with
      | Some v => v
      | None => VObj []
      end
  | None => VObj []
  end.

(** One run of the script on the document held by the file: the
    document the file holds afterwards, as the next read returns it.
    [None]: the script stops on a [TypeError] and writes nothing. *)
Definition patch (env : Env) (config : value) : option value :=
  option_map reload (run (statements env) config).




(** *** Documents of the expected shape

    Each subtree the script descends into is an object, or is missing
    (or falsy, which the script replaces by an empty object); the plugin
    search path, when there is one, is an array. *)

Definition plain (v : value) : bool :=
  negb (truthy v) || match v with VObj _ => true | _ => false end.

Definition plain_array (v : value) : bool :=
  negb (truthy v) || match v with VArr _ [] => true | _ => false end.

Definition well_shaped (config : value) : bool :=
  match config with
  | VObj fs =>
      let gateway := field "gateway" fs in
      let plugins := field "plugins" fs in
      let models := field "models" fs in
      let agents := field "agents" fs in
      plain gateway
      && plain (getp_opt gateway "auth")
      && plain (getp_opt gateway "controlUi")
      && plain (field "channels" fs)
      && plain plugins
      && plain (getp_opt plugins "entries")
      && plain (getp_opt (getp_opt plugins "entries") "trace-model")
      && plain (getp_opt plugins "load")
      && plain_array (getp_opt (getp_opt plugins "load") "paths")
      && plain models
      && plain (getp_opt models "providers")
      && plain agents
      && plain (getp_opt agents "defaults")
  | _ => false
  end.

End ConfigPatcher.

(** [paths.includes('/root/.openclaw/extensions')] on the items of an
    array. *)
Module PluginPaths.


End PluginPaths.

(** ** The trace-model extension (extensions/trace-model/index.ts)

    The command [/trace on|off|status] reads and writes two files: the
    config document and a state file that remembers the Telegram
    response prefix found when tracing was turned on. The module is an
    ES module, so an assignment to a property of a primitive throws.
    Writing a file is taken to succeed. *)

Module TraceModel.
Import Js.

Definition CONFIG_PATH : string := "/root/.openclaw/openclaw.json".
Definition STATE_PATH : string := "/root/.openclaw/trace-model.state.json".
Definition TRACE_PREFIX : string := "[{model}] ".

(** [CommandCtx['args']] *)
Inductive Args : Type :=
| ArgsText (s : string)
| ArgsList (l : list string).

Inductive Action : Type := On | Off | Status.

(** What [readJsonFile] gives for a file: the parsed value, or the
    message of the error thrown (no file, or a text that is not JSON). *)
Definition File : Type := (string + value)%type.

Record Files : Type := {
  config_file : File;
  state_file : File
}.

(** What the handler does: it replies (with the files as it leaves
    them), or it throws (with the files as they are at that point). *)
Inductive Outcome : Type :=
| Reply (text : string) (files : Files)
| Throws (files : Files).

(** [o[k] = x] in strict mode, for a key that is not an array index. *)
Definition assign (o : value) (k : string) (x : value) : option value :=
  match o with
  | VObj fs => Some (VObj (obj_set k x fs))
  | VArr items ps => Some (VArr items (assoc_set k x ps))
  | _ => None
  end.

(** The part [o.k] of a statement on [o.k.rest]. *)
Definition assign_under (k : string) (f : update) : update :=
  fun o =>
    match getp o k with
    | None => None
    | Some v =>
        match f v with
        | None => None
        | Some v' => assign o k v'
        end
    end.

(** [writeJsonFileAtomic(p, value)]: what the file holds afterwards. *)
Definition written (v : value) : File := inr (reload v).

(** The text up to the first white space. *)
Fixpoint first_word (s : string) : string :=
  match s with
  | EmptyString => EmptyString
  | String c r => if is_space c then EmptyString else String c (first_word r)
  end.

Definition firstWord (args : option Args) : option string :=
  match args with
  | Some (ArgsList l) => nth_error l 0
  | Some (ArgsText s) => Some (first_word (trim s))
  | None => None
  end.

Definition normalizeArg (arg : option string) : Action :=
  let a := AuthState.toLowerCase
             (trim (match arg with Some s => s | None => EmptyString end)) in
  if String.eqb a "on" then On
  else if String.eqb a "off" then Off
  else Status.

Section Handler.

(** [String(n)] and [JSON.stringify(n)] for the number of a literal. *)
Variable Number_toString : string -> string.
Variable Number_toJSON : string -> string.

(** [String(v)] *)
Fixpoint to_text (v : value) : string :=
  match v with
  | VUndef => "undefined"
  | VNull => "null"
  | VBool b => if b then "true" else "false"
  | VNum l => Number_toString l
  | VStr s => s
  | VArr items _ =>
      String.concat ","
        (map (fun x => match x with
                       | VUndef | VNull => EmptyString
                       | _ => to_text x
                       end) items)
  | VObj _ => "[object Object]"
  end.

(** [JSON.stringify(v)] for a value other than [undefined]. *)
Fixpoint json_text (v : value) : string :=
  match v with
  | VUndef | VNull => "null"
  | VBool b => if b then "true" else "false"
  | VNum l => Number_toJSON l
  | VStr s => Json.quote s
  | VArr items _ => "[" ++ String.concat "," (map json_text items) ++ "]"
  | VObj fs =>
      "{" ++ String.concat ","
               (flat_map
                  (fun kv =>
                     match kv with
                     | (_, VUndef) => []
                     | (k, x) => [Json.quote k ++ ":" ++ json_text x]
                     end) fs)
          ++ "}"
  end.

Definition getTelegramPrefix (config : value) : string :=
  to_text
    (or_else
       (getp_opt (getp_opt (getp_opt config "channels") "telegram") "responsePrefix")
       (VStr EmptyString)).

(** The three assignments of [setTelegramPrefix]; [None] is a thrown
    [TypeError]. *)
Definition setTelegramPrefix (config : value) (prefix : value) : option value :=
  assign_under "channels"
    (fun channels =>
       assign_under "telegram"
         (fun telegram => assign (or_else telegram (VObj [])) "responsePrefix" prefix)
         (or_else channels (VObj [])))
    config.

Definition loadState (files : Files) : value :=
  match state_file files with
  | inr v => or_else v (VObj [])
  | inl _ => VObj []
  end.

Definition saveState (state : value) (files : Files) : Files :=
  {| config_file := config_file files; state_file := written state |}.

Definition save_config (config : value) (files : Files) : Files :=
  {| config_file := written config; state_file := state_file files |}.

Definition status_text (currentPrefix : string) : string :=
  "trace: "
  ++ (if negb (is_empty (trim currentPrefix)) then "ON" else "OFF")
  ++ " (telegram responsePrefix=" ++ Json.quote currentPrefix
  ++ "). Use: /trace on|off".

Definition on_text : string :=
  "trace: ON (prefix set to " ++ Json.quote TRACE_PREFIX
  ++ "). If the next reply doesn't show it, run /restart once.".

Definition off_text (restore : value) : string :=
  "trace: OFF (prefix restored to " ++ json_text restore
  ++ "). If the next reply still shows a prefix, run /restart once.".

(** The handler of the command. *)
Definition handler (files : Files) (args : option Args) : Outcome :=
  match config_file files with
  | inl message =>
      Reply ("trace: failed to read config at " ++ CONFIG_PATH ++ ": " ++ message)
        files
  | inr config =>
      let state := loadState files in
      let currentPrefix := getTelegramPrefix config in
      match normalizeArg (firstWord args) with
      | Status => Reply (status_text currentPrefix) files
      | On =>
          let remembered :=
            match getp_opt state "previousTelegramPrefix" with
            | VUndef =>
                match assign state "previousTelegramPrefix" (VStr currentPrefix) with
                | Some state' => Some (saveState state' files)
                | None => None
                end
            | _ => Some files
            end in
          match remembered with
          | None => Throws files
          | Some files1 =>
              match setTelegramPrefix config (VStr TRACE_PREFIX) with
              | None => Throws files1
              | Some config' => Reply on_text (save_config config' files1)
              end
          end
      | Off =>
          let restore :=
            match getp_opt state "previousTelegramPrefix" with
            | VUndef | VNull => VStr EmptyString
            | x => x
            end in
          match setTelegramPrefix config restore with
          | None => Throws files
          | Some config' =>
              Reply (off_text restore)
                (saveState (VObj [("previousTelegramPrefix", VUndef)])
                   (save_config config' files))
          end
      end
  end.


End Handler.
End TraceModel.

(** ** Concrete inputs used to exercise the theorems *)

Module Fixtures.

Definition ok_result (out : string) : Sync.ExecResult :=
  {| Sync.stdout := out; Sync.stderr := ""; Sync.exec_success := true;
     Sync.exitCode := 0%Z |}.

(** A sandbox where every command succeeds and the detection command
    sees the given files. *)
Definition sandbox_with (has_openclaw_json has_clawdbot_json : bool) : Sync.Sandbox :=
  {| Sync.respond := fun _ call =>
       if String.eqb (fst call) Sync.detectCmd
       then ok_result (Sync.detect_output has_openclaw_json has_clawdbot_json)
       else ok_result "";
     Sync.calls := [] |}.

Definition env_r2 : Sync.MoltbotEnv :=
  {| Sync.R2_ACCESS_KEY_ID := Some "test-key-id";
     Sync.R2_SECRET_ACCESS_KEY := Some "test-secret-key";
     Sync.CF_ACCOUNT_ID := Some "test-account-id";
     Sync.R2_BUCKET_NAME := None |}.


Definition bucket_name (env : Sync.MoltbotEnv) : string :=
  match Sync.R2_BUCKET_NAME env with
  | Some b => if is_empty b then "moltbot-data" else b
  | None => "moltbot-data"
  end.

Definition stamp : string := "2026-02-13T10:00:00.000Z".

(** A sandbox whose process enumeration is rejected. *)
Definition unreachable_sandbox : Routes.Sandbox :=
  {| Routes.listProcesses := inl (Routes.ErrorObj "sandbox unavailable");
     Routes.startProcess := fun _ => inl Routes.OtherThrown |}.

(** Two tracked processes, the first of which cannot be killed, and a
    cleanup process that is still running after the wait. *)
Definition busy_sandbox : Routes.Sandbox :=
  {| Routes.listProcesses :=
       inr [ {| Routes.proc_id := "proc-1"; Routes.kill_throws := true |};
             {| Routes.proc_id := "proc-2"; Routes.kill_throws := false |} ];
     Routes.startProcess := fun _ =>
       inr {| Routes.wait_throws := false;
              Routes.status_after_wait := Routes.running;
              Routes.cleanup_kill_throws := true |} |}.

(** The texts of the auth-state tests; an apostrophe stands for the
    double quote. *)
Definition codex_config : string :=
  dq "{'agents':{'defaults':{'model':{'primary':'openai-codex/gpt-5.3-codex'}}}}".


Definition store_codex : string :=
  dq "{'profiles':[{'provider':'openai-codex','name':'oauth'}]}".


Definition store_truncated : string :=
  dq "{'profiles':[{'provider':'openai-codex'".


Definition auth_input (config store : string) : AuthState.AuthStateInput :=
  {| AuthState.configText := Some config;
     AuthState.authProfilesText := Some store;
     AuthState.oauthFilePresent := None;
     AuthState.agentId := None |}.

(** An environment with every recognized input set, and a restored
    document with a stale key under [channels.telegram]. *)
Definition env_full : ConfigPatcher.Env :=
  {| ConfigPatcher.OPENCLAW_GATEWAY_TOKEN := Some "gateway-token";
     ConfigPatcher.OPENCLAW_DEV_MODE := Some "true";
     ConfigPatcher.CF_AI_GATEWAY_MODEL := Some "workers-ai/@cf/meta/llama-3.3-70b-instruct-fp8-fast";
     ConfigPatcher.CF_AI_GATEWAY_ACCOUNT_ID := Some "account";
     ConfigPatcher.CF_AI_GATEWAY_GATEWAY_ID := Some "gateway";
     ConfigPatcher.CLOUDFLARE_AI_GATEWAY_API_KEY := Some "api-key";
     ConfigPatcher.CF_ACCOUNT_ID := None;
     ConfigPatcher.TELEGRAM_BOT_TOKEN := Some "telegram-token";
     ConfigPatcher.TELEGRAM_DM_POLICY := Some "open";
     ConfigPatcher.TELEGRAM_DM_ALLOW_FROM := None;
     ConfigPatcher.DISCORD_BOT_TOKEN := Some "discord-token";
     ConfigPatcher.DISCORD_DM_POLICY := Some "open";
     ConfigPatcher.SLACK_BOT_TOKEN := Some "slack-bot";
     ConfigPatcher.SLACK_APP_TOKEN := Some "slack-app" |}.

Definition stale_config_text : string :=
  dq "{'channels':{'telegram':{'dm':{'policy':'pairing'},'botToken':'old'},'slack':{'legacy':true}},'gateway':{'port':1,'auth':{'token':'old','mode':'token'}},'agents':{'defaults':{'model':'anthropic/claude-sonnet-4-5'}}}".

Definition stale_config : Js.value :=
  ConfigPatcher.read_config (Some stale_config_text).

Definition stale_fields : Js.fields_t :=
  match stale_config with
  | Js.VObj fs => fs
  | _ => []
  end.

(** The document after one run of the script. *)
Definition patched_stale_config : Js.value :=
  match ConfigPatcher.patch env_full (Js.VObj stale_fields) with
  | Some config' => config'
  | None => Js.VNull
  end.

End Fixtures.

(** ** Sample documents for the boot scripts *)

Module Samples.


(** A document as a restore may leave it. *)
Definition restored_text : string :=
  dq "{'meta':{'lastTouchedVersion':'2026.2.6'},'channels':{'telegram':{'botToken':'kept','responsePrefix':'[bot] '},'whatsapp':{'enabled':false}},'gateway':{'port':1,'bind':'lan','auth':{'token':'old','mode':'token'}},'plugins':{'load':{'paths':['/opt/ext']}},'agents':{'defaults':{'model':'anthropic/claude-sonnet-4-5'}}}".

Definition restored : Js.value := ConfigPatcher.read_config (Some restored_text).

Definition restored_fields : Js.fields_t :=
  match restored with
  | Js.VObj fs => fs
  | _ => []
  end.

Definition restored_part (k : string) : Js.fields_t :=
  match Js.field k restored_fields with
  | Js.VObj c => c
  | _ => []
  end.

Definition patched (env : ConfigPatcher.Env) : Js.value :=
  match ConfigPatcher.patch env restored with
  | Some config' => config'
  | None => Js.VNull
  end.

(** A sandbox where every command succeeds and prints nothing. *)
Definition silent_sandbox : Sync.Sandbox :=
  {| Sync.respond := fun _ _ => Fixtures.ok_result "";
     Sync.calls := [] |}.

(** The files of the trace-model extension before its first use: the
    restored config, and no state file. *)
Definition trace_files : TraceModel.Files :=
  {| TraceModel.config_file := inr restored;
     TraceModel.state_file :=
       inl "ENOENT: no such file or directory, open '/root/.openclaw/trace-model.state.json'" |}.

(** A number prints as its literal (true of the literals used here). *)
Definition literal (l : string) : string := l.

(** No provider key in the environment of the boot script. *)
Definition no_keys : AuthCheck.Env :=
  {| AuthCheck.ANTHROPIC_OAUTH_TOKEN := None;
     AuthCheck.ANTHROPIC_API_KEY := None;
     AuthCheck.OPENAI_API_KEY := None |}.

Definition trace (files : TraceModel.Files) (args : string) : TraceModel.Outcome :=
  TraceModel.handler literal literal files (Some (TraceModel.ArgsText args)).

(** A token shaped as a JWT, whose payload gives an expiry; a clock
    for which only the instant 1000 is past. *)
Definition sample_jwt : string := "aaa.bbb.ccc".

Definition not_a_number (v : Js.value) : string := "NaN".

Definition sample_expiry (t : string) : option string :=
  if String.eqb t sample_jwt then Some "1900000000000" else None.

Definition past (l : string) : bool := String.eqb l "1000".

(** A flat legacy store with one entry. *)
Definition legacy_store : Js.value :=
  Js.VObj [("codex", Js.VObj [ ("provider", Js.VStr "openai-codex");
                               ("apiKey", Js.VStr sample_jwt) ])].

(** The bootstrap script at that instant. *)
Definition codex_script (raw : Js.value) (key : option string) : Js.value :=
  CodexBootstrap.script not_a_number sample_expiry literal past past raw key.

(** A boot with a codex model, the token in the environment, no auth
    store, no rclone and no [oauth.json]. *)
Definition codex_boot : Reconcile.Inputs :=
  {| Reconcile.env :=
       {| AuthCheck.ANTHROPIC_OAUTH_TOKEN := None;
          AuthCheck.ANTHROPIC_API_KEY := None;
          AuthCheck.OPENAI_API_KEY := Some sample_jwt |};
     Reconcile.configFile := Some Fixtures.codex_config;
     Reconcile.auth := Js.VNull;
     Reconcile.RCLONE_AVAILABLE := false;
     Reconcile.OAUTH_STORE_present := false;
     Reconcile.restored := None;
     Reconcile.refreshed := (None, Js.VNull) |}.

End Samples.

(** * Theorems *)

(** ** Shell helpers *)


Lemma is_empty_false (s : string) : is_empty s = false <-> s <> "".
Proof. destruct s; simpl; split; congruence. Qed.

(** ** TimestampResolver *)

Section ResolverFacts.

Variable date_epoch : string -> option Z.


(** Without a configured object store nothing is ever restored. *)
Lemma should_restore_unconfigured (remote loc : option string) :
  TimestampResolver.should_restore_from_r2 date_epoch false remote loc = false.
Proof. reflexivity. Qed.

End ResolverFacts.

(** ** syncToR2 *)

Section SyncFacts.

Variable getR2BucketName : Sync.MoltbotEnv -> string.
Variable Date_toISOString : string.

Lemma truthy_str_true (v : option string) :
  truthy_str v = true -> exists s, v = Some s /\ is_empty s = false.
Proof.
  destruct v as [s|]; simpl; [|discriminate].
  intros H. exists s. split; [reflexivity|].
  now destruct (is_empty s).
Qed.

Lemma truthy_str_false (v : option string) :
  truthy_str v = false -> v = None \/ v = Some "".
Proof.
  destruct v as [[|c s]|]; simpl; intros H; auto; discriminate.
Qed.

(** The body of [syncToR2] once the three credentials are there. *)
Lemma syncToR2_configured (sb : Sync.Sandbox) (env : Sync.MoltbotEnv) :
  Sync.configured env = true ->
  Sync.syncToR2 getR2BucketName Date_toISOString sb env =
    let remote := Sync.remote_of getR2BucketName env in
    let (configResult, sb1) := Sync.config_step sb env in
    if negb (Sync.exec_success configResult) then
      (Sync.failure "Failed to create rclone config"
         (Some (Sync.stderr configResult)), sb1)
    else
      let (check, sb2) := Sync.exec sb1 Sync.detectCmd Sync.no_options in
      if String.eqb (trim (Sync.stdout check)) "none" then
        (Sync.failure "Sync aborted: no config file found"
           (Some "Neither openclaw.json nor clawdbot.json found in config directory."),
         sb2)
      else
        let (configSync, sb3) :=
          Sync.exec sb2 (Sync.configSyncCmd (Sync.configDir_of check) remote)
            Sync.long_timeout in
        if negb (Sync.exec_success configSync) then
          (Sync.failure "Config sync failed" (Some (Sync.stderr configSync)), sb3)
        else
          let (_, sb4) := Sync.exec sb3 (Sync.workspaceSyncCmd remote) Sync.long_timeout in
          let (_, sb5) := Sync.exec sb4 (Sync.skillsSyncCmd remote) Sync.long_timeout in
          let (_, sb6) := Sync.exec sb5 (Sync.timestampCmd remote) Sync.no_options in
          ({| Sync.success := true; Sync.lastSync := Some Date_toISOString;
              Sync.error := None; Sync.details := None |}, sb6).
Proof.
  unfold Sync.configured. intros H.
  apply andb_prop in H as [H Ha]. apply andb_prop in H as [Hk Hs].
  apply truthy_str_true in Hk as (k & Ek & Nk).
  apply truthy_str_true in Hs as (s & Es & Ns).
  apply truthy_str_true in Ha as (a & Ea & Na).
  unfold Sync.syncToR2, Sync.config_step, Sync.config_call.
  rewrite Ek, Es, Ea, Nk, Ns, Na. reflexivity.
Qed.

Lemma syncToR2_unconfigured (sb : Sync.Sandbox) (env : Sync.MoltbotEnv) :
  Sync.configured env = false ->
  Sync.syncToR2 getR2BucketName Date_toISOString sb env =
    (Sync.failure "R2 storage is not configured" None, sb).
Proof.
  unfold Sync.configured, Sync.syncToR2. intros H.
  destruct (Sync.R2_ACCESS_KEY_ID env) as [k|]; [|reflexivity].
  destruct (Sync.R2_SECRET_ACCESS_KEY env) as [s|]; [|reflexivity].
  destruct (Sync.CF_ACCOUNT_ID env) as [a|]; [|reflexivity].
  simpl in H.
  destruct (is_empty k), (is_empty s), (is_empty a); simpl in *;
    try reflexivity; discriminate.
Qed.


End SyncFacts.


Section SyncLayoutFacts.

Variable getR2BucketName : Sync.MoltbotEnv -> string.
Variable Date_toISOString : string.

(** C10. Whichever local layout is found, the config sync writes to the
    current [openclaw/] prefix of the remote: with only the legacy
    [/root/.clawdbot/clawdbot.json] on disk the source is the legacy
    directory, with [/root/.openclaw/openclaw.json] on disk it is the
    current one, and in both cases the commands issued are exactly the
    rclone configuration, the detection, the config sync to
    [<remote>/openclaw/], the workspace sync, the skills sync and the
    marker write. *)
Theorem syncToR2_remote_layout
    (sb : Sync.Sandbox) (env : Sync.MoltbotEnv)
    (has_openclaw_json has_clawdbot_json : bool) :
  Sync.configured env = true ->
  Sync.exec_success (fst (Sync.config_step sb env)) = true ->
  Sync.stdout (fst (Sync.detect_step sb env))
    = Sync.detect_output has_openclaw_json has_clawdbot_json ->
  has_openclaw_json || has_clawdbot_json = true ->
  Sync.exec_success (fst (Sync.sync_step getR2BucketName sb env)) = true ->
  let remote := "r2:" ++ getR2BucketName env in
  let source :=
    if has_openclaw_json then "/root/.openclaw" else "/root/.clawdbot" in
  let '(r, sb') := Sync.syncToR2 getR2BucketName Date_toISOString sb env in
  Sync.success r = true /\
  map fst (Sync.calls sb') =
    app (map fst (Sync.calls sb))
    [ Sync.rcloneConfigCmd;
      Sync.detectCmd;
      "rclone sync " ++ source ++ "/ " ++ remote
        ++ "/openclaw/ --transfers=8 --fast-list --s3-no-check-bucket --exclude '.git/**' --exclude '*.lock' --exclude '*.log' --exclude '*.tmp'";
      Sync.workspaceSyncCmd remote;
      Sync.skillsSyncCmd remote;
      Sync.timestampCmd remote ].
Proof.
  intros Hc Hcfg Hout Hfile Hsync. cbv zeta.
  rewrite (syncToR2_configured _ _ sb env Hc).
  unfold Sync.sync_step, Sync.detect_step in *. cbv zeta.
  destruct (Sync.config_step sb env) as [configResult sb1] eqn:E1.
  cbn [fst snd] in *. rewrite Hcfg. cbn [negb].
  destruct (Sync.exec sb1 Sync.detectCmd Sync.no_options) as [check sb2] eqn:E2.
  cbn [fst snd] in *.
  assert (Hdir : Sync.configDir_of check =
                 if has_openclaw_json then "/root/.openclaw" else "/root/.clawdbot").
  { unfold Sync.configDir_of. rewrite Hout.
    destruct has_openclaw_json; [reflexivity|].
    destruct has_clawdbot_json; [reflexivity|discriminate]. }
  assert (Hnone : String.eqb (trim (Sync.stdout check)) "none" = false).
  { rewrite Hout. destruct has_openclaw_json; [reflexivity|].
    destruct has_clawdbot_json; [reflexivity|discriminate]. }
  rewrite Hnone, Hdir in *.
  destruct (Sync.exec sb2 _ _) as [configSync sb3] eqn:E3.
  cbn [fst snd] in *. rewrite Hsync. cbn [negb].
  destruct (Sync.exec sb3 _ _) as [r4 sb4] eqn:E4.
  destruct (Sync.exec sb4 _ _) as [r5 sb5] eqn:E5.
  destruct (Sync.exec sb5 _ _) as [r6 sb6] eqn:E6.
  split; [reflexivity|].
  unfold Sync.config_step, Sync.exec in *.
  injection E1 as _ <-. injection E2 as _ <-. injection E3 as _ <-.
  injection E4 as _ <-. injection E5 as _ <-. injection E6 as _ <-.
  cbn [Sync.calls]. rewrite !map_app. cbn [map fst Sync.config_call].
  rewrite <- !app_assoc. reflexivity.
Qed.

End SyncLayoutFacts.

Lemma syncToR2_remote_layout_witness :
  let '(r, sb') :=
    Sync.syncToR2 Fixtures.bucket_name Fixtures.stamp
      (Fixtures.sandbox_with false true) Fixtures.env_r2 in
  Sync.success r = true /\
  map fst (Sync.calls sb') =
    [ Sync.rcloneConfigCmd;
      Sync.detectCmd;
      "rclone sync /root/.clawdbot/ r2:moltbot-data/openclaw/ --transfers=8 --fast-list --s3-no-check-bucket --exclude '.git/**' --exclude '*.lock' --exclude '*.log' --exclude '*.tmp'";
      Sync.workspaceSyncCmd "r2:moltbot-data";
      Sync.skillsSyncCmd "r2:moltbot-data";
      Sync.timestampCmd "r2:moltbot-data" ].
Proof.
  apply (syncToR2_remote_layout Fixtures.bucket_name Fixtures.stamp
           (Fixtures.sandbox_with false true) Fixtures.env_r2 false true);
    reflexivity.
Defined.

(** *** The commands [syncToR2] issues on each path *)

Section SyncPathFacts.

Variable getR2BucketName : Sync.MoltbotEnv -> string.
Variable Date_toISOString : string.

(** The three commands that decide the result, in order. *)
Lemma deciding_commands_no_marker (dir remote : string) (n : nat) :
  ~ In (Sync.timestampCmd remote)
       (firstn n [Sync.rcloneConfigCmd; Sync.detectCmd;
                  Sync.configSyncCmd dir remote]).
Proof.
  intros H. destruct n as [|[|[|n]]]; cbn [firstn In] in H;
    rewrite ?firstn_nil in H; cbn [In] in H;
    repeat (destruct H as [H | H]; [discriminate|]); exact H.
Qed.

(** X7. [syncToR2] stops at the first step that fails: without
    credentials it issues no command at all; otherwise the commands it
    adds are the first one, two or three of the rclone configuration,
    the detection and the config sync when it fails, and all six when
    it succeeds. The [.last-sync] marker is written exactly when the
    result is a success. *)
Theorem syncToR2_stops_at_first_failure (sb : Sync.Sandbox) (env : Sync.MoltbotEnv) :
  let remote := Sync.remote_of getR2BucketName env in
  let dir := Sync.configDir_of (fst (Sync.detect_step sb env)) in
  let deciding :=
    [Sync.rcloneConfigCmd; Sync.detectCmd; Sync.configSyncCmd dir remote] in
  let '(r, sb') := Sync.syncToR2 getR2BucketName Date_toISOString sb env in
  exists added,
    map fst (Sync.calls sb') = (map fst (Sync.calls sb) ++ added)%list
    /\ (Sync.configured env = false -> added = [] /\ sb' = sb)
    /\ (Sync.success r = false ->
        exists n, (n <= 3)%nat /\ added = firstn n deciding)
    /\ (Sync.success r = true ->
        added = (deciding ++ [Sync.workspaceSyncCmd remote;
                              Sync.skillsSyncCmd remote;
                              Sync.timestampCmd remote])%list)
    /\ (In (Sync.timestampCmd remote) added <-> Sync.success r = true).
Proof.
  cbv zeta.
  destruct (Sync.configured env) eqn:Hc.
  2:{ rewrite (syncToR2_unconfigured getR2BucketName Date_toISOString sb env Hc).
      exists []. rewrite app_nil_r.
      split; [reflexivity|]. split; [now split|].
      split; [intros _; exists 0%nat; split; [lia | reflexivity]|].
      split; [discriminate|]. split; [intros [] | discriminate]. }
  rewrite (syncToR2_configured getR2BucketName Date_toISOString sb env Hc).
  unfold Sync.detect_step. cbv zeta.
  destruct (Sync.config_step sb env) as [configResult sb1] eqn:E1.
  cbn [fst snd].
  assert (C1 : map fst (Sync.calls sb1)
               = (map fst (Sync.calls sb) ++ [Sync.rcloneConfigCmd])%list).
  { unfold Sync.config_step, Sync.exec in E1. injection E1 as _ <-.
    cbn [Sync.calls]. now rewrite map_app. }
  destruct (Sync.exec_success configResult); cbn [negb].
  2:{ exists [Sync.rcloneConfigCmd]. repeat split; try discriminate; try exact C1.
      - intros _. now exists 1%nat; split; [lia|].
      - intros H. exfalso.
        apply (deciding_commands_no_marker
                 (Sync.configDir_of (fst (Sync.exec sb1 Sync.detectCmd Sync.no_options)))
                 (Sync.remote_of getR2BucketName env) 1). exact H. }
  destruct (Sync.exec sb1 Sync.detectCmd Sync.no_options) as [check sb2] eqn:E2.
  cbn [fst snd].
  assert (C2 : map fst (Sync.calls sb2)
               = (map fst (Sync.calls sb)
                  ++ [Sync.rcloneConfigCmd; Sync.detectCmd])%list).
  { unfold Sync.exec in E2. injection E2 as _ <-.
    cbn [Sync.calls]. rewrite map_app. unfold Sync.ExecCall in *.
    rewrite C1, <- app_assoc. reflexivity. }
  destruct (String.eqb (trim (Sync.stdout check)) "none").
  { exists [Sync.rcloneConfigCmd; Sync.detectCmd].
    repeat split; try discriminate; try exact C2.
    - intros _. now exists 2%nat; split; [lia|].
    - intros H. exfalso.
      apply (deciding_commands_no_marker (Sync.configDir_of check)
               (Sync.remote_of getR2BucketName env) 2). exact H. }
  destruct (Sync.exec sb2 _ _) as [configSync sb3] eqn:E3.
  assert (C3 : map fst (Sync.calls sb3)
               = (map fst (Sync.calls sb)
                  ++ [Sync.rcloneConfigCmd; Sync.detectCmd;
                      Sync.configSyncCmd (Sync.configDir_of check)
                        (Sync.remote_of getR2BucketName env)])%list).
  { unfold Sync.exec in E3. injection E3 as _ <-.
    cbn [Sync.calls]. rewrite map_app. unfold Sync.ExecCall in *.
    rewrite C2, <- app_assoc. reflexivity. }
  destruct (Sync.exec_success configSync); cbn [negb].
  2:{ eexists. split; [exact C3|]. repeat split; try discriminate.
      - intros _. now exists 3%nat; split; [lia|].
      - intros H. exfalso.
        apply (deciding_commands_no_marker (Sync.configDir_of check)
                 (Sync.remote_of getR2BucketName env) 3). exact H. }
  destruct (Sync.exec sb3 _ _) as [r4 sb4] eqn:E4.
  destruct (Sync.exec sb4 _ _) as [r5 sb5] eqn:E5.
  destruct (Sync.exec sb5 _ _) as [r6 sb6] eqn:E6.
  unfold Sync.exec in E4, E5, E6.
  injection E4 as _ <-. injection E5 as _ <-. injection E6 as _ <-.
  cbn [Sync.calls]. rewrite !map_app. unfold Sync.ExecCall in *.
  rewrite C3. cbn [map fst].
  eexists. split; [rewrite <- !app_assoc; reflexivity|].
  repeat split; try discriminate.
  intros _. cbn [app In]. auto 10.
Qed.

(** X8. The credentials reach the sandbox through the [env] option of
    the rclone configuration call and nowhere else: every other call
    that [syncToR2] makes carries no environment, and the command line
    of the configuration call is the fixed text of [rcloneConfigCmd]. *)
Theorem syncToR2_credentials_in_env_only (sb : Sync.Sandbox) (env : Sync.MoltbotEnv) :
  let sb' := snd (Sync.syncToR2 getR2BucketName Date_toISOString sb env) in
  exists added,
    Sync.calls sb' = (Sync.calls sb ++ added)%list
    /\ Forall (fun call =>
                 Sync.opt_env (snd call) = None
                 \/ call = Sync.config_call env) added.
Proof.
  cbv zeta.
  destruct (Sync.configured env) eqn:Hc.
  2:{ rewrite (syncToR2_unconfigured getR2BucketName Date_toISOString sb env Hc).
      exists []. now rewrite app_nil_r. }
  rewrite (syncToR2_configured getR2BucketName Date_toISOString sb env Hc).
  cbv zeta. unfold Sync.config_step, Sync.exec. cbn [fst snd Sync.calls Sync.respond].
  repeat match goal with
         | |- context [if ?b then _ else _] => destruct b
         end;
    cbn [snd Sync.calls]; rewrite <- ?app_assoc; eexists;
    (split; [reflexivity|]);
    repeat (apply Forall_cons || apply Forall_nil);
    first [left; reflexivity | right; reflexivity].
Qed.

(** X9. Only the text that the detection prints is looked at: unless it
    is [none] or [openclaw] (surrounding white space apart), the config
    is synced from the legacy directory [/root/.clawdbot]; so it is
    when the detection prints nothing at all. *)
Theorem syncToR2_unrecognized_detection (sb : Sync.Sandbox) (env : Sync.MoltbotEnv) :
  Sync.configured env = true ->
  Sync.exec_success (fst (Sync.config_step sb env)) = true ->
  trim (Sync.stdout (fst (Sync.detect_step sb env))) <> "none" ->
  trim (Sync.stdout (fst (Sync.detect_step sb env))) <> "openclaw" ->
  let sb' := snd (Sync.syncToR2 getR2BucketName Date_toISOString sb env) in
  nth_error (map fst (Sync.calls sb')) (length (Sync.calls sb) + 2)
  = Some (Sync.configSyncCmd "/root/.clawdbot" (Sync.remote_of getR2BucketName env)).
Proof.
  intros Hc Hcfg Hn Ho. cbv zeta.
  rewrite (syncToR2_configured getR2BucketName Date_toISOString sb env Hc).
  unfold Sync.detect_step in *. cbv zeta.
  destruct (Sync.config_step sb env) as [configResult sb1] eqn:E1.
  cbn [fst snd] in *. rewrite Hcfg. cbn [negb].
  destruct (Sync.exec sb1 Sync.detectCmd Sync.no_options) as [check sb2] eqn:E2.
  cbn [fst snd] in *.
  apply String.eqb_neq in Hn, Ho. rewrite Hn.
  unfold Sync.configDir_of. rewrite Ho.
  unfold Sync.config_step, Sync.exec in E1. injection E1 as _ <-.
  unfold Sync.exec in E2. cbn [Sync.calls Sync.respond] in E2. injection E2 as _ <-.
  unfold Sync.exec. cbn [fst snd Sync.calls Sync.respond].
  match goal with
  | |- context [if negb ?b then _ else _] => destruct b
  end; cbn [negb snd Sync.calls];
    rewrite <- ?app_assoc; cbn [app];
    rewrite map_app, nth_error_app2 by (rewrite length_map; lia);
    rewrite length_map;
    replace (length (Sync.calls sb) + 2 - length (Sync.calls sb))%nat
      with 2%nat by lia;
    reflexivity.
Qed.

End SyncPathFacts.

Lemma syncToR2_unrecognized_detection_witness :
  nth_error
    (map fst (Sync.calls
                (snd (Sync.syncToR2 Fixtures.bucket_name Fixtures.stamp
                        Samples.silent_sandbox Fixtures.env_r2)))) 2
  = Some "rclone sync /root/.clawdbot/ r2:moltbot-data/openclaw/ --transfers=8 --fast-list --s3-no-check-bucket --exclude '.git/**' --exclude '*.lock' --exclude '*.log' --exclude '*.tmp'".
Proof.
  apply (syncToR2_unrecognized_detection Fixtures.bucket_name Fixtures.stamp
           Samples.silent_sandbox Fixtures.env_r2);
    try reflexivity; vm_compute; discriminate.
Defined.

(** ** POST /api/force-restart *)

(** The claim as the specification words it fails: when the enumeration
    of the processes is rejected the route answers 500 with an error
    body, and no count. *)
Lemma forceRestart_enumeration_rejected :
  fst (Routes.forceRestart Fixtures.unreachable_sandbox)
    = {| Routes.http_status := 500;
         Routes.body := Routes.Failed false "sandbox unavailable" |}
  /\ ~ (exists n msg,
          Routes.body (fst (Routes.forceRestart Fixtures.unreachable_sandbox))
            = Routes.Killed true n msg).
Proof.
  split; [reflexivity|].
  intros (n & msg & H). discriminate H.
Qed.

(** C9 (amended). Once the processes are enumerated, the answer is
    [{ok: true, killed: n}] with [n] the number of processes enumerated:
    a kill is attempted on each of them in order, then the cleanup pass
    runs, and neither a failing kill nor a failing cleanup changes the
    answer. When the enumeration itself is rejected the answer is
    [{ok: false, error}] with status 500. *)
Theorem forceRestart_counts_enumerated (sandbox : Routes.Sandbox) :
  (forall processes,
     Routes.listProcesses sandbox = inr processes ->
     fst (Routes.forceRestart sandbox)
       = {| Routes.http_status := 200;
            Routes.body := Routes.Killed true (length processes)
              "All processes killed. Gateway will restart on next request." |}
     /\ exists cleanup,
          snd (Routes.forceRestart sandbox)
            = app (map (fun p => Routes.KillAttempt (Routes.proc_id p)
                                   (Routes.kill_throws p)) processes) cleanup
          /\ (cleanup = Routes.cleanup_pass sandbox)
          /\ (length cleanup <= 3)%nat
          /\ (hd_error cleanup = Some (Routes.Started Routes.cleanupCmd)
              \/ cleanup = [Routes.StartFailed Routes.cleanupCmd]))
  /\ (forall err,
        Routes.listProcesses sandbox = inl err ->
        Routes.forceRestart sandbox
          = ({| Routes.http_status := 500;
                Routes.body := Routes.Failed false (Routes.error_text err) |}, [])).
Proof.
  split.
  - intros processes H. unfold Routes.forceRestart. rewrite H. cbn [fst snd].
    split; [reflexivity|].
    exists (Routes.cleanup_pass sandbox).
    split; [reflexivity|]. split; [reflexivity|].
    unfold Routes.cleanup_pass.
    destruct (Routes.startProcess sandbox Routes.cleanupCmd) as [e|proc].
    + split; [simpl; lia | right; reflexivity].
    + destruct (Routes.wait_throws proc); [split; [simpl; lia | left; reflexivity]|].
      destruct (Routes.status_after_wait proc);
        (split; [simpl; lia | left; reflexivity]).
  - intros err H. unfold Routes.forceRestart. now rewrite H.
Qed.

Lemma forceRestart_counts_enumerated_witness :
  fst (Routes.forceRestart Fixtures.busy_sandbox)
    = {| Routes.http_status := 200;
         Routes.body := Routes.Killed true 2
           "All processes killed. Gateway will restart on next request." |}
  /\ Routes.forceRestart Fixtures.unreachable_sandbox
       = ({| Routes.http_status := 500;
             Routes.body := Routes.Failed false "sandbox unavailable" |}, []).
Proof.
  split.
  - apply (proj1 (forceRestart_counts_enumerated Fixtures.busy_sandbox)
             _ eq_refl).
  - apply (proj2 (forceRestart_counts_enumerated Fixtures.unreachable_sandbox)
             _ eq_refl).
Defined.

(** ** JavaScript values *)

(** Induction on a value that reaches the items of an array and the
    values of the fields of an object. *)
Lemma value_induction (P : Js.value -> Prop) :
  P Js.VUndef -> P Js.VNull ->
  (forall b, P (Js.VBool b)) ->
  (forall l, P (Js.VNum l)) ->
  (forall s, P (Js.VStr s)) ->
  (forall items ps,
     Forall P items -> Forall (fun kv => P (snd kv)) ps ->
     P (Js.VArr items ps)) ->
  (forall fs, Forall (fun kv => P (snd kv)) fs -> P (Js.VObj fs)) ->
  forall v, P v.
Proof.
  intros Hu Hn Hb Hnum Hs Ha Ho.
  fix IH 1. intros [ | | b | l | s | items ps | fs].
  - exact Hu.
  - exact Hn.
  - apply Hb.
  - apply Hnum.
  - apply Hs.
  - apply Ha.
    + induction items as [|x items IHl]; constructor; [apply IH | exact IHl].
    + induction ps as [|[k x] ps IHl]; constructor; [apply IH | exact IHl].
  - apply Ho.
    induction fs as [|[k x] fs IHl]; constructor; [apply IH | exact IHl].
Qed.

(** ** Auth-state summary *)

Lemma existsb_eqb_In (x : string) (l : list string) :
  existsb (String.eqb x) l = true <-> In x l.
Proof.
  rewrite existsb_exists. split.
  - intros (y & Hy & E). apply String.eqb_eq in E. now subst.
  - intros H. exists x. split; [exact H | apply String.eqb_refl].
Qed.

Lemma split_slash_spec (s a b : string) :
  AuthState.split_slash s = Some (a, b) ->
  s = a ++ String "/" b /\ AuthState.slash_free a = true.
Proof.
  revert a b. induction s as [|c r IH]; intros a b; simpl; [discriminate|].
  destruct (Ascii.eqb c "/") eqn:E.
  - intros [= <- <-]. apply Ascii.eqb_eq in E. subst c. split; reflexivity.
  - destruct (AuthState.split_slash r) as [[a' b']|]; [|discriminate].
    intros [= <- <-]. destruct (IH a' b' eq_refl) as [-> Hs].
    split; [reflexivity|].
    unfold AuthState.slash_free in *. simpl. now rewrite E.
Qed.


(** The provider of a model reference is the text before the first
    slash of the trimmed reference, which is not a URL. *)
Lemma providerFromModelRef_some (m p : string) :
  AuthState.providerFromModelRef (Some m) = Some p ->
  exists rest,
    trim m = p ++ String "/" rest
    /\ AuthState.slash_free p = true
    /\ AuthState.simple_provider p = true
    /\ AuthState.startsWith (trim m) "http://" = false
    /\ AuthState.startsWith (trim m) "https://" = false.
Proof.
  unfold AuthState.providerFromModelRef.
  destruct (is_empty m); [discriminate|].
  destruct (is_empty (trim m)); [discriminate|].
  destruct (AuthState.startsWith (trim m) "http://"); [discriminate|].
  destruct (AuthState.startsWith (trim m) "https://"); [discriminate|].
  cbn [orb]. unfold AuthState.model_provider_match.
  destruct (AuthState.split_slash (trim m)) as [[a b]|] eqn:E; [|discriminate].
  destruct (AuthState.simple_provider a) eqn:Hs; [|discriminate].
  cbn [andb].
  destruct (negb (is_empty b) && AuthState.all_chars _ b); [|discriminate].
  intros [= <-].
  apply split_slash_spec in E as [E F].
  exists b. tauto.
Qed.


Lemma simple_provider_nonempty (p : string) :
  AuthState.simple_provider p = true -> is_empty p = false.
Proof. destruct p; [discriminate | reflexivity]. Qed.

Lemma primary_provider_nonempty (m : option string) (p : string) :
  AuthState.providerFromModelRef m = Some p -> is_empty p = false.
Proof.
  destruct m as [m|]; [|discriminate].
  intros H. apply providerFromModelRef_some in H as (rest & _ & _ & H & _).
  now apply simple_provider_nonempty.
Qed.


(** *** The token search on the raw text *)

Lemma strip_prefix_ci_app (w s : string) :
  AuthState.strip_prefix_ci w (w ++ s) = Some s.
Proof.
  induction w as [|a w IH]; simpl; [now destruct s|].
  now rewrite Ascii.eqb_refl.
Qed.

Lemma token_here_app (p post : string) :
  match post with
  | String c _ => AuthState.is_token_char c = false
  | EmptyString => True
  end ->
  AuthState.token_here p (p ++ post) = true.
Proof.
  intros H. unfold AuthState.token_here. rewrite strip_prefix_ci_app.
  destruct post as [|c r]; [reflexivity|]. now rewrite H.
Qed.

Lemma last_char_cons (c : ascii) (r : string) :
  exists x, AuthState.last_char (String c r) = Some x.
Proof.
  revert c. induction r as [|c' r IH]; intros c; [now exists c|].
  destruct (IH c') as (x & Hx). exists x. exact Hx.
Qed.

Lemma token_search_found (p post pre : string) (b : bool) :
  AuthState.token_here p (p ++ post) = true ->
  match AuthState.last_char pre with
  | Some c => AuthState.is_token_char c = false
  | None => b = true
  end ->
  AuthState.token_search p b (pre ++ p ++ post) = true.
Proof.
  intros Hh. revert b. induction pre as [|c r IH]; intros b Hb.
  - simpl in Hb. subst b. simpl app.
    destruct (p ++ post); simpl; simpl in Hh; now rewrite Hh.
  - cbn [append AuthState.token_search].
    rewrite (IH (negb (AuthState.is_token_char c))).
    + apply orb_true_r.
    + destruct r as [|c' r'].
      * cbn in Hb. cbn. now rewrite Hb.
      * change (AuthState.last_char (String c (String c' r')))
          with (AuthState.last_char (String c' r')) in Hb.
        destruct (last_char_cons c' r') as (x & Hx).
        rewrite Hx in *. exact Hb.
Qed.

Lemma hasProviderToken_bounded (p text : string) :
  is_empty p = false ->
  AuthState.token_bounded p text ->
  AuthState.hasProviderToken (Some text) (Some p) = true.
Proof.
  intros Np (pre & post & -> & Hpre & Hpost).
  unfold AuthState.hasProviderToken. rewrite Np.
  assert (is_empty (pre ++ p ++ post) = false) as ->.
  { destruct pre; [destruct p; [discriminate | reflexivity] | reflexivity]. }
  cbn [orb]. apply token_search_found.
  - now apply token_here_app.
  - destruct (AuthState.last_char pre); [exact Hpre | reflexivity].
Qed.

(** *** Trimming keeps every character that is not white space *)

Lemma trim_end_empty (s : string) :
  trim_end s = "" -> AuthState.all_chars is_space s = true.
Proof.
  induction s as [|c r IH]; simpl; [reflexivity|].
  destruct (trim_end r); [|discriminate].
  destruct (is_space c); [|discriminate].
  intros _. now rewrite IH.
Qed.

Lemma trim_start_spaces (s : string) :
  AuthState.all_chars is_space (trim_start s) = true ->
  AuthState.all_chars is_space s = true.
Proof.
  induction s as [|c r IH]; simpl; [reflexivity|].
  destruct (is_space c) eqn:E; simpl.
  - exact IH.
  - now rewrite E.
Qed.

Lemma all_chars_app (f : ascii -> bool) (a b : string) :
  AuthState.all_chars f (a ++ b) =
  AuthState.all_chars f a && AuthState.all_chars f b.
Proof.
  induction a as [|c r IH]; simpl; [reflexivity|].
  now rewrite IH, andb_assoc.
Qed.

Lemma alnum_not_space (c : ascii) :
  AuthState.is_alnum c = true -> is_space c = false.
Proof.
  destruct c as [[] [] [] [] [] [] [] []]; vm_compute; congruence.
Qed.

Lemma trim_nonempty_of_provider (p pre post : string) :
  AuthState.simple_provider p = true ->
  is_empty (trim (pre ++ p ++ post)) = false.
Proof.
  intros Hp. apply is_empty_false. intros E.
  apply trim_end_empty, trim_start_spaces in E.
  rewrite !all_chars_app in E.
  destruct p as [|c r]; [discriminate|].
  simpl in Hp. apply andb_prop in Hp as [Hc _].
  apply alnum_not_space in Hc. simpl in E. rewrite Hc in E.
  simpl in E. now rewrite andb_false_r in E.
Qed.

Lemma set_add_In (x : string) (l : list string) :
  In x (AuthState.set_add x l).
Proof.
  unfold AuthState.set_add.
  destruct (existsb (String.eqb x) l) eqn:E.
  - now apply existsb_eqb_In.
  - apply in_or_app. right. now left.
Qed.

(** C7. When the auth-profile text holds the primary provider as a
    token, the summary lists that provider, reports no mismatch and
    reports the profiles as present, whether or not the text is valid
    JSON; when the text is not valid JSON the provider is the only one
    listed. The summary is a total function of its input. *)
Theorem malformed_profiles_resilience
    (input : AuthState.AuthStateInput) (text p : string) :
  AuthState.authProfilesText input = Some text ->
  AuthState.primary_provider (AuthState.summarizeAuthState input) = Some p ->
  AuthState.token_bounded p text ->
  let r := AuthState.summarizeAuthState input in
  In p (AuthState.providers_with_profiles r)
  /\ AuthState.mismatch_detected r = false
  /\ AuthState.auth_profiles_present r = true
  /\ (Json.parse text = None -> AuthState.providers_with_profiles r = [p]).
Proof.
  intros Ht Hp Hb. cbv zeta.
  unfold AuthState.summarizeAuthState in *; cbv zeta in *;
    cbn [AuthState.mismatch_detected AuthState.primary_provider
         AuthState.providers_with_profiles AuthState.auth_profiles_present] in *.
  rewrite Hp, Ht.
  pose proof (primary_provider_nonempty _ _ Hp) as Np.
  rewrite Np, (hasProviderToken_bounded p text Np Hb). cbn [negb andb].
  assert (Hin : In p (AuthState.set_add p
             (AuthState.collectProviders
                (AuthState.parseJson (Some text)) [] ""))) by apply set_add_In.
  split; [exact Hin|].
  split.
  { apply existsb_eqb_In in Hin. rewrite Hin. cbn [negb].
    apply andb_false_r. }
  split.
  { destruct Hb as (pre & post & -> & _).
    destruct (AuthState.getPrimaryModelFromConfig _) as [m|]; [|discriminate].
    apply providerFromModelRef_some in Hp as (rest & _ & _ & Hs & _).
    now rewrite (trim_nonempty_of_provider p pre post Hs). }
  intros Hbad. unfold AuthState.parseJson. rewrite Hbad.
  destruct (is_empty text || is_empty (trim text)); reflexivity.
Qed.

Lemma malformed_profiles_resilience_witness :
  let r := AuthState.summarizeAuthState
             (Fixtures.auth_input Fixtures.codex_config Fixtures.store_truncated) in
  In "openai-codex" (AuthState.providers_with_profiles r)
  /\ AuthState.mismatch_detected r = false
  /\ AuthState.auth_profiles_present r = true
  /\ (Json.parse Fixtures.store_truncated = None ->
      AuthState.providers_with_profiles r = ["openai-codex"]).
Proof.
  apply (malformed_profiles_resilience
           (Fixtures.auth_input Fixtures.codex_config Fixtures.store_truncated)
           Fixtures.store_truncated "openai-codex").
  - reflexivity.
  - vm_compute. reflexivity.
  - exists (dq "{'profiles':[{'provider':'"), (dq "'").
    split; [vm_compute; reflexivity | split; reflexivity].
Defined.

(** The truncated text of the test is indeed refused by [JSON.parse]. *)
Lemma store_truncated_invalid : Json.parse Fixtures.store_truncated = None.
Proof. vm_compute. reflexivity. Qed.

(** *** What the serialized summary can contain *)

Lemma occurs_refl (s : string) : AuthState.occurs s s.
Proof. exists "", "". simpl. induction s; simpl; congruence. Qed.


Lemma append_assoc (a b c : string) : (a ++ b) ++ c = a ++ b ++ c.
Proof. induction a; simpl; congruence. Qed.



Lemma occurs_empty (s : string) : AuthState.occurs "" s.
Proof. exists "", s. reflexivity. Qed.

Lemma prefix_spec (c s : string) :
  String.prefix c s = true <-> exists post, s = c ++ post.
Proof.
  revert s. induction c as [|a c IH]; intros s; simpl.
  - split; [intros _; now exists s | intros _; now destruct s].
  - destruct s as [|b s].
    + split; [discriminate | intros (post & H); discriminate].
    + simpl. destruct (Ascii.ascii_dec a b) as [->|N].
      * rewrite IH. split; intros (post & H); exists post; congruence.
      * split; [discriminate|]. intros (post & H). congruence.
Qed.











Lemma set_add_elim (x y : string) (l : list string) :
  In x (AuthState.set_add y l) -> In x l \/ x = y.
Proof.
  unfold AuthState.set_add. destruct (existsb _ l); [now left|].
  intros H. apply in_app_or in H as [H | [H | []]]; auto.
Qed.

Lemma addProvider_elim (x : string) (set : list string) (mp : option string) :
  In x (AuthState.addProvider set mp) ->
  In x set \/ exists s, mp = Some s /\ AuthState.normalized s x.
Proof.
  unfold AuthState.addProvider.
  destruct mp as [s|]; [|now left].
  destruct (is_empty s); [now left|].
  destruct (is_empty _); [now left|]. cbn [orb].
  destruct (AuthState.simple_provider _) eqn:E; [|now left]. cbn [negb].
  intros H. apply set_add_elim in H as [H | ->]; [now left|].
  right. exists s. split; [reflexivity|]. split; [reflexivity | exact E].
Qed.

Lemma fold_left_elim {A : Type} (f : list string -> A -> list string)
    (Q : A -> string -> Prop) (items : list A) (x : string) :
  (forall item, In item items ->
     forall o, In x (f o item) -> In x o \/ Q item x) ->
  forall out, In x (fold_left f items out) ->
  In x out \/ exists item, In item items /\ Q item x.
Proof.
  induction items as [|a items IH]; intros Hf out H; [now left|].
  cbn [fold_left] in H. apply IH in H.
  - destruct H as [H | (item & Hin & HQ)].
    + apply Hf in H; [|now left]. destruct H as [H | H]; [now left|].
      right. exists a. split; [now left | exact H].
    + right. exists item. split; [now right | exact HQ].
  - intros item Hin. apply Hf. now right.
Qed.

(** Every provider that [collectProviders] adds is declared by the
    value it walks. *)
Lemma collectProviders_sound (v : Js.value) :
  forall out parentKey x,
    In x (AuthState.collectProviders v out parentKey) ->
    In x out \/ AuthState.declares v parentKey x.
Proof.
  induction v as [ | | b | l | s | items ps IHi _ | fs IHf]
    using value_induction; intros out pk x H; try (now left).
  - cbn [AuthState.collectProviders] in H.
    apply addProvider_elim in H as [H | (q & Hq & Hn)].
    + destruct (AuthState.is_provider_key pk) eqn:Ek; [|now left].
      apply addProvider_elim in H as [H | (s' & [= <-] & Hn)]; [now left|].
      right. now apply AuthState.declares_provider_field.
    + right. apply AuthState.declares_model_ref. now exists q.
  - cbn [AuthState.collectProviders] in H.
    apply (fold_left_elim _ (fun item x => AuthState.declares item pk x)) in H.
    + destruct H as [H | (item & Hin & Hd)]; [now left|].
      right. now apply (AuthState.declares_item items ps pk x item).
    + intros item Hin o Ho. rewrite Forall_forall in IHi.
      now apply (IHi item Hin).
  - cbn [AuthState.collectProviders] in H.
    apply (fold_left_elim _
             (fun kv x => AuthState.model_ref_provider (fst kv) x
                          \/ AuthState.declares (snd kv)
                               (AuthState.toLowerCase (fst kv)) x)) in H.
    + destruct H as [H | ([k child] & Hin & [Hd | Hd])]; [now left| |].
      * right. now apply (AuthState.declares_key fs pk x k child).
      * right. now apply (AuthState.declares_child fs pk x k child).
    + intros [k child] Hin o Ho. rewrite Forall_forall in IHf.
      apply (IHf (k, child) Hin) in Ho as [Ho | Ho]; [|now right; right].
      apply addProvider_elim in Ho as [Ho | (q & Hq & Hn)]; [now left|].
      right; left. now exists q.
Qed.






(** The providers listed by the summary: the primary provider or a name
    the store declares. *)
Lemma listed_providers_origin (input : AuthState.AuthStateInput) (p : string) :
  In p (AuthState.providers_with_profiles (AuthState.summarizeAuthState input)) ->
  AuthState.primary_provider (AuthState.summarizeAuthState input) = Some p
  \/ AuthState.declares
       (AuthState.parseJson (AuthState.authProfilesText input)) "" p.
Proof.
  unfold AuthState.summarizeAuthState; cbv zeta;
    cbn [AuthState.providers_with_profiles AuthState.primary_provider].
  destruct (AuthState.providerFromModelRef _) as [q|].
  - destruct (negb (is_empty q) && _).
    + intros H. apply set_add_elim in H as [H | ->]; [|now left].
      apply collectProviders_sound in H as [[] | H]. now right.
    + intros H. apply collectProviders_sound in H as [[] | H]. now right.
  - intros H. apply collectProviders_sound in H as [[] | H]. now right.
Qed.



(** ** Mounting the bucket *)

Section MountFacts.

Variable R2_MOUNT_PATH : string.
Variable getR2BucketName : Sync.MoltbotEnv -> string.

(** X21. [mountR2Storage] never throws and mounts at most once: without
    the three credentials it answers [false] and makes no call on the
    sandbox; when the probe finds the bucket mounted it answers [true]
    without calling [mountBucket]; otherwise it calls [mountBucket]
    once, answers [true] when the call resolves, and when the call is
    rejected answers what a second probe finds. *)
Theorem mountR2Storage_mounts_at_most_once
    (sb : R2.Sandbox) (env : Sync.MoltbotEnv) :
  let probeCmd := R2.probeCmd R2_MOUNT_PATH in
  let first := R2.says_mounted (R2.probe sb (R2.events sb)) in
  let '(r, sb') := R2.mountR2Storage R2_MOUNT_PATH getR2BucketName sb env in
  (Sync.configured env = false -> r = false /\ sb' = sb)
  /\ (Sync.configured env = true ->
      exists added,
        R2.events sb' = (R2.events sb ++ added)%list
        /\ (length (filter R2.is_mount added) <= 1)%nat
        /\ (first = true -> r = true /\ added = [R2.Probed probeCmd])
        /\ (first = false ->
            exists call,
              R2.is_mount call = true
              /\ (R2.mount_resolves sb (R2.events sb ++ [R2.Probed probeCmd]) = true ->
                  r = true /\ added = [R2.Probed probeCmd; call])
              /\ (R2.mount_resolves sb (R2.events sb ++ [R2.Probed probeCmd]) = false ->
                  r = R2.says_mounted
                        (R2.probe sb (R2.events sb ++ [R2.Probed probeCmd; call]))
                  /\ added = [R2.Probed probeCmd; call; R2.Probed probeCmd]))).
Proof.
  cbv zeta. unfold R2.mountR2Storage, Sync.configured.
  destruct (truthy_str (Sync.R2_ACCESS_KEY_ID env));
    destruct (truthy_str (Sync.R2_SECRET_ACCESS_KEY env));
    destruct (truthy_str (Sync.CF_ACCOUNT_ID env));
    cbn [negb orb andb]; try (split; [now split | discriminate]).
  unfold R2.isR2Mounted, R2.record.
  cbn [R2.events R2.probe R2.mount_resolves].
  destruct (R2.says_mounted (R2.probe sb (R2.events sb))) eqn:E1.
  - split; [discriminate|]. intros _. cbn [R2.events].
    eexists. split; [reflexivity|].
    split; [cbn; lia|]. split; [now split | discriminate].
  - destruct (R2.mount_resolves sb _) eqn:E2; cbn [R2.events fst snd].
    + split; [discriminate|]. intros _.
      eexists. split; [rewrite <- app_assoc; reflexivity|].
      split; [cbn; lia|]. split; [discriminate|]. intros _.
      exists (R2.MountCalled (getR2BucketName env) R2_MOUNT_PATH
                ("https://" ++ Sync.cred (Sync.CF_ACCOUNT_ID env)
                 ++ ".r2.cloudflarestorage.com")
                (Sync.cred (Sync.R2_ACCESS_KEY_ID env))
                (Sync.cred (Sync.R2_SECRET_ACCESS_KEY env))).
      split; [reflexivity|]. split; [now split | discriminate].
    + split; [discriminate|]. intros _.
      eexists. split; [rewrite <- !app_assoc; reflexivity|].
      split; [cbn; lia|]. split; [discriminate|]. intros _.
      exists (R2.MountCalled (getR2BucketName env) R2_MOUNT_PATH
                ("https://" ++ Sync.cred (Sync.CF_ACCOUNT_ID env)
                 ++ ".r2.cloudflarestorage.com")
                (Sync.cred (Sync.R2_ACCESS_KEY_ID env))
                (Sync.cred (Sync.R2_SECRET_ACCESS_KEY env))).
      split; [reflexivity|]. split; [discriminate|]. intros _.
      rewrite <- app_assoc. now split.
Qed.

End MountFacts.

(** *** The provider list is complete and well formed *)










(** *** The provider list has no repetition and holds names only *)

Lemma set_add_NoDup (x : string) (l : list string) :
  NoDup l -> NoDup (AuthState.set_add x l).
Proof.
  intros H. unfold AuthState.set_add.
  destruct (existsb (String.eqb x) l) eqn:E; [exact H|].
  apply NoDup_app; [exact H | repeat constructor; intros [] |].
  intros y Hy [<- | []].
  apply existsb_eqb_In in Hy. congruence.
Qed.

Lemma addProvider_NoDup (set : list string) (mp : option string) :
  NoDup set -> NoDup (AuthState.addProvider set mp).
Proof.
  intros H. unfold AuthState.addProvider. destruct mp as [s|]; [|exact H].
  destruct (is_empty s); [exact H|].
  destruct (_ || _); [exact H | now apply set_add_NoDup].
Qed.

Lemma collectProviders_NoDup (v : Js.value) :
  forall out parentKey,
    NoDup out -> NoDup (AuthState.collectProviders v out parentKey).
Proof.
  induction v as [ | | b | l | s | items ps IHi _ | fs IHf]
    using value_induction; intros out pk H; try exact H.
  - cbn [AuthState.collectProviders]. apply addProvider_NoDup.
    destruct (AuthState.is_provider_key pk); [now apply addProvider_NoDup | exact H].
  - cbn [AuthState.collectProviders].
    revert out H. induction items as [|a items IH]; intros out H; [exact H|].
    cbn [fold_left]. inversion IHi as [|? ? Ha Hrest]; subst.
    apply IH; [exact Hrest|]. now apply Ha.
  - cbn [AuthState.collectProviders].
    revert out H. induction fs as [|[k child] fs IH]; intros out H; [exact H|].
    cbn [fold_left]. inversion IHf as [|? ? Ha Hrest]; subst.
    apply IH; [exact Hrest|]. apply Ha. now apply addProvider_NoDup.
Qed.

Lemma declares_simple (v : Js.value) (pk p : string) :
  AuthState.declares v pk p -> AuthState.simple_provider p = true.
Proof.
  induction 1 as [s pk p _ [_ H] | s pk p (q & _ & _ & H)
                 | | fs pk p k ch _ (q & _ & _ & H) | ]; assumption.
Qed.

Lemma toLowerCase_idempotent (s : string) :
  AuthState.toLowerCase (AuthState.toLowerCase s) = AuthState.toLowerCase s.
Proof.
  induction s as [|c r IH]; [reflexivity|].
  cbn [AuthState.toLowerCase]. rewrite IH. f_equal.
  unfold AuthState.lower_char.
  destruct ((65 <=? nat_of_ascii c) && (nat_of_ascii c <=? 90))%nat eqn:E;
    [|now rewrite E].
  apply andb_prop in E as [E1 E2].
  apply Nat.leb_le in E1, E2.
  rewrite nat_ascii_embedding by lia.
  assert (E3 : (nat_of_ascii c + 32 <=? 90)%nat = false) by (apply Nat.leb_gt; lia).
  now rewrite E3, andb_false_r.
Qed.

Lemma declares_lower (v : Js.value) (pk p : string) :
  AuthState.declares v pk p -> AuthState.toLowerCase p = p.
Proof.
  induction 1 as [s pk p _ [-> _] | s pk p (q & _ & -> & _)
                 | | fs pk p k ch _ (q & _ & -> & _) | ];
    try apply toLowerCase_idempotent; assumption.
Qed.

(** X15. The provider list of the summary never repeats a name, and
    holds nothing but provider names: each entry starts with a letter
    or a digit and goes on with letters, digits, dots, underscores and
    hyphens; each entry but the primary provider is in lower case. *)
Theorem providers_list_well_formed (input : AuthState.AuthStateInput) :
  let r := AuthState.summarizeAuthState input in
  NoDup (AuthState.providers_with_profiles r)
  /\ forall p, In p (AuthState.providers_with_profiles r) ->
       AuthState.simple_provider p = true
       /\ (AuthState.primary_provider r = Some p \/ AuthState.toLowerCase p = p).
Proof.
  cbv zeta. split.
  - unfold AuthState.summarizeAuthState. cbv zeta.
    cbn [AuthState.providers_with_profiles].
    assert (H : NoDup (AuthState.collectProviders
                         (AuthState.parseJson (AuthState.authProfilesText input))
                         [] ""))
      by (apply collectProviders_NoDup; constructor).
    destruct (AuthState.providerFromModelRef _) as [q|]; [|exact H].
    destruct (_ && _); [now apply set_add_NoDup | exact H].
  - intros p Hp. destruct (listed_providers_origin input p Hp) as [H | H].
    + split; [|now left].
      revert H. unfold AuthState.summarizeAuthState. cbv zeta.
      cbn [AuthState.primary_provider].
      destruct (AuthState.getPrimaryModelFromConfig _) as [m|]; [|discriminate].
      intros H. now apply providerFromModelRef_some in H as (rest & _ & _ & H & _).
    + split; [now apply (declares_simple _ _ _ H)|].
      right. now apply (declares_lower _ _ _ H).
Qed.

(** ** The rclone configuration, written by the boot script and by the
    Worker *)

Lemma truthy_str_cred (v : option string) :
  truthy_str v = negb (is_empty (Sync.cred v)).
Proof. now destruct v. Qed.

(** X22. The boot script and [syncToR2] configure rclone alike: with
    the same three variables, [setup_rclone] succeeds exactly when
    [syncToR2] finds the storage configured, and the [rclone.conf] it
    writes is, byte for byte, the file that the here-document of
    [rcloneConfigCmd] writes in the sandbox. *)
Theorem rclone_conf_same_in_boot_and_worker (env : Sync.MoltbotEnv) :
  let vars := Boot.rcloneEnv env in
  let conf :=
    Boot.rclone_conf (Sync.cred (Sync.R2_ACCESS_KEY_ID env))
      (Sync.cred (Sync.R2_SECRET_ACCESS_KEY env))
      (Sync.cred (Sync.CF_ACCOUNT_ID env)) in
  Boot.RCLONE_AVAILABLE vars = Sync.configured env
  /\ Boot.setup_rclone vars
     = (if Sync.configured env then Some conf else None)
  /\ option_map (Heredoc.expand vars) (Heredoc.body Sync.rcloneConfigCmd)
     = Some conf.
Proof.
  cbv zeta.
  assert (Hc : is_empty (Boot.rcloneEnv env "R2_ACCESS_KEY_ID")
               || is_empty (Boot.rcloneEnv env "R2_SECRET_ACCESS_KEY")
               || is_empty (Boot.rcloneEnv env "CF_ACCOUNT_ID")
               = negb (Sync.configured env)).
  { unfold Sync.configured. rewrite !truthy_str_cred.
    change (Boot.rcloneEnv env "R2_ACCESS_KEY_ID")
      with (Sync.cred (Sync.R2_ACCESS_KEY_ID env)).
    change (Boot.rcloneEnv env "R2_SECRET_ACCESS_KEY")
      with (Sync.cred (Sync.R2_SECRET_ACCESS_KEY env)).
    change (Boot.rcloneEnv env "CF_ACCOUNT_ID")
      with (Sync.cred (Sync.CF_ACCOUNT_ID env)).
    destruct (is_empty _), (is_empty _), (is_empty _); reflexivity. }
  assert (He : Heredoc.expand (Boot.rcloneEnv env) Boot.rclone_conf_template
               = Boot.rclone_conf (Sync.cred (Sync.R2_ACCESS_KEY_ID env))
                   (Sync.cred (Sync.R2_SECRET_ACCESS_KEY env))
                   (Sync.cred (Sync.CF_ACCOUNT_ID env))).
  { vm_compute. rewrite !append_assoc. reflexivity. }
  split; [|split].
  - unfold Boot.RCLONE_AVAILABLE, Boot.setup_rclone. rewrite Hc.
    now destruct (Sync.configured env).
  - unfold Boot.setup_rclone. rewrite Hc, He.
    now destruct (Sync.configured env).
  - vm_compute. rewrite !append_assoc. reflexivity.
Qed.

(** ** Auth store migration *)

Lemma reload_fields_stable (fs : Js.fields_t) :
  Forall Js.stable_field fs -> Js.reload_fields fs = fs.
Proof.
  induction 1 as [|[k v] fs [Hu Hr] _ IH]; [reflexivity|].
  unfold Js.reload_fields in *. cbn [flat_map]. rewrite IH.
  cbn [snd] in *. destruct v; try congruence; cbn [app]; now rewrite Hr.
Qed.

Lemma assoc_set_Forall (Q : string * Js.value -> Prop) (k : string)
    (v : Js.value) (fs : Js.fields_t) :
  Q (k, v) -> Forall Q fs -> Forall Q (Js.assoc_set k v fs).
Proof.
  intros Hq. induction 1 as [|[k' v'] fs Hh Ht IH]; cbn [Js.assoc_set].
  - now constructor.
  - destruct (String.eqb k k'); constructor; assumption.
Qed.

Lemma index_set_Forall (Q : string * Js.value -> Prop) (n : N) (k : string)
    (v : Js.value) (fs : Js.fields_t) :
  Q (k, v) -> Forall Q fs -> Forall Q (Js.index_set n k v fs).
Proof.
  intros Hq. induction 1 as [|[k' v'] fs Hh Ht IH]; cbn [Js.index_set].
  - now constructor.
  - destruct (Js.array_index k') as [n'|].
    + destruct (n =? n')%N; [now constructor|].
      destruct (n <? n')%N; constructor; try assumption. now constructor.
    + destruct (existsb _ _).
      * apply assoc_set_Forall; [assumption | now constructor].
      * constructor; [assumption | now constructor].
Qed.

Lemma obj_set_Forall (Q : string * Js.value -> Prop) (k : string)
    (v : Js.value) (fs : Js.fields_t) :
  Q (k, v) -> Forall Q fs -> Forall Q (Js.obj_set k v fs).
Proof.
  intros Hq Hf. unfold Js.obj_set. destruct (Js.array_index k).
  - now apply index_set_Forall.
  - now apply assoc_set_Forall.
Qed.

Lemma assoc_set_nonempty (k : string) (v : Js.value) (fs : Js.fields_t) :
  Js.assoc_set k v fs <> [].
Proof. destruct fs as [|[k' v'] fs]; simpl; [|destruct (String.eqb k k')]; discriminate. Qed.

Section AuthStoreFacts.

Variable number_of : Js.value -> string.
Variable jwt_expires : string -> option string.

Lemma migrate_entry_stable (id : string) (cred : Js.value) (pid : string)
    (profile : Js.value) :
  AuthStore.migrate_entry jwt_expires id cred = Some (pid, profile) ->
  Js.stable_field (pid, profile).
Proof.
  unfold AuthStore.migrate_entry.
  destruct (negb (Js.truthy cred) || negb (Js.typeof_object cred)); [discriminate|].
  cbv zeta.
  destruct (is_empty (trim (Js.to_string (Js.or_else (Js.getp_opt cred "provider") _))));
    [discriminate|].
  destruct (is_empty (trim (Js.to_string (Js.or_else (Js.getp_opt cred "apiKey") _))));
    [discriminate|].
  destruct (String.eqb _ "openai-codex").
  - intros [= <- <-]. split; [discriminate|].
    destruct (if AuthStore.isJwt _ then _ else None); reflexivity.
  - intros [= <- <-]. split; [discriminate | reflexivity].
Qed.

Lemma migrate_entries_stable (es : Js.fields_t) :
  Forall Js.stable_field (AuthStore.migrate_entries jwt_expires es).
Proof.
  unfold AuthStore.migrate_entries.
  assert (G : forall acc, Forall Js.stable_field acc ->
            Forall Js.stable_field
              (fold_left
                 (fun profiles kv =>
                    match AuthStore.migrate_entry jwt_expires (fst kv) (snd kv) with
                    | Some (profileId, profile) =>
                        Js.obj_set profileId profile profiles
                    | None => profiles
                    end) es acc)).
  { induction es as [|[id cred] es IH]; intros acc Hacc; [exact Hacc|].
    cbn [fold_left fst snd]. apply IH.
    destruct (AuthStore.migrate_entry jwt_expires id cred) as [[pid profile]|] eqn:E;
      [|exact Hacc].
    apply obj_set_Forall; [|exact Hacc].
    now apply (migrate_entry_stable id cred). }
  apply G. constructor.
Qed.

(** What a migration writes, and what the next run makes of it. *)
Lemma load_and_migrate_migrated (raw m : Js.value) :
  AuthStore.migrateLegacyIntoStore jwt_expires raw = Some m ->
  exists profiles,
    profiles <> []
    /\ m = Js.VObj [("version", Js.VNum "1"); ("profiles", Js.VObj profiles)]
    /\ AuthStore.load_and_migrate number_of jwt_expires raw
       = (Js.VObj [ ("version", Js.VNum "1"); ("profiles", Js.VObj profiles);
                    ("order", Js.VUndef); ("lastGood", Js.VUndef);
                    ("usageStats", Js.VUndef) ],
          Js.VObj [("version", Js.VNum "1"); ("profiles", Js.VObj profiles)]).
Proof.
  intros H. unfold AuthStore.load_and_migrate. rewrite H.
  unfold AuthStore.migrateLegacyIntoStore in H.
  destruct (negb (Js.truthy raw) || _ || _); [discriminate|].
  pose proof (migrate_entries_stable (Js.entries raw)) as St.
  destruct (AuthStore.migrate_entries jwt_expires (Js.entries raw))
    as [|kv profiles] eqn:E; [discriminate|].
  injection H as <-. exists (kv :: profiles).
  split; [discriminate|]. split; [reflexivity|].
  remember (kv :: profiles) as P eqn:EP. clear EP E.
  cbv zeta. unfold AuthStore.ensureStoreShape.
  cbn [Js.truthy Js.typeof_object andb Js.getp_opt Js.getp Js.lookup
       String.eqb Ascii.eqb Bool.eqb Js.or_else AuthStore.to_number
       Js.is_zero_literal existsb negb orb].
  cbn [Js.reload flat_map app].
  change (flat_map _ P) with (Js.reload_fields P).
  now rewrite (reload_fields_stable _ St).
Qed.


Lemma all_digits_default (a : string) :
  Js.all_digits (a ++ ":default") = false.
Proof.
  induction a as [|c r IH]; [reflexivity|].
  cbn [append Js.all_digits]. rewrite IH. apply andb_false_r.
Qed.

Lemma array_index_default (a : string) :
  Js.array_index (a ++ ":default") = None.
Proof.
  unfold Js.array_index. rewrite all_digits_default.
  destruct (a ++ ":default"); reflexivity.
Qed.

Lemma migrate_entry_key (id : string) (cred : Js.value) (pid : string)
    (profile : Js.value) :
  AuthStore.migrate_entry jwt_expires id cred = Some (pid, profile) ->
  Js.array_index pid = None.
Proof.
  unfold AuthStore.migrate_entry.
  destruct (negb (Js.truthy cred) || negb (Js.typeof_object cred)); [discriminate|].
  cbv zeta.
  destruct (is_empty (trim (Js.to_string (Js.or_else (Js.getp_opt cred "provider") _))));
    [discriminate|].
  destruct (is_empty (trim (Js.to_string (Js.or_else (Js.getp_opt cred "apiKey") _))));
    [discriminate|].
  destruct (String.eqb _ "openai-codex"); intros [= <- _]; apply array_index_default.
Qed.

Lemma obj_set_keys_name (k x : string) (v : Js.value) (fs : Js.fields_t) :
  Js.array_index k = None ->
  In x (map fst (Js.obj_set k v fs)) <-> In x (map fst fs) \/ x = k.
Proof.
  intros Hk. unfold Js.obj_set. rewrite Hk.
  induction fs as [|[k' v'] fs IH]; cbn [Js.assoc_set map fst In].
  - intuition congruence.
  - destruct (String.eqb k k') eqn:E; cbn [map fst In].
    + apply String.eqb_eq in E. subst k'. intuition congruence.
    + rewrite IH. tauto.
Qed.

(** Every entry that the loop keeps has its profile id among the
    profiles collected. *)
Lemma migrate_entries_keeps (es : Js.fields_t) (id : string) (cred : Js.value)
    (pid : string) (profile : Js.value) :
  In (id, cred) es ->
  AuthStore.migrate_entry jwt_expires id cred = Some (pid, profile) ->
  In pid (map fst (AuthStore.migrate_entries jwt_expires es)).
Proof.
  unfold AuthStore.migrate_entries. intros Hin He.
  assert (G : forall l acc,
            In pid (map fst acc) \/ In (id, cred) l ->
            In pid (map fst
              (fold_left
                 (fun profiles kv =>
                    match AuthStore.migrate_entry jwt_expires (fst kv) (snd kv) with
                    | Some (profileId, p) => Js.obj_set profileId p profiles
                    | None => profiles
                    end) l acc))).
  { induction l as [|[id' cred'] l IH]; intros acc H.
    - destruct H as [H | []]. exact H.
    - cbn [fold_left fst snd]. apply IH.
      destruct H as [H | [H | H]].
      + left. destruct (AuthStore.migrate_entry jwt_expires id' cred')
          as [[p' v']|] eqn:E'; [|exact H].
        apply obj_set_keys_name; [exact (migrate_entry_key _ _ _ _ E') | now left].
      + injection H as -> ->. left. rewrite He.
        apply obj_set_keys_name; [exact (migrate_entry_key _ _ _ _ He) | now right].
      + now right. }
  apply G. now right.
Qed.



End AuthStoreFacts.

(** ** The boot-time auth check *)

(** A text of white space only is not JSON. *)
Lemma skip_ws_spaces (t : string) :
  AuthState.all_chars is_space t = true ->
  AuthState.all_chars is_space (Json.skip_ws t) = true.
Proof.
  induction t as [|c r IH]; [reflexivity|].
  cbn [AuthState.all_chars Json.skip_ws]. intros H.
  destruct (Json.is_json_space c); [|exact H].
  apply andb_prop in H as [_ H]. now apply IH.
Qed.

Lemma skip_ws_head (t : string) (c : ascii) (r : string) :
  Json.skip_ws t = String c r -> Json.is_json_space c = false.
Proof.
  induction t as [|c' r' IH]; [discriminate|].
  cbn [Json.skip_ws]. destruct (Json.is_json_space c') eqn:E; [exact IH|].
  now intros [= <- _].
Qed.

Lemma parse_blank (t : string) :
  AuthState.all_chars is_space t = true -> Json.parse t = None.
Proof.
  intros H. unfold Json.parse. cbn [Json.parse_value].
  pose proof (skip_ws_spaces t H) as Hs.
  destruct (Json.skip_ws t) as [|c r] eqn:E; [reflexivity|].
  apply skip_ws_head in E. cbn [AuthState.all_chars] in Hs.
  apply andb_prop in Hs as [Hc _].
  destruct c as [[] [] [] [] [] [] [] []]; try discriminate; reflexivity.
Qed.

(** The boot script and the Worker read the config alike. *)
Lemma readJson_parseJson (file : option string) :
  AuthCheck.readJson file = AuthState.parseJson file.
Proof.
  destruct file as [t|]; [|reflexivity].
  unfold AuthCheck.readJson, AuthState.parseJson.
  destruct (is_empty t) eqn:E1.
  { destruct t; [reflexivity | discriminate]. }
  destruct (is_empty (trim t)) eqn:E2; [|reflexivity].
  cbn [orb]. rewrite parse_blank; [reflexivity|].
  apply trim_start_spaces, trim_end_empty.
  unfold trim in E2. now destruct (trim_end (trim_start t)).
Qed.

Lemma getPrimaryModel_same (config : Js.value) :
  AuthCheck.getPrimaryModel config = AuthState.getPrimaryModelFromConfig config.
Proof. reflexivity. Qed.

(** Whenever the Worker derives a provider from a model reference, the
    boot script derives it in lower case. *)
Lemma providerFromModel_lower (m : option string) (p : string) :
  AuthState.providerFromModelRef m = Some p ->
  AuthCheck.providerFromModel m = Some (AuthState.toLowerCase p).
Proof.
  destruct m as [t|]; [|discriminate].
  unfold AuthState.providerFromModelRef, AuthCheck.providerFromModel.
  destruct (is_empty t); [discriminate|].
  destruct (is_empty (trim t) || _ || _); [discriminate|].
  unfold AuthState.model_provider_match.
  destruct (AuthState.split_slash (trim t)) as [[a b]|]; [|discriminate].
  destruct (AuthState.simple_provider a && _ && _) eqn:E; [|discriminate].
  intros [= <-]. apply andb_prop in E as [E _]. apply andb_prop in E as [E _].
  now rewrite (simple_provider_nonempty _ E).
Qed.

Lemma hasProviderEnvKey_lower (env : AuthCheck.Env) (p : string) :
  AuthCheck.hasProviderEnvKey env (AuthState.toLowerCase p)
  = AuthCheck.hasProviderEnvKey env p.
Proof.
  unfold AuthCheck.hasProviderEnvKey. now rewrite toLowerCase_idempotent.
Qed.

Section AuthCheckFacts.

Variable Number_toString : string -> string.

(** X16. The boot script and the Worker's auth-state summary read the
    same primary model from a config text, and derive the same primary
    provider up to letter case: whenever the summary derives a provider
    the script derives it in lower case, and when the script derives
    none the summary derives none. *)
Theorem boot_check_agrees_with_summary
    (env : AuthCheck.Env) (configFile authFile : option string)
    (input : AuthState.AuthStateInput) :
  AuthState.configText input = configFile ->
  let s := AuthCheck.check Number_toString env configFile authFile in
  let r := AuthState.summarizeAuthState input in
  AuthCheck.primaryModel s = AuthState.primary_model r
  /\ (forall p, AuthState.primary_provider r = Some p ->
        AuthCheck.primaryProvider s = Some (AuthState.toLowerCase p))
  /\ (AuthCheck.primaryProvider s = None -> AuthState.primary_provider r = None).
Proof.
  intros Hc s r. subst s r.
  unfold AuthCheck.check, AuthState.summarizeAuthState. cbv zeta.
  destruct (match authFile with Some _ => _ | None => _ end) as [authRaw authObj].
  cbn [AuthCheck.primaryModel AuthCheck.primaryProvider
       AuthState.primary_model AuthState.primary_provider].
  rewrite Hc, readJson_parseJson, getPrimaryModel_same.
  set (m := AuthState.getPrimaryModelFromConfig (AuthState.parseJson configFile)).
  split; [reflexivity|]. split; [apply providerFromModel_lower|].
  intros Hn. destruct (AuthState.providerFromModelRef m) as [p|] eqn:E;
    [|reflexivity].
  rewrite (providerFromModel_lower m p E) in Hn. discriminate.
Qed.

(** X17. On an auth store that is not valid JSON the two checks part:
    the boot script reads the store as absent, so that with no key for
    the provider in the environment it reports a mismatch and exits
    with code 42, while the Worker's summary, finding the name of the
    provider in the raw text, reports the profiles as present and no
    mismatch. *)
Theorem unparsable_store_checks_disagree
    (env : AuthCheck.Env) (configFile : option string) (text p : string)
    (input : AuthState.AuthStateInput) :
  AuthState.configText input = configFile ->
  AuthState.authProfilesText input = Some text ->
  Json.parse text = None ->
  AuthState.primary_provider (AuthState.summarizeAuthState input) = Some p ->
  AuthState.token_bounded p text ->
  AuthCheck.hasProviderEnvKey env p = false ->
  let s := AuthCheck.check Number_toString env configFile (Some text) in
  let r := AuthState.summarizeAuthState input in
  (AuthCheck.authProfilesPresent s = false
   /\ AuthCheck.mismatch s = true
   /\ AuthCheck.exit_code s = 42%Z)
  /\ (AuthState.auth_profiles_present r = true
      /\ AuthState.mismatch_detected r = false).
Proof.
  intros Hc Ht Hbad Hp Hb Henv s r. subst s r. split.
  - unfold AuthCheck.exit_code, AuthCheck.check. cbv zeta. rewrite Hbad.
    cbn [AuthCheck.authProfilesPresent AuthCheck.mismatch
         AuthCheck.hasRequiredProvider].
    revert Hp. unfold AuthState.summarizeAuthState. cbv zeta.
    cbn [AuthState.primary_provider]. rewrite Hc. intros Hp.
    rewrite readJson_parseJson, getPrimaryModel_same.
    rewrite (providerFromModel_lower _ _ Hp), hasProviderEnvKey_lower, Henv.
    repeat split; reflexivity.
  - unfold AuthState.summarizeAuthState in *; cbv zeta in *;
      cbn [AuthState.mismatch_detected AuthState.primary_provider
           AuthState.providers_with_profiles AuthState.auth_profiles_present] in *.
    rewrite Hp, Ht.
    pose proof (primary_provider_nonempty _ _ Hp) as Np.
    rewrite Np, (hasProviderToken_bounded p text Np Hb). cbn [negb andb].
    split.
    + destruct Hb as (pre & post & -> & _).
      destruct (AuthState.getPrimaryModelFromConfig _) as [m|]; [|discriminate].
      apply providerFromModelRef_some in Hp as (rest & _ & _ & Hs & _).
      now rewrite (trim_nonempty_of_provider p pre post Hs).
    + assert (Hin : In p (AuthState.set_add p
               (AuthState.collectProviders
                  (AuthState.parseJson (Some text)) [] ""))) by apply set_add_In.
      apply existsb_eqb_In in Hin. rewrite Hin. cbn [negb].
      apply andb_false_r.
Qed.

End AuthCheckFacts.

Lemma unparsable_store_checks_disagree_witness :
  AuthCheck.exit_code
    (AuthCheck.check Samples.literal Samples.no_keys
       (Some Fixtures.codex_config) (Some Fixtures.store_truncated)) = 42%Z
  /\ AuthState.mismatch_detected
       (AuthState.summarizeAuthState
          (Fixtures.auth_input Fixtures.codex_config Fixtures.store_truncated))
     = false.
Proof.
  destruct (unparsable_store_checks_disagree Samples.literal Samples.no_keys
              (Some Fixtures.codex_config) Fixtures.store_truncated "openai-codex"
              (Fixtures.auth_input Fixtures.codex_config Fixtures.store_truncated))
    as ((_ & _ & H1) & (_ & H2)); try (vm_compute; reflexivity).
  - exists (dq "{'profiles':[{'provider':'"), (dq "'").
    split; [vm_compute; reflexivity | split; reflexivity].
  - split; [exact H1 | exact H2].
Defined.

Lemma boot_check_agrees_with_summary_witness :
  AuthCheck.primaryModel
    (AuthCheck.check Samples.literal Samples.no_keys
       (Some Fixtures.codex_config) (Some Fixtures.store_codex))
  = Some "openai-codex/gpt-5.3-codex"
  /\ AuthCheck.primaryProvider
       (AuthCheck.check Samples.literal Samples.no_keys
          (Some Fixtures.codex_config) (Some Fixtures.store_codex))
     = Some "openai-codex".
Proof.
  destruct (boot_check_agrees_with_summary Samples.literal Samples.no_keys
              (Some Fixtures.codex_config) (Some Fixtures.store_codex)
              (Fixtures.auth_input Fixtures.codex_config Fixtures.store_codex)
              eq_refl) as (H1 & H2 & _).
  split.
  - rewrite H1. vm_compute. reflexivity.
  - apply (H2 "openai-codex"). vm_compute. reflexivity.
Defined.

(** ** Statements on objects: fields, keys, reloading *)

Lemma obj_set_name (k : string) (v : Js.value) (fs : Js.fields_t) :
  Js.array_index k = None -> Js.obj_set k v fs = Js.assoc_set k v fs.
Proof. unfold Js.obj_set. now intros ->. Qed.

Lemma field_assoc_set_same (k : string) (v : Js.value) (fs : Js.fields_t) :
  Js.field k (Js.assoc_set k v fs) = v.
Proof.
  unfold Js.field. induction fs as [|[k' v'] fs IH]; cbn [Js.assoc_set Js.lookup].
  - now rewrite String.eqb_refl.
  - destruct (String.eqb k k') eqn:E; cbn [Js.lookup].
    + now rewrite String.eqb_refl.
    + now rewrite E.
Qed.

Lemma field_assoc_set_other (k k' : string) (v : Js.value) (fs : Js.fields_t) :
  k <> k' -> Js.field k (Js.assoc_set k' v fs) = Js.field k fs.
Proof.
  intros N. unfold Js.field.
  induction fs as [|[k2 v2] fs IH]; cbn [Js.assoc_set Js.lookup].
  - apply String.eqb_neq in N. now rewrite N.
  - destruct (String.eqb k' k2) eqn:E; cbn [Js.lookup].
    + apply String.eqb_eq in E. subst k2.
      apply String.eqb_neq in N. now rewrite N.
    + destruct (String.eqb k k2); [reflexivity | exact IH].
Qed.

Lemma keys_assoc_set (k : string) (v : Js.value) (fs : Js.fields_t) :
  map fst (Js.assoc_set k v fs) =
  if existsb (String.eqb k) (map fst fs) then map fst fs
  else (map fst fs ++ [k])%list.
Proof.
  induction fs as [|[k' v'] fs IH]; cbn [Js.assoc_set map fst existsb app].
  - reflexivity.
  - destruct (String.eqb k k') eqn:E; cbn [map fst orb].
    + apply String.eqb_eq in E. now subst.
    + rewrite IH. now destruct (existsb _ _).
Qed.

Lemma keys_assoc_set_in (k x : string) (v : Js.value) (fs : Js.fields_t) :
  In x (map fst (Js.assoc_set k v fs)) <-> In x (map fst fs) \/ x = k.
Proof.
  rewrite keys_assoc_set.
  destruct (existsb (String.eqb k) (map fst fs)) eqn:E.
  - apply existsb_eqb_In in E. split; [now left|].
    intros [H | ->]; assumption.
  - rewrite in_app_iff. cbn [In]. split.
    + intros [H | [H | []]]; auto.
    + intros [H | ->]; auto.
Qed.

Lemma keys_assoc_set_NoDup (k : string) (v : Js.value) (fs : Js.fields_t) :
  NoDup (map fst fs) -> NoDup (map fst (Js.assoc_set k v fs)).
Proof.
  intros H. rewrite keys_assoc_set.
  destruct (existsb (String.eqb k) (map fst fs)) eqn:E; [exact H|].
  apply NoDup_app; [exact H | constructor; [intros [] | constructor] |].
  intros x Hx [<- | []]. apply existsb_eqb_In in Hx. congruence.
Qed.

Lemma distinct_NoDup (l : list string) :
  Js.distinct l = true <-> NoDup l.
Proof.
  induction l as [|x l IH]; cbn [Js.distinct].
  - split; [constructor | reflexivity].
  - rewrite andb_true_iff, negb_true_iff, IH. split.
    + intros [H1 H2]. constructor; [|exact H2].
      intros Hin. apply existsb_eqb_In in Hin. congruence.
    + intros H. inversion H as [|? ? Hn Hd]; subst. split; [|exact Hd].
      apply not_true_is_false. intros Hin. now apply existsb_eqb_In in Hin.
Qed.





(** *** Reloading *)

Lemma reload_undef (v : Js.value) : Js.reload v = Js.VUndef -> v = Js.VUndef.
Proof. destruct v; cbn [Js.reload]; congruence. Qed.

Lemma reload_fields_eq (fs : Js.fields_t) :
  Js.reload (Js.VObj fs) = Js.VObj (Js.reload_fields fs).
Proof. reflexivity. Qed.

Lemma reload_fields_cons (k : string) (v : Js.value) (fs : Js.fields_t) :
  Js.reload_fields ((k, v) :: fs) =
  match v with
  | Js.VUndef => Js.reload_fields fs
  | _ => (k, Js.reload v) :: Js.reload_fields fs
  end.
Proof. unfold Js.reload_fields. cbn [flat_map]. now destruct v. Qed.

Lemma reload_fields_cons_defined (k : string) (v : Js.value) (fs : Js.fields_t) :
  v <> Js.VUndef ->
  Js.reload_fields ((k, v) :: fs) = (k, Js.reload v) :: Js.reload_fields fs.
Proof. intros H. rewrite reload_fields_cons. destruct v; congruence. Qed.


Lemma reload_json (v : Js.value) : Js.is_json v = true -> Js.reload v = v.
Proof.
  induction v as [ | | b | l | s | items ps IHi _ | fs IHf]
    using value_induction; try reflexivity.
  - cbn [Js.is_json Js.reload]. intros H. apply andb_prop in H as [Hi Hp].
    destruct ps; [|discriminate]. f_equal.
    induction items as [|x items IH]; [reflexivity|].
    cbn [forallb] in Hi. apply andb_prop in Hi as [Hx Hi].
    inversion IHi as [|? ? Px Pi]; subst.
    cbn [map]. rewrite (IH Pi Hi). rewrite (Px Hx).
    destruct x; try reflexivity. discriminate.
  - cbn [Js.is_json]. intros H. apply andb_prop in H as [Hv _].
    rewrite reload_fields_eq. f_equal.
    induction fs as [|[k x] fs IH]; [reflexivity|].
    cbn [forallb] in Hv. apply andb_prop in Hv as [Hx Hv].
    inversion IHf as [|? ? Px Pf]; subst. cbn [snd] in Px.
    rewrite reload_fields_cons, (IH Pf Hv), (Px Hx).
    destruct x; try reflexivity. discriminate.
Qed.

Lemma reload_idempotent (v : Js.value) : Js.reload (Js.reload v) = Js.reload v.
Proof.
  induction v as [ | | b | l | s | items ps IHi _ | fs IHf]
    using value_induction; try reflexivity.
  - cbn [Js.reload]. f_equal. rewrite map_map.
    induction IHi as [|x items Px _ IH]; [reflexivity|].
    cbn [map]. rewrite IH. f_equal.
    destruct x; try reflexivity; cbn [Js.reload] in *.
    + now injection Px as ->.
    + exact Px.
  - rewrite !reload_fields_eq. f_equal.
    induction IHf as [|[k x] fs Px _ IH]; [reflexivity|].
    cbn [snd] in Px.
    assert (Hx : x = Js.VUndef \/ x <> Js.VUndef)
      by (destruct x; auto; right; discriminate).
    destruct Hx as [-> | Hx]; [now rewrite reload_fields_cons|].
    rewrite (reload_fields_cons_defined k x fs Hx).
    rewrite reload_fields_cons_defined, Px, IH; [reflexivity|].
    intros R. now apply reload_undef in R.
Qed.

Lemma field_json (k : string) (fs : Js.fields_t) :
  Js.is_json (Js.VObj fs) = true ->
  Js.field k fs = Js.VUndef \/ Js.is_json (Js.field k fs) = true.
Proof.
  cbn [Js.is_json]. intros H. apply andb_prop in H as [H _].
  unfold Js.field. induction fs as [|[k' x] fs IH]; [now left|].
  cbn [forallb] in H. apply andb_prop in H as [Hx H].
  cbn [Js.lookup]. destruct (String.eqb k k'); [now right | now apply IH].
Qed.


(** *** One statement *)

Lemma upd_obj (k : string) (f : Js.update) (fs : Js.fields_t) :
  Js.array_index k = None ->
  Js.upd k f (Js.VObj fs) =
  match f (Js.field k fs) with
  | Some v' => Some (Js.VObj (Js.assoc_set k v' fs))
  | None => None
  end.
Proof.
  intros Hk. unfold Js.upd, Js.field. cbn [Js.getp].
  destruct (f _); [|reflexivity]. cbn [Js.setp]. now rewrite obj_set_name.
Qed.



(** *** Sequences of statements *)

Lemma run_app (a b : list Js.statement) (o : Js.value) :
  Js.run (a ++ b) o =
  match Js.run a o with
  | Some o' => Js.run b o'
  | None => None
  end.
Proof.
  revert o. induction a as [|[k f] a IH]; intros o; [reflexivity|].
  cbn [app Js.run]. destruct (Js.upd k f o); [apply IH | reflexivity].
Qed.

Lemma final_app (k : string) (a b : list Js.statement) (v : Js.value) :
  Js.final k (a ++ b) v =
  match Js.final k a v with
  | Some v' => Js.final k b v'
  | None => None
  end.
Proof.
  revert v. induction a as [|[k' f] a IH]; intros v; [reflexivity|].
  cbn [app Js.final]. destruct (String.eqb k' k); [|apply IH].
  destruct (f v); [apply IH | reflexivity].
Qed.

Lemma final_notin (k : string) (seq : list Js.statement) (v : Js.value) :
  ~ In k (map fst seq) -> Js.final k seq v = Some v.
Proof.
  induction seq as [|[k' f] seq IH]; intros H; [reflexivity|].
  cbn [Js.final]. cbn [map fst In] in H.
  destruct (String.eqb k' k) eqn:E.
  - apply String.eqb_eq in E. elim H. now left.
  - apply IH. intros Hin. apply H. now right.
Qed.

Lemma under_keys (k x : string) (seq : list Js.statement) :
  In x (map fst (Js.under k seq)) -> x = k.
Proof.
  unfold Js.under. rewrite map_map. cbn [fst].
  intros H. apply in_map_iff in H as (s & <- & _). reflexivity.
Qed.

Lemma final_under (k : string) (seq : list Js.statement) (v : Js.value) :
  Js.final k (Js.under k seq) v = Js.run seq v.
Proof.
  revert v. induction seq as [|[k' f] seq IH]; intros v; [reflexivity|].
  cbn [Js.under map Js.final Js.run fst snd]. rewrite String.eqb_refl.
  destruct (Js.upd k' f v); [apply IH | reflexivity].
Qed.

Lemma final_under_other (k k' : string) (seq : list Js.statement) (v : Js.value) :
  k <> k' -> Js.final k (Js.under k' seq) v = Some v.
Proof.
  intros N. apply final_notin. intros H. apply under_keys in H. congruence.
Qed.

Lemma name_keys_app (a b : list Js.statement) :
  Js.name_keys a -> Js.name_keys b -> Js.name_keys (a ++ b).
Proof. unfold Js.name_keys. intros. now apply Forall_app. Qed.

Lemma name_keys_under (k : string) (seq : list Js.statement) :
  Js.array_index k = None -> Js.name_keys (Js.under k seq).
Proof.
  intros H. unfold Js.name_keys, Js.under. apply Forall_map.
  apply Forall_forall. intros s _. exact H.
Qed.



(** What the statements make of an object: the fields, the keys. *)
Lemma run_object (seq : list Js.statement) :
  Js.name_keys seq ->
  forall fs m,
    Js.run seq (Js.VObj fs) = Some m ->
    exists fs',
      m = Js.VObj fs'
      /\ (forall k, Js.final k seq (Js.field k fs) = Some (Js.field k fs'))
      /\ (forall k, In k (map fst fs') <-> In k (map fst fs) \/ In k (map fst seq))
      /\ (NoDup (map fst fs) -> NoDup (map fst fs'))
      /\ ((forall k, In k (map fst seq) -> In k (map fst fs)) ->
          map fst fs' = map fst fs).
Proof.
  induction 1 as [|[K f] seq HK _ IH]; intros fs m; cbn [Js.run].
  - intros [= <-]. exists fs. repeat split; auto.
    + intros [H | []]. exact H.
  - cbn [fst] in HK. rewrite (upd_obj K f fs HK).
    destruct (f (Js.field K fs)) as [v'|] eqn:Ef; [|discriminate].
    intros Hrun. destruct (IH _ _ Hrun) as (fs' & -> & Hfin & Hkeys & Hnd & Hsame).
    exists fs'. split; [reflexivity|]. split; [|split; [|split]].
    + intros k. cbn [Js.final]. destruct (String.eqb K k) eqn:E.
      * apply String.eqb_eq in E. subst k. rewrite Ef.
        rewrite <- Hfin. now rewrite field_assoc_set_same.
      * apply String.eqb_neq in E. rewrite <- Hfin.
        rewrite field_assoc_set_other; [reflexivity | congruence].
    + intros k. rewrite Hkeys, keys_assoc_set_in. cbn [map fst In].
      intuition congruence.
    + intros Hd. apply Hnd. now apply keys_assoc_set_NoDup.
    + intros Hall. rewrite Hsame.
      * rewrite keys_assoc_set.
        assert (In K (map fst fs)) as Hin by (apply Hall; now left).
        apply existsb_eqb_In in Hin. now rewrite Hin.
      * intros k Hk. apply keys_assoc_set_in. left. apply Hall. now right.
Qed.

(** The statements run through on an object as soon as, for every key
    they touch, they run through on the value held under it. *)
Lemma run_object_defined (seq : list Js.statement) :
  Js.name_keys seq ->
  forall fs,
    (forall k, In k (map fst seq) -> Js.final k seq (Js.field k fs) <> None) ->
    Js.run seq (Js.VObj fs) <> None.
Proof.
  induction 1 as [|[K f] seq HK _ IH]; intros fs Hall; cbn [Js.run].
  - discriminate.
  - cbn [fst] in HK. rewrite (upd_obj K f fs HK).
    pose proof (Hall K (or_introl eq_refl)) as HKf.
    cbn [Js.final] in HKf. rewrite String.eqb_refl in HKf.
    destruct (f (Js.field K fs)) as [v'|] eqn:Ef; [|now elim HKf].
    apply IH. intros k Hk.
    destruct (String.eqb K k) eqn:E.
    + apply String.eqb_eq in E. subst k. now rewrite field_assoc_set_same.
    + pose proof (Hall k (or_intror Hk)) as Hkf.
      cbn [Js.final] in Hkf. rewrite E in Hkf.
      apply String.eqb_neq in E.
      rewrite field_assoc_set_other; [exact Hkf | congruence].
Qed.

(** *** A script settles when the statements on each key do *)







(** ** What [JSON.parse] returns is a parsed value *)








Section ParsedContainers.

Variable parse_one : string -> option (Js.value * string).
Hypothesis parse_one_json :
  forall s v r, parse_one s = Some (v, r) -> Js.is_json v = true.



End ParsedContainers.




(** ** ConfigPatcher *)

(** *** The plugin registration settles *)

Lemma is_json_strings (l : list string) :
  Js.is_json (ConfigPatcher.strings l) = true.
Proof.
  unfold ConfigPatcher.strings. cbn [Js.is_json]. rewrite andb_true_r.
  induction l; [reflexivity | exact IHl].
Qed.



Lemma name_keys_cons (k : string) (f : Js.update) (seq : list Js.statement) :
  Js.array_index k = None -> Js.name_keys seq -> Js.name_keys ((k, f) :: seq).
Proof. intros. now constructor. Qed.

Lemma name_keys_nil : Js.name_keys [].
Proof. constructor. Qed.

Create HintDb names.

#[local] Hint Resolve name_keys_cons name_keys_nil name_keys_app name_keys_under
  : names.




Lemma name_keys_plugins : Js.name_keys ConfigPatcher.plugins.
Proof. unfold ConfigPatcher.plugins. auto 10 with names. Qed.

Lemma final_load_plugins (v : Js.value) :
  Js.final "load" ConfigPatcher.plugins v
  = Js.run ConfigPatcher.plugin_paths (Js.or_else v (Js.VObj [])).
Proof.
  unfold ConfigPatcher.plugins.
  change ([("entries", Js.init (Js.VObj [])); ("load", Js.init (Js.VObj []))]
          ++ Js.under "load" ConfigPatcher.plugin_paths
          ++ Js.under "entries" ConfigPatcher.plugin_entries)%list
    with (("entries", Js.init (Js.VObj [])) :: ("load", Js.init (Js.VObj []))
          :: (Js.under "load" ConfigPatcher.plugin_paths
              ++ Js.under "entries" ConfigPatcher.plugin_entries)%list).
  cbn [Js.final String.eqb Ascii.eqb Bool.eqb Js.init].
  rewrite final_app, final_under.
  destruct (Js.run _ _); [|reflexivity].
  apply final_under_other. discriminate.
Qed.

Lemma final_entries_plugins (v : Js.value) :
  Js.final "entries" ConfigPatcher.plugins v
  = Js.run ConfigPatcher.plugin_entries (Js.or_else v (Js.VObj [])).
Proof.
  unfold ConfigPatcher.plugins.
  change ([("entries", Js.init (Js.VObj [])); ("load", Js.init (Js.VObj []))]
          ++ Js.under "load" ConfigPatcher.plugin_paths
          ++ Js.under "entries" ConfigPatcher.plugin_entries)%list
    with (("entries", Js.init (Js.VObj [])) :: ("load", Js.init (Js.VObj []))
          :: (Js.under "load" ConfigPatcher.plugin_paths
              ++ Js.under "entries" ConfigPatcher.plugin_entries)%list).
  cbn [Js.final String.eqb Ascii.eqb Bool.eqb Js.init].
  rewrite final_app, final_under_other by discriminate.
  apply final_under.
Qed.



(** *** The gateway block settles *)


Lemma name_keys_gateway (env : ConfigPatcher.Env) :
  Js.name_keys (ConfigPatcher.gateway env).
Proof.
  unfold ConfigPatcher.gateway, ConfigPatcher.gateway_auth,
    ConfigPatcher.gateway_controlUi.
  destruct (truthy_str _); destruct (match ConfigPatcher.OPENCLAW_DEV_MODE env with
                                     | Some m => _ | None => _ end);
    auto 10 with names.
Qed.


(** *** The channel blocks settle *)

Lemma keys_telegram (env : ConfigPatcher.Env) (k : string) :
  In k (map fst (ConfigPatcher.telegram env)) -> k = "telegram".
Proof.
  unfold ConfigPatcher.telegram. destruct (truthy_str _); [|intros []].
  cbn [map fst In]. intros [<- | H]; [reflexivity|].
  now apply under_keys in H.
Qed.

Lemma keys_discord (env : ConfigPatcher.Env) (k : string) :
  In k (map fst (ConfigPatcher.discord env)) -> k = "discord".
Proof.
  unfold ConfigPatcher.discord. destruct (truthy_str _); [|intros []].
  cbn. intros [<- | []]. reflexivity.
Qed.

Lemma keys_slack (env : ConfigPatcher.Env) (k : string) :
  In k (map fst (ConfigPatcher.slack env)) -> k = "slack".
Proof.
  unfold ConfigPatcher.slack. destruct (_ && _); [|intros []].
  cbn. intros [<- | []]. reflexivity.
Qed.

Lemma name_keys_channels (env : ConfigPatcher.Env) :
  Js.name_keys (ConfigPatcher.channels env).
Proof.
  unfold ConfigPatcher.channels, ConfigPatcher.telegram, ConfigPatcher.discord,
    ConfigPatcher.slack.
  destruct (truthy_str (ConfigPatcher.TELEGRAM_BOT_TOKEN env));
    destruct (truthy_str (ConfigPatcher.DISCORD_BOT_TOKEN env));
    destruct (_ && _); auto 10 with names.
Qed.

(** What the statements on [config.channels] make of each channel. *)
Lemma final_telegram (env : ConfigPatcher.Env) (v : Js.value) :
  Js.final "telegram" (ConfigPatcher.channels env) v
  = Js.final "telegram" (ConfigPatcher.telegram env) v.
Proof.
  unfold ConfigPatcher.channels. rewrite final_app.
  destruct (Js.final "telegram" (ConfigPatcher.telegram env) v); [|reflexivity].
  apply final_notin. rewrite map_app. intros H.
  apply in_app_or in H as [H | H];
    [apply keys_discord in H | apply keys_slack in H]; discriminate.
Qed.

Lemma final_discord (env : ConfigPatcher.Env) (v : Js.value) :
  Js.final "discord" (ConfigPatcher.channels env) v
  = Js.final "discord" (ConfigPatcher.discord env) v.
Proof.
  unfold ConfigPatcher.channels.
  rewrite final_app, final_notin, final_app.
  - destruct (Js.final "discord" (ConfigPatcher.discord env) v); [|reflexivity].
    apply final_notin. intros H. apply keys_slack in H. discriminate.
  - intros H. apply keys_telegram in H. discriminate.
Qed.

Lemma final_slack (env : ConfigPatcher.Env) (v : Js.value) :
  Js.final "slack" (ConfigPatcher.channels env) v
  = Js.final "slack" (ConfigPatcher.slack env) v.
Proof.
  unfold ConfigPatcher.channels.
  rewrite final_app, final_notin, final_app, final_notin.
  - reflexivity.
  - intros H. apply keys_discord in H. discriminate.
  - intros H. apply keys_telegram in H. discriminate.
Qed.


(** *** The model override settles *)

Lemma override_values_spec (env : ConfigPatcher.Env) (p : string) (e m : Js.value) :
  ConfigPatcher.gateway_override_values env = Some (p, e, m) ->
  Js.array_index p = None /\ e <> Js.VUndef /\ m <> Js.VUndef.
Proof.
  unfold ConfigPatcher.gateway_override_values.
  destruct (truthy_str _); [|discriminate].
  destruct (ConfigPatcher.gateway_model_parts _) as [g id].
  destruct (ConfigPatcher.gateway_base_url env g); [|discriminate].
  destruct (_ && _); [|discriminate].
  intros [= <- <- <-]. repeat split; discriminate.
Qed.

Lemma keys_override (env : ConfigPatcher.Env) (k : string) :
  In k (map fst (ConfigPatcher.gateway_override env)) ->
  k = "models" \/ k = "agents".
Proof.
  unfold ConfigPatcher.gateway_override.
  destruct (ConfigPatcher.gateway_override_values env) as [[[p e] m]|]; [|intros []].
  rewrite map_app. intros H. apply in_app_or in H as [H | H].
  - left. cbn [map fst In] in H. destruct H as [<- | H]; [reflexivity|].
    now apply under_keys in H.
  - right. cbn [map fst In] in H. destruct H as [<- | H]; [reflexivity|].
    now apply under_keys in H.
Qed.

Lemma name_keys_override (env : ConfigPatcher.Env) :
  Js.name_keys (ConfigPatcher.gateway_override env).
Proof.
  unfold ConfigPatcher.gateway_override.
  destruct (ConfigPatcher.gateway_override_values env) as [[[p e] m]|] eqn:E;
    [|constructor].
  apply override_values_spec in E as (Hp & _).
  apply name_keys_app; apply name_keys_cons; try reflexivity;
    apply name_keys_under; reflexivity.
Qed.



(** *** The whole script *)

Lemma keys_statements (env : ConfigPatcher.Env) (k : string) :
  In k (map fst (ConfigPatcher.statements env)) ->
  k = "gateway" \/ k = "channels" \/ k = "plugins"
  \/ In k (map fst (ConfigPatcher.gateway_override env)).
Proof.
  unfold ConfigPatcher.statements. rewrite !map_app, !in_app_iff.
  cbn [map fst In].
  intros [[<- | [<- | [<- | []]]] | [H | [H | [H | H]]]]; auto;
    apply under_keys in H; auto.
Qed.

Lemma name_keys_statements (env : ConfigPatcher.Env) :
  Js.name_keys (ConfigPatcher.statements env).
Proof.
  unfold ConfigPatcher.statements.
  repeat apply name_keys_app; auto using name_keys_override with names.
Qed.

Lemma final_override_other (env : ConfigPatcher.Env) (k : string) (v : Js.value) :
  k <> "models" -> k <> "agents" ->
  Js.final k (ConfigPatcher.gateway_override env) v = Some v.
Proof.
  intros H1 H2. apply final_notin. intros H.
  apply keys_override in H as [H | H]; congruence.
Qed.

Lemma final_gateway_statements (env : ConfigPatcher.Env) (v : Js.value) :
  Js.final "gateway" (ConfigPatcher.statements env) v
  = Js.run (ConfigPatcher.gateway env) (Js.or_else v (Js.VObj [])).
Proof.
  unfold ConfigPatcher.statements. rewrite final_app.
  cbn [Js.final String.eqb Ascii.eqb Bool.eqb Js.init].
  rewrite final_app, final_under_other by discriminate.
  rewrite final_app, final_under.
  destruct (Js.run _ _); [|reflexivity].
  rewrite final_app, final_override_other by discriminate.
  apply final_under_other. discriminate.
Qed.

Lemma final_channels_statements (env : ConfigPatcher.Env) (v : Js.value) :
  Js.final "channels" (ConfigPatcher.statements env) v
  = Js.run (ConfigPatcher.channels env) (Js.or_else v (Js.VObj [])).
Proof.
  unfold ConfigPatcher.statements. rewrite final_app.
  cbn [Js.final String.eqb Ascii.eqb Bool.eqb Js.init].
  rewrite final_app, final_under_other by discriminate.
  rewrite final_app, final_under_other by discriminate.
  rewrite final_app, final_override_other by discriminate.
  apply final_under.
Qed.

Lemma final_plugins_statements (env : ConfigPatcher.Env) (v : Js.value) :
  Js.final "plugins" (ConfigPatcher.statements env) v
  = Js.run ConfigPatcher.plugins (Js.or_else v (Js.VObj [])).
Proof.
  unfold ConfigPatcher.statements. rewrite final_app.
  cbn [Js.final String.eqb Ascii.eqb Bool.eqb Js.init].
  rewrite final_app, final_under.
  destruct (Js.run _ _); [|reflexivity].
  rewrite final_app, final_under_other by discriminate.
  rewrite final_app, final_override_other by discriminate.
  apply final_under_other. discriminate.
Qed.

Lemma final_override_statements (env : ConfigPatcher.Env) (k : string) (v : Js.value) :
  k = "models" \/ k = "agents" ->
  Js.final k (ConfigPatcher.statements env) v
  = Js.final k (ConfigPatcher.gateway_override env) v.
Proof.
  intros Hk. unfold ConfigPatcher.statements. rewrite final_app.
  rewrite (final_notin k [_; _; _]).
  2:{ cbn. intros [<- | [<- | [<- | []]]]; destruct Hk; discriminate. }
  rewrite final_app, final_under_other by (destruct Hk; subst; discriminate).
  rewrite final_app, final_under_other by (destruct Hk; subst; discriminate).
  rewrite final_app.
  destruct (Js.final k (ConfigPatcher.gateway_override env) v); [|reflexivity].
  apply final_under_other. destruct Hk; subst; discriminate.
Qed.


(** The same for the older variant of the script. *)





(** *** The script runs through on documents of the expected shape *)

Lemma plain_or_else (v : Js.value) :
  ConfigPatcher.plain v = true ->
  exists fs, Js.or_else v (Js.VObj []) = Js.VObj fs
             /\ forall k, Js.field k fs = Js.getp_opt v k.
Proof.
  unfold ConfigPatcher.plain, Js.or_else.
  destruct (Js.truthy v) eqn:T; cbn [negb orb].
  - destruct v; try discriminate. intros _. exists fields. split; reflexivity.
  - intros _. exists []. split; [reflexivity|].
    intros k. destruct v; try reflexivity; discriminate.
Qed.

(** A record slot runs through when the statements on each of its keys
    do, on what the slot holds under the key. *)
Lemma record_defined (seq : list Js.statement) (v : Js.value) :
  ConfigPatcher.plain v = true ->
  Js.name_keys seq ->
  (forall k, In k (map fst seq) -> Js.final k seq (Js.getp_opt v k) <> None) ->
  Js.run seq (Js.or_else v (Js.VObj [])) <> None.
Proof.
  intros Hp Hn Hk. destruct (plain_or_else v Hp) as (fs & -> & Hf).
  apply run_object_defined; [exact Hn|].
  intros k Hin. rewrite Hf. now apply Hk.
Qed.

Lemma one_field_defined (k : string) (x v : Js.value) :
  ConfigPatcher.plain v = true -> Js.array_index k = None ->
  Js.run [(k, Js.const x)] (Js.or_else v (Js.VObj [])) <> None.
Proof.
  intros Hp Hk. apply record_defined; [exact Hp | auto with names |].
  intros k' Hin. cbn in Hin. destruct Hin as [<- | []].
  cbn [Js.final]. rewrite String.eqb_refl. discriminate.
Qed.

Lemma nested_field_defined (outer k : string) (x v : Js.value) :
  ConfigPatcher.plain v = true ->
  ConfigPatcher.plain (Js.getp_opt v outer) = true ->
  Js.array_index outer = None -> Js.array_index k = None ->
  Js.run ((outer, Js.init (Js.VObj [])) :: Js.under outer [(k, Js.const x)])
    (Js.or_else v (Js.VObj [])) <> None.
Proof.
  intros Hv Ho Hno Hnk. apply record_defined; [exact Hv | auto with names |].
  intros k' Hin. cbn [map fst In Js.under] in Hin.
  assert (k' = outer) as -> by (destruct Hin as [<- | [<- | []]]; reflexivity).
  cbn [Js.final Js.under map fst snd Js.init]. rewrite !String.eqb_refl.
  pose proof (one_field_defined k x _ Ho Hnk) as H.
  cbn [Js.run] in H. now destruct (Js.upd k (Js.const x) _).
Qed.

Lemma gateway_defined (env : ConfigPatcher.Env) (g : Js.value) :
  ConfigPatcher.plain g = true ->
  ConfigPatcher.plain (Js.getp_opt g "auth") = true ->
  ConfigPatcher.plain (Js.getp_opt g "controlUi") = true ->
  Js.run (ConfigPatcher.gateway env) (Js.or_else g (Js.VObj [])) <> None.
Proof.
  intros Hg Ha Hc. apply record_defined; [exact Hg | apply name_keys_gateway |].
  unfold ConfigPatcher.gateway, ConfigPatcher.gateway_auth,
    ConfigPatcher.gateway_controlUi.
  destruct (truthy_str _);
    destruct (match ConfigPatcher.OPENCLAW_DEV_MODE env with
              | Some m => _ | None => _ end);
    intros k Hk; cbn in Hk;
    repeat (destruct Hk as [<- | Hk]); try (now elim Hk);
    try (cbn; discriminate);
    try (pose proof (one_field_defined "token"
                       (Js.VStr (ConfigPatcher.env_value
                                   (ConfigPatcher.OPENCLAW_GATEWAY_TOKEN env)))
                       _ Ha eq_refl) as H; exact H);
    try (pose proof (one_field_defined "allowInsecureAuth" (Js.VBool true)
                       _ Hc eq_refl) as H; exact H).
Qed.

Lemma channels_defined (env : ConfigPatcher.Env) (c : Js.value) :
  ConfigPatcher.plain c = true ->
  Js.run (ConfigPatcher.channels env) (Js.or_else c (Js.VObj [])) <> None.
Proof.
  intros Hc. apply record_defined; [exact Hc | apply name_keys_channels |].
  intros k Hk. unfold ConfigPatcher.channels in Hk. rewrite !map_app in Hk.
  apply in_app_or in Hk as [Hk | Hk]; [|apply in_app_or in Hk as [Hk | Hk]].
  - pose proof (keys_telegram env k Hk) as ->. rewrite final_telegram.
    unfold ConfigPatcher.telegram.
    destruct (truthy_str (ConfigPatcher.TELEGRAM_BOT_TOKEN env)); [|discriminate].
    cbv zeta.
    destruct (truthy_str (ConfigPatcher.TELEGRAM_DM_ALLOW_FROM env));
      [|destruct (String.eqb _ "open")]; discriminate.
  - pose proof (keys_discord env k Hk) as ->. rewrite final_discord.
    unfold ConfigPatcher.discord.
    destruct (truthy_str (ConfigPatcher.DISCORD_BOT_TOKEN env)); discriminate.
  - pose proof (keys_slack env k Hk) as ->. rewrite final_slack.
    unfold ConfigPatcher.slack. destruct (_ && _); discriminate.
Qed.

Lemma paths_defined (v : Js.value) :
  ConfigPatcher.plain_array v = true ->
  Js.final "paths" ConfigPatcher.plugin_paths v <> None.
Proof.
  unfold ConfigPatcher.plain_array. intros H.
  cbn [ConfigPatcher.plugin_paths Js.final String.eqb Ascii.eqb Bool.eqb Js.init].
  unfold Js.or_else. destruct (Js.truthy v) eqn:T; cbn [negb orb] in H.
  - destruct v as [ | | | | | items ps | ]; try discriminate.
    destruct ps; [|discriminate].
    cbn [ConfigPatcher.add_extension_path Js.lookup].
    destruct (existsb _ items); discriminate.
  - cbn. discriminate.
Qed.

Lemma plugins_defined (p : Js.value) :
  ConfigPatcher.plain p = true ->
  ConfigPatcher.plain (Js.getp_opt p "entries") = true ->
  ConfigPatcher.plain (Js.getp_opt (Js.getp_opt p "entries") "trace-model") = true ->
  ConfigPatcher.plain (Js.getp_opt p "load") = true ->
  ConfigPatcher.plain_array (Js.getp_opt (Js.getp_opt p "load") "paths") = true ->
  Js.run ConfigPatcher.plugins (Js.or_else p (Js.VObj [])) <> None.
Proof.
  intros Hp He Ht Hl Hpa.
  apply record_defined; [exact Hp | apply name_keys_plugins |].
  assert (Hentries : Js.final "entries" ConfigPatcher.plugins (Js.getp_opt p "entries")
                     <> None).
  { rewrite final_entries_plugins.
    apply record_defined;
      [exact He | unfold ConfigPatcher.plugin_entries; auto with names |].
    intros k Hk. cbn in Hk.
    assert (k = "trace-model") as -> by (destruct Hk as [<- | [<- | []]]; reflexivity).
    pose proof (one_field_defined "enabled" (Js.VBool true) _ Ht eq_refl) as H.
    exact H. }
  assert (Hload : Js.final "load" ConfigPatcher.plugins (Js.getp_opt p "load") <> None).
  { rewrite final_load_plugins.
    apply record_defined;
      [exact Hl | unfold ConfigPatcher.plugin_paths; auto with names |].
    intros k Hk. cbn in Hk.
    assert (k = "paths") as -> by (destruct Hk as [<- | [<- | []]]; reflexivity).
    now apply paths_defined. }
  intros k Hk. unfold ConfigPatcher.plugins in Hk.
  rewrite !map_app in Hk. apply in_app_or in Hk as [Hk | Hk].
  - cbn in Hk. destruct Hk as [<- | [<- | []]]; assumption.
  - apply in_app_or in Hk as [Hk | Hk]; apply under_keys in Hk; subst k; assumption.
Qed.

Lemma override_defined (env : ConfigPatcher.Env) (k : string) (v : Js.value) :
  In k (map fst (ConfigPatcher.gateway_override env)) ->
  ConfigPatcher.plain v = true ->
  (k = "models" -> ConfigPatcher.plain (Js.getp_opt v "providers") = true) ->
  (k = "agents" -> ConfigPatcher.plain (Js.getp_opt v "defaults") = true) ->
  Js.final k (ConfigPatcher.gateway_override env) v <> None.
Proof.
  intros Hk Hv Hp Hd. pose proof (keys_override env k Hk) as Hk'. revert Hk.
  unfold ConfigPatcher.gateway_override.
  destruct (ConfigPatcher.gateway_override_values env) as [[[p e] m]|] eqn:E;
    [|intros []].
  intros _. apply override_values_spec in E as (Hnp & _ & _).
  destruct Hk' as [-> | ->].
  - rewrite final_app.
    cbn [Js.final String.eqb Ascii.eqb Bool.eqb Js.init]. rewrite final_under.
    pose proof (nested_field_defined "providers" p e v Hv (Hp eq_refl) eq_refl Hnp) as H.
    destruct (Js.run _ _); [|now elim H].
    cbn [Js.final String.eqb Ascii.eqb Bool.eqb].
    rewrite final_under_other by discriminate. discriminate.
  - rewrite final_app.
    cbn [Js.final String.eqb Ascii.eqb Bool.eqb]. rewrite final_under_other by discriminate.
    cbn [Js.final String.eqb Ascii.eqb Bool.eqb Js.init]. rewrite final_under.
    exact (nested_field_defined "defaults" "model" m v Hv (Hd eq_refl) eq_refl eq_refl).
Qed.

Lemma patch_defined (env : ConfigPatcher.Env) (config : Js.value) :
  ConfigPatcher.well_shaped config = true ->
  ConfigPatcher.patch env config <> None.
Proof.
  destruct config as [ | | | | | | fs]; try discriminate.
  cbn [ConfigPatcher.well_shaped]. intros H.
  repeat (apply andb_prop in H as [H ?]).
  unfold ConfigPatcher.patch.
  destruct (Js.run (ConfigPatcher.statements env) (Js.VObj fs)) eqn:E; [discriminate|].
  exfalso. revert E.
  apply run_object_defined; [apply name_keys_statements|].
  intros k Hk. apply keys_statements in Hk as [-> | [-> | [-> | Hk]]].
  - rewrite final_gateway_statements. now apply gateway_defined.
  - rewrite final_channels_statements. now apply channels_defined.
  - rewrite final_plugins_statements. now apply plugins_defined.
  - rewrite final_override_statements by (now apply keys_override in Hk).
    pose proof (keys_override env k Hk) as [-> | ->].
    + apply override_defined; try assumption; [now intros _ | discriminate].
    + apply override_defined; try assumption; [discriminate | now intros _].
Qed.




(** *** Channels are replaced, not merged *)

Lemma field_reload_fields (k : string) (fs : Js.fields_t) :
  Js.field k fs <> Js.VUndef ->
  Js.field k (Js.reload_fields fs) = Js.reload (Js.field k fs).
Proof.
  unfold Js.field. induction fs as [|[k' x] fs IH]; [intros H; now elim H|].
  rewrite reload_fields_cons. cbn [Js.lookup].
  destruct (String.eqb k k') eqn:E.
  - intros Hx. destruct x; try (now elim Hx); cbn [Js.lookup]; now rewrite E.
  - intros H. destruct x; try exact (IH H); cbn [Js.lookup]; rewrite E; exact (IH H).
Qed.

Lemma reload_strings (l : list string) :
  Js.reload (ConfigPatcher.strings l) = ConfigPatcher.strings l.
Proof. apply reload_json, is_json_strings. Qed.

(** What a run of the script leaves under [config.channels.<name>],
    given what the statements on [config.channels] make of that key. *)
Lemma patched_channel (env : ConfigPatcher.Env) (fs cfs : Js.fields_t)
    (config' : Js.value) (name : string) (x : Js.value) :
  Js.or_else (Js.field "channels" fs) (Js.VObj []) = Js.VObj cfs ->
  ConfigPatcher.patch env (Js.VObj fs) = Some config' ->
  (forall v, Js.final name (ConfigPatcher.channels env) v = Some x) ->
  x <> Js.VUndef ->
  Js.getp_opt (Js.getp_opt config' "channels") name = Js.reload x.
Proof.
  intros Hc Hp Hx Hne. unfold ConfigPatcher.patch in Hp.
  destruct (Js.run (ConfigPatcher.statements env) (Js.VObj fs)) as [m|] eqn:Hrun;
    [|discriminate].
  injection Hp as <-.
  destruct (run_object _ (name_keys_statements env) _ _ Hrun)
    as (fs' & -> & Hfin & _).
  pose proof (Hfin "channels") as Hch.
  rewrite final_channels_statements, Hc in Hch.
  destruct (run_object _ (name_keys_channels env) _ _ Hch)
    as (cfs1 & Ecfs & Hfin2 & _).
  pose proof (Hfin2 name) as Hn. rewrite Hx in Hn. injection Hn as Hn.
  rewrite reload_fields_eq.
  change (Js.getp_opt (Js.VObj (Js.reload_fields fs')) "channels")
    with (Js.field "channels" (Js.reload_fields fs')).
  rewrite field_reload_fields by (rewrite Ecfs; discriminate).
  rewrite Ecfs, reload_fields_eq.
  change (Js.getp_opt (Js.VObj (Js.reload_fields cfs1)) name)
    with (Js.field name (Js.reload_fields cfs1)).
  rewrite field_reload_fields by (rewrite <- Hn; exact Hne).
  now rewrite <- Hn.
Qed.

(** The three channels after a run that completes. *)
Lemma patched_channels
    (env : ConfigPatcher.Env) (fs cfs : Js.fields_t) (config' : Js.value) :
  Js.or_else (Js.field "channels" fs) (Js.VObj []) = Js.VObj cfs ->
  ConfigPatcher.patch env (Js.VObj fs) = Some config' ->
  (truthy_str (ConfigPatcher.TELEGRAM_BOT_TOKEN env) = true ->
   Js.getp_opt (Js.getp_opt config' "channels") "telegram"
   = Js.VObj
       ([ ("botToken", Js.VStr (ConfigPatcher.env_value
                                  (ConfigPatcher.TELEGRAM_BOT_TOKEN env)));
          ("enabled", Js.VBool true);
          ("dmPolicy",
           Js.VStr (ConfigPatcher.env_or
                      (ConfigPatcher.TELEGRAM_DM_POLICY env) "pairing")) ]
        ++ (if truthy_str (ConfigPatcher.TELEGRAM_DM_ALLOW_FROM env) then
              [ ("allowFrom",
                 ConfigPatcher.strings
                   (Js.split_on ","
                      (ConfigPatcher.env_value
                         (ConfigPatcher.TELEGRAM_DM_ALLOW_FROM env)))) ]
            else if String.eqb
                      (ConfigPatcher.env_or
                         (ConfigPatcher.TELEGRAM_DM_POLICY env) "pairing") "open"
            then [ ("allowFrom", ConfigPatcher.strings ["*"]) ]
            else [])))
  /\ (truthy_str (ConfigPatcher.DISCORD_BOT_TOKEN env) = true ->
      Js.getp_opt (Js.getp_opt config' "channels") "discord"
      = Js.VObj
          [ ("token", Js.VStr (ConfigPatcher.env_value
                                 (ConfigPatcher.DISCORD_BOT_TOKEN env)));
            ("enabled", Js.VBool true);
            ("dm",
             Js.VObj
               ([ ("policy",
                   Js.VStr (ConfigPatcher.env_or
                              (ConfigPatcher.DISCORD_DM_POLICY env) "pairing")) ]
                ++ (if String.eqb
                         (ConfigPatcher.env_or
                            (ConfigPatcher.DISCORD_DM_POLICY env) "pairing") "open"
                    then [ ("allowFrom", ConfigPatcher.strings ["*"]) ]
                    else []))) ])
  /\ (truthy_str (ConfigPatcher.SLACK_BOT_TOKEN env) = true ->
      truthy_str (ConfigPatcher.SLACK_APP_TOKEN env) = true ->
      Js.getp_opt (Js.getp_opt config' "channels") "slack"
      = Js.VObj
          [ ("botToken", Js.VStr (ConfigPatcher.env_value
                                    (ConfigPatcher.SLACK_BOT_TOKEN env)));
            ("appToken", Js.VStr (ConfigPatcher.env_value
                                    (ConfigPatcher.SLACK_APP_TOKEN env)));
            ("enabled", Js.VBool true) ]).
Proof.
  intros Hc Hp. split; [|split].
  - intros Ht.
    destruct (truthy_str (ConfigPatcher.TELEGRAM_DM_ALLOW_FROM env)) eqn:Ea;
      [|destruct (String.eqb _ "open") eqn:Eo];
      (erewrite (patched_channel env fs cfs config' "telegram" _ Hc Hp); cycle 1;
       [ intros v; rewrite final_telegram; unfold ConfigPatcher.telegram;
         rewrite Ht; cbv zeta; rewrite Ea, ?Eo; reflexivity
       | discriminate
       | rewrite ?(obj_set_name "allowFrom") by reflexivity;
         cbn -[ConfigPatcher.strings Js.split_on ConfigPatcher.env_value
               ConfigPatcher.env_or];
         rewrite ?reload_strings; reflexivity ]).
  - intros Ht.
    erewrite (patched_channel env fs cfs config' "discord" _ Hc Hp); cycle 1.
    + intros v. rewrite final_discord. unfold ConfigPatcher.discord.
      rewrite Ht. reflexivity.
    + discriminate.
    + destruct (String.eqb _ "open");
        cbn -[ConfigPatcher.strings ConfigPatcher.env_value ConfigPatcher.env_or];
        rewrite ?reload_strings; reflexivity.
  - intros Hb Ha.
    erewrite (patched_channel env fs cfs config' "slack" _ Hc Hp); cycle 1.
    + intros v. rewrite final_slack. unfold ConfigPatcher.slack.
      rewrite Hb, Ha. reflexivity.
    + discriminate.
    + reflexivity.
Qed.


(** C4. When the document is an object whose [channels] is an object
    (or is missing), a run of the script with the Telegram token set
    leaves under [channels.telegram] exactly [botToken], [enabled],
    [dmPolicy] and, when an allow-list is given or the policy is
    [open], [allowFrom] (the given list, or the wildcard): nothing
    of what the document held there survives. The same holds of
    [channels.discord] (with [dm.allowFrom] the wildcard for an open
    policy) and of [channels.slack] when their tokens are set. The
    script does run through on every document of the expected shape. *)
Theorem channels_replaced_wholesale
    (env : ConfigPatcher.Env) (fs cfs : Js.fields_t) :
  Js.or_else (Js.field "channels" fs) (Js.VObj []) = Js.VObj cfs ->
  (ConfigPatcher.well_shaped (Js.VObj fs) = true ->
   ConfigPatcher.patch env (Js.VObj fs) <> None)
  /\ forall config',
       ConfigPatcher.patch env (Js.VObj fs) = Some config' ->
       (truthy_str (ConfigPatcher.TELEGRAM_BOT_TOKEN env) = true ->
        Js.getp_opt (Js.getp_opt config' "channels") "telegram"
        = Js.VObj
            ([ ("botToken", Js.VStr (ConfigPatcher.env_value
                                       (ConfigPatcher.TELEGRAM_BOT_TOKEN env)));
               ("enabled", Js.VBool true);
               ("dmPolicy",
                Js.VStr (ConfigPatcher.env_or
                           (ConfigPatcher.TELEGRAM_DM_POLICY env) "pairing")) ]
             ++ (if truthy_str (ConfigPatcher.TELEGRAM_DM_ALLOW_FROM env) then
                   [ ("allowFrom",
                      ConfigPatcher.strings
                        (Js.split_on ","
                           (ConfigPatcher.env_value
                              (ConfigPatcher.TELEGRAM_DM_ALLOW_FROM env)))) ]
                 else if String.eqb
                           (ConfigPatcher.env_or
                              (ConfigPatcher.TELEGRAM_DM_POLICY env) "pairing") "open"
                 then [ ("allowFrom", ConfigPatcher.strings ["*"]) ]
                 else [])))
       /\ (truthy_str (ConfigPatcher.DISCORD_BOT_TOKEN env) = true ->
           Js.getp_opt (Js.getp_opt config' "channels") "discord"
           = Js.VObj
               [ ("token", Js.VStr (ConfigPatcher.env_value
                                      (ConfigPatcher.DISCORD_BOT_TOKEN env)));
                 ("enabled", Js.VBool true);
                 ("dm",
                  Js.VObj
                    ([ ("policy",
                        Js.VStr (ConfigPatcher.env_or
                                   (ConfigPatcher.DISCORD_DM_POLICY env) "pairing")) ]
                     ++ (if String.eqb
                              (ConfigPatcher.env_or
                                 (ConfigPatcher.DISCORD_DM_POLICY env) "pairing") "open"
                         then [ ("allowFrom", ConfigPatcher.strings ["*"]) ]
                         else []))) ])
       /\ (truthy_str (ConfigPatcher.SLACK_BOT_TOKEN env) = true ->
           truthy_str (ConfigPatcher.SLACK_APP_TOKEN env) = true ->
           Js.getp_opt (Js.getp_opt config' "channels") "slack"
           = Js.VObj
               [ ("botToken", Js.VStr (ConfigPatcher.env_value
                                         (ConfigPatcher.SLACK_BOT_TOKEN env)));
                 ("appToken", Js.VStr (ConfigPatcher.env_value
                                         (ConfigPatcher.SLACK_APP_TOKEN env)));
                 ("enabled", Js.VBool true) ]).
Proof.
  intros Hc. split; [apply patch_defined|].
  intros config' Hp. exact (patched_channels env fs cfs config' Hc Hp).
Qed.

Lemma stale_config_fields :
  Fixtures.stale_config = Js.VObj Fixtures.stale_fields
  /\ Js.getp_opt (Js.getp_opt Fixtures.stale_config "channels") "telegram"
     = Js.VObj [ ("dm", Js.VObj [("policy", Js.VStr "pairing")]);
                 ("botToken", Js.VStr "old") ].
Proof. split; vm_compute; reflexivity. Qed.

Lemma channels_replaced_wholesale_witness :
  ConfigPatcher.patch Fixtures.env_full (Js.VObj Fixtures.stale_fields) <> None
  /\ Js.getp_opt (Js.getp_opt Fixtures.patched_stale_config "channels") "telegram"
  = Js.VObj [ ("botToken", Js.VStr "telegram-token");
              ("enabled", Js.VBool true);
              ("dmPolicy", Js.VStr "open");
              ("allowFrom", Js.VArr [Js.VStr "*"] []) ]
  /\ Js.getp_opt (Js.getp_opt Fixtures.patched_stale_config "channels") "discord"
     = Js.VObj [ ("token", Js.VStr "discord-token");
                 ("enabled", Js.VBool true);
                 ("dm", Js.VObj [ ("policy", Js.VStr "open");
                                  ("allowFrom", Js.VArr [Js.VStr "*"] []) ]) ]
  /\ Js.getp_opt (Js.getp_opt Fixtures.patched_stale_config "channels") "slack"
     = Js.VObj [ ("botToken", Js.VStr "slack-bot");
                 ("appToken", Js.VStr "slack-app");
                 ("enabled", Js.VBool true) ].
Proof.
  assert (Hp : ConfigPatcher.patch Fixtures.env_full (Js.VObj Fixtures.stale_fields)
               = Some Fixtures.patched_stale_config)
    by (vm_compute; reflexivity).
  assert (Hc : Js.or_else (Js.field "channels" Fixtures.stale_fields) (Js.VObj [])
               = Js.VObj
                   [ ("telegram",
                      Js.VObj [ ("dm", Js.VObj [("policy", Js.VStr "pairing")]);
                                ("botToken", Js.VStr "old") ]);
                     ("slack", Js.VObj [("legacy", Js.VBool true)]) ])
    by (vm_compute; reflexivity).
  destruct (channels_replaced_wholesale Fixtures.env_full
              Fixtures.stale_fields _ Hc) as (Hdef & Hch).
  destruct (Hch Fixtures.patched_stale_config Hp) as (H1 & H2 & H3).
  split; [exact (Hdef eq_refl)|].
  split; [exact (H1 eq_refl) | split; [exact (H2 eq_refl) | exact (H3 eq_refl eq_refl)]].
Defined.

(** *** What the script leaves alone *)

Lemma lookup_reload_fields_notin (k : string) (fs : Js.fields_t) :
  ~ In k (map fst fs) -> Js.lookup k (Js.reload_fields fs) = None.
Proof.
  induction fs as [|[k' x] fs IH]; [reflexivity|].
  cbn [map fst In]. intros H. rewrite reload_fields_cons.
  assert (E : String.eqb k k' = false)
    by (apply String.eqb_neq; intros ->; apply H; now left).
  destruct x; try (apply IH; tauto); cbn [Js.lookup]; rewrite E; apply IH; tauto.
Qed.

Lemma field_reload_fields_NoDup (k : string) (fs : Js.fields_t) :
  NoDup (map fst fs) ->
  Js.field k (Js.reload_fields fs) = Js.reload (Js.field k fs).
Proof.
  unfold Js.field. induction fs as [|[k' x] fs IH]; [reflexivity|].
  cbn [map fst]. intros Hnd. inversion Hnd as [|? ? Hni Hnd']; subst.
  rewrite reload_fields_cons. cbn [Js.lookup].
  destruct (String.eqb k k') eqn:E.
  - apply String.eqb_eq in E as ->.
    destruct x; cbn [Js.lookup]; rewrite ?String.eqb_refl; try reflexivity.
    now rewrite lookup_reload_fields_notin.
  - destruct x; try exact (IH Hnd'); cbn [Js.lookup]; rewrite E; exact (IH Hnd').
Qed.

Lemma is_json_NoDup (fs : Js.fields_t) :
  Js.is_json (Js.VObj fs) = true -> NoDup (map fst fs).
Proof.
  cbn [Js.is_json]. intros H. apply andb_prop in H as [_ H].
  now apply distinct_NoDup.
Qed.

(** What a run of the script leaves under a key of the document. *)
Lemma patched_top (env : ConfigPatcher.Env) (fs : Js.fields_t)
    (config' : Js.value) (k : string) :
  NoDup (map fst fs) ->
  ConfigPatcher.patch env (Js.VObj fs) = Some config' ->
  exists x,
    Js.final k (ConfigPatcher.statements env) (Js.field k fs) = Some x
    /\ Js.getp_opt config' k = Js.reload x.
Proof.
  intros Hnd Hp. unfold ConfigPatcher.patch in Hp.
  destruct (Js.run (ConfigPatcher.statements env) (Js.VObj fs)) as [m|] eqn:Hrun;
    [|discriminate].
  injection Hp as <-.
  destruct (run_object _ (name_keys_statements env) _ _ Hrun)
    as (fs' & -> & Hfin & _ & Hnd' & _).
  exists (Js.field k fs'). split; [apply Hfin|].
  rewrite reload_fields_eq.
  change (Js.getp_opt (Js.VObj (Js.reload_fields fs')) k)
    with (Js.field k (Js.reload_fields fs')).
  apply field_reload_fields_NoDup, Hnd', Hnd.
Qed.





Lemma or_else_json (fs dfs : Js.fields_t) (k : string) :
  Js.is_json (Js.VObj fs) = true ->
  Js.or_else (Js.field k fs) (Js.VObj []) = Js.VObj dfs ->
  Js.is_json (Js.VObj dfs) = true.
Proof.
  intros Hj. unfold Js.or_else.
  destruct (Js.truthy (Js.field k fs)) eqn:Et.
  - intros E. destruct (field_json k fs Hj) as [Hu | Hk].
    + rewrite Hu in Et. discriminate.
    + now rewrite E in Hk.
  - intros [= <-]. reflexivity.
Qed.



(** *** The gateway block after a run *)











(** *** The plugin registration after a run *)

(** What the statements [seq], run on an object, leave under one of its
    keys, as read from the written document. *)
Lemma run_slot (seq : list Js.statement) (fs : Js.fields_t) (m : Js.value)
    (k : string) :
  Js.name_keys seq -> NoDup (map fst fs) ->
  Js.run seq (Js.VObj fs) = Some m ->
  exists x,
    Js.final k seq (Js.field k fs) = Some x
    /\ Js.getp_opt (Js.reload m) k = Js.reload x.
Proof.
  intros Hn Hnd Hrun.
  destruct (run_object _ Hn _ _ Hrun) as (fs' & -> & Hfin & _ & Hnd' & _).
  exists (Js.field k fs'). split; [apply Hfin|].
  rewrite reload_fields_eq.
  change (Js.getp_opt (Js.VObj (Js.reload_fields fs')) k)
    with (Js.field k (Js.reload_fields fs')).
  apply field_reload_fields_NoDup, Hnd', Hnd.
Qed.






(** *** The model override after a run *)

Lemma patched_object (env : ConfigPatcher.Env) (fs : Js.fields_t)
    (config' : Js.value) :
  ConfigPatcher.patch env (Js.VObj fs) = Some config' ->
  exists l, config' = Js.VObj l.
Proof.
  unfold ConfigPatcher.patch.
  destruct (Js.run (ConfigPatcher.statements env) (Js.VObj fs)) as [m|] eqn:Hrun;
    [|discriminate].
  intros [= <-].
  destruct (run_object _ (name_keys_statements env) _ _ Hrun) as (fs' & -> & _).
  rewrite reload_fields_eq. now eexists.
Qed.

(** The override applies as soon as the model, the two gateway ids and
    the API key are set. *)
Lemma override_applies (env : ConfigPatcher.Env) :
  truthy_str (ConfigPatcher.CF_AI_GATEWAY_MODEL env) = true ->
  truthy_str (ConfigPatcher.CF_AI_GATEWAY_ACCOUNT_ID env) = true ->
  truthy_str (ConfigPatcher.CF_AI_GATEWAY_GATEWAY_ID env) = true ->
  truthy_str (ConfigPatcher.CLOUDFLARE_AI_GATEWAY_API_KEY env) = true ->
  exists entry,
    ConfigPatcher.gateway_override_values env
    = Some ("cf-ai-gw-"
              ++ fst (ConfigPatcher.gateway_model_parts
                        (ConfigPatcher.env_value (ConfigPatcher.CF_AI_GATEWAY_MODEL env))),
            entry,
            Js.VObj
              [("primary",
                Js.VStr
                  ("cf-ai-gw-"
                   ++ fst (ConfigPatcher.gateway_model_parts
                             (ConfigPatcher.env_value
                                (ConfigPatcher.CF_AI_GATEWAY_MODEL env)))
                   ++ "/"
                   ++ snd (ConfigPatcher.gateway_model_parts
                             (ConfigPatcher.env_value
                                (ConfigPatcher.CF_AI_GATEWAY_MODEL env)))))]).
Proof.
  intros Hm Ha Hg Hk. unfold ConfigPatcher.gateway_override_values.
  rewrite Hm.
  destruct (ConfigPatcher.gateway_model_parts _) as [gwProvider modelId].
  unfold ConfigPatcher.gateway_base_url. rewrite Ha, Hg, Hk.
  cbn [andb fst snd].
  destruct (String.eqb gwProvider "workers-ai"); cbn [is_empty String.append negb andb];
    eexists; reflexivity.
Qed.

Lemma final_agents_override (env : ConfigPatcher.Env) (p : string)
    (e m v : Js.value) :
  ConfigPatcher.gateway_override_values env = Some (p, e, m) ->
  Js.final "agents" (ConfigPatcher.gateway_override env) v
  = Js.run (("defaults", Js.init (Js.VObj []))
            :: Js.under "defaults" [("model", Js.const m)])
      (Js.or_else v (Js.VObj [])).
Proof.
  intros Ho. unfold ConfigPatcher.gateway_override. rewrite Ho.
  rewrite final_app.
  cbn [Js.final String.eqb Ascii.eqb Bool.eqb].
  rewrite final_under_other by discriminate.
  cbn [Js.final String.eqb Ascii.eqb Bool.eqb Js.init].
  apply final_under.
Qed.

(** X6. When the AI Gateway model, the two gateway ids and the API key
    are set, the default model of the written document is the object
    [{primary: "cf-ai-gw-<provider>/<model>"}] alone (what the document
    held under [agents.defaults.model], fallbacks included, is
    replaced), and this is the primary model that the auth-state
    summary reads from the document. *)
Theorem override_sets_primary_model
    (env : ConfigPatcher.Env) (fs afs dfs : Js.fields_t) (config' : Js.value) :
  Js.is_json (Js.VObj fs) = true ->
  truthy_str (ConfigPatcher.CF_AI_GATEWAY_MODEL env) = true ->
  truthy_str (ConfigPatcher.CF_AI_GATEWAY_ACCOUNT_ID env) = true ->
  truthy_str (ConfigPatcher.CF_AI_GATEWAY_GATEWAY_ID env) = true ->
  truthy_str (ConfigPatcher.CLOUDFLARE_AI_GATEWAY_API_KEY env) = true ->
  Js.or_else (Js.field "agents" fs) (Js.VObj []) = Js.VObj afs ->
  Js.or_else (Js.field "defaults" afs) (Js.VObj []) = Js.VObj dfs ->
  ConfigPatcher.patch env (Js.VObj fs) = Some config' ->
  let parts :=
    ConfigPatcher.gateway_model_parts
      (ConfigPatcher.env_value (ConfigPatcher.CF_AI_GATEWAY_MODEL env)) in
  let primary := "cf-ai-gw-" ++ fst parts ++ "/" ++ snd parts in
  Js.getp_opt (Js.getp_opt (Js.getp_opt config' "agents") "defaults") "model"
  = Js.VObj [("primary", Js.VStr primary)]
  /\ AuthState.getPrimaryModelFromConfig config' = Some primary.
Proof.
  intros Hj Hm Hacc Hgw Hkey Ha Hd Hp parts primary.
  destruct (override_applies env Hm Hacc Hgw Hkey) as (entry & Ho).
  fold parts in Ho. fold primary in Ho.
  pose proof (or_else_json fs afs "agents" Hj Ha) as Hja.
  pose proof (or_else_json afs dfs "defaults" Hja Hd) as Hjd.
  assert (Hmodel :
    Js.getp_opt (Js.getp_opt (Js.getp_opt config' "agents") "defaults") "model"
    = Js.VObj [("primary", Js.VStr primary)]).
  { destruct (patched_top env fs config' "agents" (is_json_NoDup _ Hj) Hp)
      as (x0 & Hx0 & ->).
    rewrite final_override_statements in Hx0 by now right.
    rewrite (final_agents_override env _ _ _ _ Ho), Ha in Hx0.
    assert (Hnk : Js.name_keys
                    (("defaults", Js.init (Js.VObj []))
                     :: Js.under "defaults"
                          [("model",
                            Js.const (Js.VObj [("primary", Js.VStr primary)]))]))
      by auto with names.
    destruct (run_slot _ afs x0 "defaults" Hnk (is_json_NoDup _ Hja) Hx0)
      as (x1 & Hx1 & ->).
    cbn [Js.final String.eqb Ascii.eqb Bool.eqb Js.init] in Hx1.
    rewrite final_under, Hd in Hx1.
    cbn [Js.run] in Hx1. rewrite upd_obj in Hx1 by reflexivity.
    cbn [Js.const] in Hx1. injection Hx1 as <-.
    rewrite reload_fields_eq.
    change (Js.getp_opt (Js.VObj ?l) ?k) with (Js.field k l).
    rewrite field_reload_fields_NoDup
      by (apply keys_assoc_set_NoDup, is_json_NoDup, Hjd).
    now rewrite field_assoc_set_same. }
  split; [exact Hmodel|].
  destruct (patched_object env fs config' Hp) as (l & ->).
  unfold AuthState.getPrimaryModelFromConfig.
  cbn [Js.truthy Js.typeof_object negb orb].
  rewrite Hmodel. reflexivity.
Qed.

Lemma override_sets_primary_model_witness :
  AuthState.getPrimaryModelFromConfig (Samples.patched Fixtures.env_full)
  = Some "cf-ai-gw-workers-ai/@cf/meta/llama-3.3-70b-instruct-fp8-fast".
Proof.
  apply (override_sets_primary_model Fixtures.env_full Samples.restored_fields
           (Samples.restored_part "agents")
           [("model", Js.VStr "anthropic/claude-sonnet-4-5")]
           (Samples.patched Fixtures.env_full));
    vm_compute; reflexivity.
Defined.

(** ** From the migration and the bootstrap to the auth check *)

Lemma toLowerCase_app (a b : string) :
  AuthState.toLowerCase (a ++ b)
  = AuthState.toLowerCase a ++ AuthState.toLowerCase b.
Proof.
  induction a as [|c r IH]; [reflexivity|].
  cbn [append AuthState.toLowerCase]. now rewrite IH.
Qed.

Lemma startsWith_app (a b : string) : AuthState.startsWith (a ++ b) a = true.
Proof. unfold AuthState.startsWith. apply prefix_spec. now exists b. Qed.

Lemma is_empty_lower (s : string) :
  is_empty (AuthState.toLowerCase s) = is_empty s.
Proof. now destruct s. Qed.

Section BootstrapFacts.

Variable number_of : Js.value -> string.
Variable jwt_expires : string -> option string.
Variable Number_toString : string -> string.

(** What the migration writes for an entry it keeps. *)
Lemma migrate_entry_profile (id : string) (cred : Js.value) (pid : string)
    (profile : Js.value) :
  AuthStore.migrate_entry jwt_expires id cred = Some (pid, profile) ->
  exists providerId fs,
    is_empty providerId = false
    /\ pid = providerId ++ ":default"
    /\ profile = Js.VObj fs.
Proof.
  unfold AuthStore.migrate_entry.
  destruct (negb (Js.truthy cred) || negb (Js.typeof_object cred)); [discriminate|].
  cbv zeta.
  destruct (is_empty (trim (Js.to_string (Js.or_else (Js.getp_opt cred "provider") _))))
    eqn:Ep; [discriminate|].
  destruct (is_empty (trim (Js.to_string (Js.or_else (Js.getp_opt cred "apiKey") _))));
    [discriminate|].
  destruct (String.eqb _ "openai-codex"); intros [= <- <-];
    eexists; eexists; (split; [exact Ep | split; reflexivity]).
Qed.

Lemma migrate_entries_objects (es : Js.fields_t) :
  Forall (fun kv => exists fs, snd kv = Js.VObj fs)
    (AuthStore.migrate_entries jwt_expires es).
Proof.
  unfold AuthStore.migrate_entries.
  assert (G : forall acc,
            Forall (fun kv => exists fs, snd kv = Js.VObj fs) acc ->
            Forall (fun kv => exists fs, snd kv = Js.VObj fs)
              (fold_left
                 (fun profiles kv =>
                    match AuthStore.migrate_entry jwt_expires (fst kv) (snd kv) with
                    | Some (profileId, profile) =>
                        Js.obj_set profileId profile profiles
                    | None => profiles
                    end) es acc)).
  { induction es as [|[id cred] es IH]; intros acc Hacc; [exact Hacc|].
    cbn [fold_left fst snd]. apply IH.
    destruct (AuthStore.migrate_entry jwt_expires id cred) as [[pid profile]|] eqn:E;
      [|exact Hacc].
    apply obj_set_Forall; [|exact Hacc].
    destruct (migrate_entry_profile _ _ _ _ E) as (_ & fs & _ & _ & ->).
    now exists fs. }
  apply G. constructor.
Qed.

(** A store of the current shape with a profile object keyed
    [<provider>:...] satisfies the check for that provider. *)
Lemma store_with_profile_id (profiles fs : Js.fields_t) (providerId rest : string)
    (version : Js.value) :
  is_empty providerId = false ->
  In (providerId ++ ":" ++ rest, Js.VObj fs) profiles ->
  AuthCheck.hasProviderInAuthStore Number_toString
    (Js.VObj [("version", version); ("profiles", Js.VObj profiles)]) providerId
  = true.
Proof.
  intros Hne Hin. unfold AuthCheck.hasProviderInAuthStore.
  rewrite Hne. cbn [Js.truthy negb orb Js.getp_opt Js.getp Js.lookup
                    String.eqb Ascii.eqb Bool.eqb Js.typeof_object andb
                    AuthCheck.entries_of Js.entries].
  apply existsb_exists. eexists. split; [exact Hin|].
  cbn [AuthCheck.entry_matches Js.truthy Js.typeof_object negb orb].
  rewrite toLowerCase_app, toLowerCase_app.
  change (AuthState.toLowerCase ":") with ":".
  rewrite <- append_assoc, startsWith_app. apply orb_true_r.
Qed.

(** X18. A provider migrated from a legacy store is found by the boot
    check: for every entry that the migration keeps, the file it writes
    satisfies [hasProviderInAuthStore] for the provider of the entry
    (the text before [:default] in the id of its profile). *)
Theorem migrated_provider_found_by_check
    (raw m : Js.value) (id : string) (cred : Js.value) (pid : string)
    (profile : Js.value) :
  AuthStore.migrateLegacyIntoStore jwt_expires raw = Some m ->
  In (id, cred) (Js.entries raw) ->
  AuthStore.migrate_entry jwt_expires id cred = Some (pid, profile) ->
  exists providerId,
    pid = providerId ++ ":default"
    /\ AuthCheck.hasProviderInAuthStore Number_toString
         (snd (AuthStore.load_and_migrate number_of jwt_expires raw)) providerId
       = true.
Proof.
  intros Hm Hin He.
  destruct (migrate_entry_profile _ _ _ _ He) as (providerId & _ & Hne & -> & _).
  exists providerId. split; [reflexivity|].
  destruct (load_and_migrate_migrated number_of jwt_expires raw m Hm)
    as (profiles & _ & Em & ->).
  cbn [snd].
  assert (Hp : profiles = AuthStore.migrate_entries jwt_expires (Js.entries raw)).
  { revert Hm. unfold AuthStore.migrateLegacyIntoStore.
    destruct (negb (Js.truthy raw) || _ || _); [discriminate|].
    destruct (AuthStore.migrate_entries jwt_expires (Js.entries raw));
      [discriminate|].
    rewrite Em. now intros [= ->]. }
  pose proof (migrate_entries_keeps number_of jwt_expires _ _ _ _ _ Hin He) as Hk.
  rewrite <- Hp in Hk. apply in_map_iff in Hk as ([k x] & Ek & Hkx).
  cbn [fst] in Ek. subst k.
  pose proof (migrate_entries_objects (Js.entries raw)) as Ho.
  rewrite <- Hp in Ho. rewrite Forall_forall in Ho.
  destruct (Ho _ Hkx) as (fs & Efs). cbn [snd] in Efs. subst x.
  apply (store_with_profile_id profiles fs providerId "default"); assumption.
Qed.

(** *** Entries of one provider *)

Lemma migrate_entries_snoc (es : Js.fields_t) (id : string) (cred : Js.value) :
  AuthStore.migrate_entries jwt_expires (app es [(id, cred)])
  = match AuthStore.migrate_entry jwt_expires id cred with
    | Some (pid, profile) =>
        Js.obj_set pid profile (AuthStore.migrate_entries jwt_expires es)
    | None => AuthStore.migrate_entries jwt_expires es
    end.
Proof.
  unfold AuthStore.migrate_entries. rewrite fold_left_app. reflexivity.
Qed.

Lemma migrate_entries_keys (es : Js.fields_t) :
  NoDup (map fst (AuthStore.migrate_entries jwt_expires es))
  /\ Forall (fun kv => exists providerId, fst kv = providerId ++ ":default")
       (AuthStore.migrate_entries jwt_expires es).
Proof.
  induction es as [|[id cred] es IH] using rev_ind.
  - split; constructor.
  - rewrite migrate_entries_snoc.
    destruct (AuthStore.migrate_entry jwt_expires id cred) as [[pid profile]|] eqn:E;
      [|exact IH].
    destruct IH as [Hnd Hk]. split.
    + rewrite (obj_set_name pid) by (now apply (migrate_entry_key jwt_expires id cred pid profile)).
      now apply keys_assoc_set_NoDup.
    + apply obj_set_Forall; [|exact Hk].
      destruct (migrate_entry_profile _ _ _ _ E) as (providerId & pfs & _ & -> & _).
      now exists providerId.
Qed.

(** X25. The migration keeps one profile per provider: the ids of the
    profiles it writes are all of the form [<provider>:default], none
    repeated, so that the entries of a legacy store that name the same
    provider collapse into a single profile, which holds the credential
    of the last of them. *)
Theorem migration_last_entry_wins
    (es : Js.fields_t) (id : string) (cred : Js.value) (pid : string)
    (profile : Js.value) :
  AuthStore.migrate_entry jwt_expires id cred = Some (pid, profile) ->
  let profiles := AuthStore.migrate_entries jwt_expires (app es [(id, cred)]) in
  Js.field pid profiles = profile
  /\ NoDup (map fst profiles)
  /\ Forall (fun kv => exists providerId, fst kv = providerId ++ ":default")
       profiles.
Proof.
  intros He profiles. subst profiles. split.
  - rewrite migrate_entries_snoc, He.
    rewrite (obj_set_name pid)
      by (now apply (migrate_entry_key jwt_expires id cred pid profile)).
    apply field_assoc_set_same.
  - apply migrate_entries_keys.
Qed.

(** *** The bootstrap of the openai-codex profile *)

Variable is_past : string -> bool.
Variable now_reached : string -> bool.

Lemma load_and_migrate_fixed (raw : Js.value) :
  AuthStore.load_and_migrate number_of jwt_expires
    (snd (AuthStore.load_and_migrate number_of jwt_expires raw))
  = AuthStore.load_and_migrate number_of jwt_expires raw.
Proof.
  destruct (AuthStore.migrateLegacyIntoStore jwt_expires raw) as [m|] eqn:E.
  - destruct (load_and_migrate_migrated number_of jwt_expires raw m E)
      as (profiles & Hne & -> & ->).
    reflexivity.
  - unfold AuthStore.load_and_migrate. rewrite E. cbn [snd]. now rewrite E.
Qed.

(** The profiles of the store held in memory are an object or an
    array. *)
Lemma ensureStoreShape_profiles (raw : Js.value) :
  (exists pfs,
     Js.getp_opt (AuthStore.ensureStoreShape number_of raw) "profiles" = Js.VObj pfs)
  \/ (exists items ps,
        Js.getp_opt (AuthStore.ensureStoreShape number_of raw) "profiles"
        = Js.VArr items ps).
Proof.
  unfold AuthStore.ensureStoreShape.
  destruct (Js.truthy raw && Js.typeof_object raw) eqn:E1; cbn [andb].
  2:{ left. now exists []. }
  destruct (Js.getp_opt raw "profiles") as [ | | b | l | s | items ps | pfs] eqn:Ep;
    cbn [Js.truthy Js.typeof_object andb]; rewrite ?andb_false_r;
    first [ right; eexists; eexists; reflexivity | left; eexists; reflexivity ].
Qed.

Lemma load_and_migrate_store (raw : Js.value) :
  exists raw',
    fst (AuthStore.load_and_migrate number_of jwt_expires raw)
    = AuthStore.ensureStoreShape number_of raw'.
Proof.
  unfold AuthStore.load_and_migrate.
  destruct (AuthStore.migrateLegacyIntoStore jwt_expires raw) as [m|];
    eexists; reflexivity.
Qed.

Lemma token_profile_json (envToken : string) :
  Js.is_json (CodexBootstrap.token_profile jwt_expires envToken) = true.
Proof.
  unfold CodexBootstrap.token_profile. now destruct (jwt_expires envToken).
Qed.

Lemma in_assoc_set (k : string) (v : Js.value) (fs : Js.fields_t) :
  In (k, v) (Js.assoc_set k v fs).
Proof.
  induction fs as [|[k' v'] fs IH]; cbn [Js.assoc_set]; [now left|].
  destruct (String.eqb k k'); [now left | now right].
Qed.

Lemma in_reload_fields (k : string) (v : Js.value) (fs : Js.fields_t) :
  In (k, v) fs -> v <> Js.VUndef -> In (k, Js.reload v) (Js.reload_fields fs).
Proof.
  intros Hin Hv. induction fs as [|[k' v'] fs IH]; [now elim Hin|].
  rewrite reload_fields_cons. destruct Hin as [[= -> ->] | Hin].
  - destruct v; try (now left). now elim Hv.
  - destruct v'; try (right; now apply IH). now apply IH.
Qed.

(** What a write of the bootstrap amounts to, on a store whose profiles
    are an object. *)
Lemma bootstrap_object_store
    (store : Js.value) (pfs : Js.fields_t) (envToken : string) (written : Js.value) :
  Js.getp_opt store "profiles" = Js.VObj pfs ->
  CodexBootstrap.bootstrap jwt_expires Number_toString is_past now_reached
    store envToken = Some written ->
  AuthStore.isJwt envToken = true
  /\ match jwt_expires envToken with
     | Some e => now_reached e
     | None => false
     end = false
  /\ CodexBootstrap.hasValid Number_toString is_past store = false
  /\ Js.reload written
     = Js.VObj
         [ ("version", Js.VNum "1");
           ("profiles",
            Js.VObj
              (Js.reload_fields
                 (Js.assoc_set CodexBootstrap.PROFILE_ID
                    (CodexBootstrap.token_profile jwt_expires envToken) pfs))) ]
  /\ Js.getp_opt (Js.getp_opt (Js.reload written) "profiles")
       CodexBootstrap.PROFILE_ID
     = CodexBootstrap.token_profile jwt_expires envToken
  /\ AuthCheck.hasProviderInAuthStore Number_toString (Js.reload written)
       CodexBootstrap.provider = true.
Proof.
  intros Hp. unfold CodexBootstrap.bootstrap.
  destruct (CodexBootstrap.hasValid Number_toString is_past store); [discriminate|].
  destruct (is_empty envToken); [discriminate|]. cbn [orb].
  destruct (AuthStore.isJwt envToken); [|discriminate]. cbn [negb].
  destruct (match jwt_expires envToken with Some e => now_reached e | None => false end)
    eqn:Enow; [discriminate|].
  rewrite Hp. cbn [Js.setp]. rewrite (obj_set_name CodexBootstrap.PROFILE_ID)
    by reflexivity.
  intros [= <-].
  assert (Hr : Js.reload
                 (Js.VObj
                    [ ("version", Js.VNum "1");
                      ("profiles",
                       Js.VObj (Js.assoc_set CodexBootstrap.PROFILE_ID
                                  (CodexBootstrap.token_profile jwt_expires envToken)
                                  pfs)) ])
               = Js.VObj
                   [ ("version", Js.VNum "1");
                     ("profiles",
                      Js.VObj
                        (Js.reload_fields
                           (Js.assoc_set CodexBootstrap.PROFILE_ID
                              (CodexBootstrap.token_profile jwt_expires envToken)
                              pfs))) ]).
  { rewrite reload_fields_eq, !reload_fields_cons, reload_fields_eq. reflexivity. }
  rewrite Hr. repeat split.
  - change (Js.getp_opt (Js.VObj ?l) ?k) with (Js.field k l).
    cbn [Js.field Js.lookup String.eqb Ascii.eqb Bool.eqb].
    change (Js.getp_opt (Js.VObj ?l) ?k) with (Js.field k l).
    rewrite field_reload_fields
      by (rewrite field_assoc_set_same; unfold CodexBootstrap.token_profile;
          discriminate).
    rewrite field_assoc_set_same. apply reload_json, token_profile_json.
  - pose proof (in_reload_fields _ _ _
                  (in_assoc_set CodexBootstrap.PROFILE_ID
                     (CodexBootstrap.token_profile jwt_expires envToken) pfs)) as Hin.
    rewrite (reload_json _ (token_profile_json envToken)) in Hin.
    assert (Hne : CodexBootstrap.token_profile jwt_expires envToken <> Js.VUndef)
      by (unfold CodexBootstrap.token_profile; discriminate).
    specialize (Hin Hne).
    apply (store_with_profile_id _
             (app [ ("type", Js.VStr "token");
                    ("provider", Js.VStr CodexBootstrap.provider);
                    ("token", Js.VStr envToken) ]
                match jwt_expires envToken with
                | Some e => [("expires", Js.VNum e)]
                | None => []
                end)
             "openai-codex" "default" _ eq_refl).
    exact Hin.
Qed.



(** A store that holds the token profile, not expired, has a valid
    profile. *)
Lemma hasValid_token_profile (store : Js.value) (rf : Js.fields_t)
    (envToken : string) :
  Js.getp_opt store "profiles" = Js.VObj rf ->
  In CodexBootstrap.PROFILE_ID (map fst rf) ->
  Js.field CodexBootstrap.PROFILE_ID rf
  = CodexBootstrap.token_profile jwt_expires envToken ->
  (forall e, jwt_expires envToken = Some e -> is_past e = false) ->
  CodexBootstrap.hasValid Number_toString is_past store = true.
Proof.
  intros Hp Hin Hf Hexp. unfold CodexBootstrap.hasValid.
  apply existsb_exists. exists CodexBootstrap.PROFILE_ID. split.
  - unfold CodexBootstrap.findProfileIds. rewrite Hp.
    cbn [Js.or_else Js.truthy Js.entries].
    apply filter_In. split; [exact Hin | reflexivity].
  - unfold CodexBootstrap.valid_profile. rewrite Hp.
    change (Js.getp_opt (Js.VObj rf) CodexBootstrap.PROFILE_ID)
      with (Js.field CodexBootstrap.PROFILE_ID rf).
    rewrite Hf. unfold CodexBootstrap.token_profile, CodexBootstrap.isExpired.
    destruct (jwt_expires envToken) as [e|] eqn:Ee; [|reflexivity].
    cbn. now rewrite (Hexp e eq_refl).
Qed.

Lemma reload_items_idempotent (items : list Js.value) (ps ps' : Js.fields_t) :
  Js.reload (Js.VArr
               (map (fun x => match x with
                              | Js.VUndef => Js.VNull
                              | _ => Js.reload x
                              end) items) ps')
  = Js.reload (Js.VArr items ps).
Proof.
  pose proof (reload_idempotent (Js.VArr items ps)) as H.
  cbn [Js.reload] in *. exact H.
Qed.

(** X20. The bootstrap script is idempotent: run again on the file it
    left, with the same token and at the same instant, it leaves the
    file as it is; whether the first run migrated a legacy store, wrote
    the token profile, or did nothing. *)
Theorem bootstrap_script_idempotent (raw : Js.value) (key : option string) :
  (forall l, is_past l = true -> now_reached l = true) ->
  CodexBootstrap.script number_of jwt_expires Number_toString is_past now_reached
    (CodexBootstrap.script number_of jwt_expires Number_toString is_past
       now_reached raw key) key
  = CodexBootstrap.script number_of jwt_expires Number_toString is_past
      now_reached raw key.
Proof.
  intros Hlink. unfold CodexBootstrap.script at 2 3.
  set (tok := trim (match key with Some s => s | None => "" end)).
  pose proof (load_and_migrate_fixed raw) as Hfix.
  destruct (load_and_migrate_store raw) as (raw' & Hstore).
  destruct (AuthStore.load_and_migrate number_of jwt_expires raw)
    as [store file] eqn:E.
  cbn [fst snd] in Hfix, Hstore.
  destruct (CodexBootstrap.bootstrap jwt_expires Number_toString is_past
              now_reached store tok) as [written|] eqn:B.
  2:{ unfold CodexBootstrap.script. fold tok. rewrite Hfix, B. reflexivity. }
  destruct (ensureStoreShape_profiles raw') as [(pfs & Hp) | (items & ps & Hp)];
    rewrite <- Hstore in Hp.
  - (* the profiles are an object *)
    destruct (bootstrap_object_store store pfs tok written Hp B)
      as (Hjwt & Hnow & _ & Hr & Hget & _).
    rewrite Hr. unfold CodexBootstrap.script. fold tok.
    unfold AuthStore.load_and_migrate.
    cbn [AuthStore.migrateLegacyIntoStore Js.truthy Js.typeof_object negb orb
         Js.getp_opt Js.getp Js.lookup String.eqb Ascii.eqb Bool.eqb].
    assert (Hv : CodexBootstrap.hasValid Number_toString is_past
                   (AuthStore.ensureStoreShape number_of
                      (Js.VObj
                         [ ("version", Js.VNum "1");
                           ("profiles",
                            Js.VObj
                              (Js.reload_fields
                                 (Js.assoc_set CodexBootstrap.PROFILE_ID
                                    (CodexBootstrap.token_profile jwt_expires tok)
                                    pfs))) ])) = true).
    { apply (hasValid_token_profile _
               (Js.reload_fields
                  (Js.assoc_set CodexBootstrap.PROFILE_ID
                     (CodexBootstrap.token_profile jwt_expires tok) pfs)) tok).
      - reflexivity.
      - apply in_map_iff.
        exists (CodexBootstrap.PROFILE_ID,
                Js.reload (CodexBootstrap.token_profile jwt_expires tok)).
        split; [reflexivity|].
        apply in_reload_fields; [apply in_assoc_set|].
        unfold CodexBootstrap.token_profile. discriminate.
      - rewrite Hr in Hget. exact Hget.
      - intros e He. rewrite He in Hnow.
        destruct (is_past e) eqn:Ep; [|reflexivity].
        rewrite (Hlink e Ep) in Hnow. discriminate. }
    unfold CodexBootstrap.bootstrap. rewrite Hv. reflexivity.
  - (* the profiles are an array *)
    revert B. unfold CodexBootstrap.bootstrap at 1.
    destruct (CodexBootstrap.hasValid Number_toString is_past store || is_empty tok)
      eqn:E1; [discriminate|].
    destruct (negb (AuthStore.isJwt tok)) eqn:E2; [discriminate|].
    destruct (match jwt_expires tok with Some e => now_reached e | None => false end)
      eqn:E3; [discriminate|].
    rewrite Hp. cbn [Js.setp]. intros [= <-].
    set (file1 := Js.reload _).
    assert (Hfile1 : file1
              = Js.VObj [ ("version", Js.VNum "1");
                          ("profiles", Js.reload (Js.VArr items ps)) ]).
    { subst file1. rewrite reload_fields_eq, !reload_fields_cons. reflexivity. }
    rewrite Hfile1. unfold CodexBootstrap.script. fold tok.
    unfold AuthStore.load_and_migrate.
    cbn [Js.reload AuthStore.migrateLegacyIntoStore Js.truthy Js.typeof_object
         negb orb Js.getp_opt Js.getp Js.lookup String.eqb Ascii.eqb Bool.eqb].
    unfold CodexBootstrap.bootstrap.
    apply orb_false_elim in E1 as [_ E1].
    destruct (CodexBootstrap.hasValid Number_toString is_past _); [reflexivity|].
    rewrite E1, E2, E3. cbn [orb].
    cbn [AuthStore.ensureStoreShape Js.truthy Js.typeof_object andb
         Js.getp_opt Js.getp Js.lookup String.eqb Ascii.eqb Bool.eqb Js.setp].
    rewrite reload_fields_eq, !reload_fields_cons.
    rewrite (reload_items_idempotent items ps). reflexivity.
Qed.

End BootstrapFacts.

Lemma migrated_provider_found_by_check_witness :
  exists providerId,
    "openai-codex:default" = providerId ++ ":default"
    /\ AuthCheck.hasProviderInAuthStore Samples.literal
         (snd (AuthStore.load_and_migrate Samples.not_a_number Samples.sample_expiry
                 Samples.legacy_store)) providerId
       = true.
Proof.
  apply (migrated_provider_found_by_check Samples.not_a_number
           Samples.sample_expiry Samples.literal Samples.legacy_store
           (Js.VObj
              [ ("version", Js.VNum "1");
                ("profiles",
                 Js.VObj
                   [("openai-codex:default",
                     Js.VObj [ ("type", Js.VStr "token");
                               ("provider", Js.VStr "openai-codex");
                               ("token", Js.VStr "aaa.bbb.ccc");
                               ("expires", Js.VNum "1900000000000") ])]) ])
           "codex"
           (Js.VObj [ ("provider", Js.VStr "openai-codex");
                      ("apiKey", Js.VStr Samples.sample_jwt) ])
           "openai-codex:default"
           (Js.VObj [ ("type", Js.VStr "token");
                      ("provider", Js.VStr "openai-codex");
                      ("token", Js.VStr "aaa.bbb.ccc");
                      ("expires", Js.VNum "1900000000000") ])).
  - vm_compute. reflexivity.
  - left. reflexivity.
  - vm_compute. reflexivity.
Defined.


Lemma bootstrap_script_idempotent_witness :
  Samples.codex_script
    (Samples.codex_script Samples.legacy_store (Some "aaa.bbb.ccc"))
    (Some "aaa.bbb.ccc")
  = Samples.codex_script Samples.legacy_store (Some "aaa.bbb.ccc")
  /\ Samples.codex_script (Samples.codex_script Js.VNull (Some "aaa.bbb.ccc"))
       (Some "aaa.bbb.ccc")
     = Samples.codex_script Js.VNull (Some "aaa.bbb.ccc").
Proof.
  split;
    apply (bootstrap_script_idempotent Samples.not_a_number Samples.sample_expiry
             Samples.literal Samples.past Samples.past);
    intros l H; exact H.
Defined.

Lemma migration_last_entry_wins_witness :
  Js.field "openai-codex:default"
    (AuthStore.migrate_entries Samples.sample_expiry
       (app [("old", Js.VObj [ ("provider", Js.VStr "openai-codex");
                               ("apiKey", Js.VStr "first") ])]
            [("new", Js.VObj [ ("provider", Js.VStr "openai-codex");
                               ("apiKey", Js.VStr "second") ])]))
  = Js.VObj [ ("type", Js.VStr "token");
              ("provider", Js.VStr "openai-codex");
              ("token", Js.VStr "second") ].
Proof.
  apply (migration_last_entry_wins Samples.sample_expiry
           [("old", Js.VObj [ ("provider", Js.VStr "openai-codex");
                              ("apiKey", Js.VStr "first") ])]
           "new"
           (Js.VObj [ ("provider", Js.VStr "openai-codex");
                      ("apiKey", Js.VStr "second") ])
           "openai-codex:default").
  vm_compute. reflexivity.
Defined.

(** ** Auth reconciliation *)

Section ReconcileFacts.

Variable number_of : Js.value -> string.
Variable jwt_expires : string -> option string.
Variable Number_toString : string -> string.
Variable is_past : string -> bool.
Variable now_reached : string -> bool.

(** The exit code of the check depends on the parsed files only. *)
Lemma check_mismatch_parsed (env : AuthCheck.Env) (configFile authFile : option string) :
  AuthCheck.mismatch (AuthCheck.check Number_toString env configFile authFile)
  = Reconcile.mismatch_parsed Number_toString env
      (AuthCheck.readJson configFile) (AuthCheck.readJson authFile).
Proof.
  unfold AuthCheck.check, Reconcile.mismatch_parsed. cbv zeta.
  assert (E : snd (match authFile with
                   | Some text =>
                       match Json.parse text with
                       | Some v => (text, v)
                       | None => (EmptyString, Js.VNull)
                       end
                   | None => (EmptyString, Js.VNull)
                   end) = AuthCheck.readJson authFile).
  { unfold AuthCheck.readJson. destruct authFile as [t|]; [|reflexivity].
    now destruct (Json.parse t). }
  destruct (match authFile with Some _ => _ | None => _ end) as [authRaw authObj].
  cbn [snd] in E. subst authObj. cbn [AuthCheck.mismatch].
  now destruct (AuthCheck.providerFromModel _).
Qed.

(** X23. The degraded marker can be stale. When the first check
    reports a mismatch, rclone is not available and there is no
    [oauth.json], the marker is written whatever the bootstrap does in
    between, since no check is run after it: so it is when the
    bootstrap has just written the openai-codex profile that the
    primary model asks for, and the check, run again on the store left
    at the end, would pass. *)
Theorem degraded_marker_despite_bootstrap
    (i : Reconcile.Inputs) (pfs : Js.fields_t) (written : Js.value) :
  let config := AuthCheck.readJson (Reconcile.configFile i) in
  let key := AuthCheck.OPENAI_API_KEY (Reconcile.env i) in
  let envToken := trim (match key with Some s => s | None => "" end) in
  let store :=
    fst (AuthStore.load_and_migrate number_of jwt_expires (Reconcile.auth i)) in
  Reconcile.mismatch_parsed Number_toString (Reconcile.env i) config
    (Reconcile.auth i) = true ->
  Reconcile.RCLONE_AVAILABLE i = false ->
  Reconcile.OAUTH_STORE_present i = false ->
  AuthCheck.providerFromModel (AuthCheck.getPrimaryModel config)
  = Some "openai-codex" ->
  truthy_str key = true ->
  CodexBootstrap.needs_codex (Reconcile.configFile i) = true ->
  Js.getp_opt store "profiles" = Js.VObj pfs ->
  CodexBootstrap.bootstrap jwt_expires Number_toString is_past now_reached
    store envToken = Some written ->
  Reconcile.reconcile number_of jwt_expires Number_toString is_past now_reached i
  = Some (Reconcile.Degraded "openai-codex", Js.reload written)
  /\ Reconcile.mismatch_parsed Number_toString (Reconcile.env i) config
       (Js.reload written) = false.
Proof.
  cbv zeta. intros Hm Hr Ho Hprov Hkey Hneeds Hp Hb.
  destruct (bootstrap_object_store jwt_expires Number_toString is_past now_reached
              _ pfs _ written Hp Hb) as (_ & _ & _ & _ & _ & Hfound).
  split.
  - unfold Reconcile.reconcile. cbv zeta.
    rewrite Hm, Hr, Ho. cbn [andb].
    unfold Reconcile.provider_text. rewrite Hprov.
    unfold CodexBootstrap.boot_step, CodexBootstrap.script.
    rewrite Hkey, Hneeds. cbn [andb].
    destruct (AuthStore.load_and_migrate number_of jwt_expires (Reconcile.auth i))
      as [store file].
    cbn [fst] in Hb. now rewrite Hb.
  - unfold Reconcile.mismatch_parsed. rewrite Hprov.
    unfold CodexBootstrap.provider in Hfound. rewrite Hfound.
    now rewrite orb_true_r.
Qed.

End ReconcileFacts.

Lemma degraded_marker_despite_bootstrap_witness :
  exists store,
    Reconcile.reconcile Samples.not_a_number Samples.sample_expiry Samples.literal
      Samples.past Samples.past Samples.codex_boot
    = Some (Reconcile.Degraded "openai-codex", store)
    /\ Reconcile.mismatch_parsed Samples.literal
         (Reconcile.env Samples.codex_boot)
         (AuthCheck.readJson (Reconcile.configFile Samples.codex_boot)) store
       = false.
Proof.
  eexists.
  apply (degraded_marker_despite_bootstrap Samples.not_a_number
           Samples.sample_expiry Samples.literal Samples.past Samples.past
           Samples.codex_boot []
           (Js.VObj
              [ ("version", Js.VNum "1");
                ("profiles",
                 Js.VObj
                   [("openai-codex:default",
                     CodexBootstrap.token_profile Samples.sample_expiry
                       Samples.sample_jwt)]) ]));
    vm_compute; reflexivity.
Defined.

(** ** The trace-model extension *)


Lemma assoc_set_twice (k : string) (v v' : Js.value) (fs : Js.fields_t) :
  Js.assoc_set k v (Js.assoc_set k v' fs) = Js.assoc_set k v fs.
Proof.
  induction fs as [|[k0 v0] fs IH]; cbn [Js.assoc_set].
  - now rewrite String.eqb_refl.
  - destruct (String.eqb k k0) eqn:E; cbn [Js.assoc_set].
    + now rewrite String.eqb_refl.
    + now rewrite E, IH.
Qed.

Lemma is_json_assoc_set (k : string) (v : Js.value) (fs : Js.fields_t) :
  Js.is_json (Js.VObj fs) = true -> Js.is_json v = true ->
  Js.is_json (Js.VObj (Js.assoc_set k v fs)) = true.
Proof.
  intros Hj Hv. pose proof (is_json_NoDup _ Hj) as Hnd.
  cbn [Js.is_json] in *. apply andb_prop in Hj as [Hf _].
  apply andb_true_intro. split.
  - apply forallb_forall. intros [k' x] Hin.
    assert (HF : Forall (fun kv => Js.is_json (snd kv) = true)
                   (Js.assoc_set k v fs)).
    { apply assoc_set_Forall; [exact Hv|].
      apply Forall_forall. intros [k0 x0] H0.
      rewrite forallb_forall in Hf. exact (Hf _ H0). }
    rewrite Forall_forall in HF. exact (HF _ Hin).
  - apply distinct_NoDup, keys_assoc_set_NoDup, Hnd.
Qed.




Section TraceFacts.

Variable Number_toString : string -> string.
Variable Number_toJSON : string -> string.

(** [setTelegramPrefix] on a config whose [channels] and
    [channels.telegram] are objects, or missing. *)
Lemma setTelegramPrefix_shaped (fs cfs tfs : Js.fields_t) (x : Js.value) :
  Js.or_else (Js.field "channels" fs) (Js.VObj []) = Js.VObj cfs ->
  Js.or_else (Js.field "telegram" cfs) (Js.VObj []) = Js.VObj tfs ->
  TraceModel.setTelegramPrefix (Js.VObj fs) x
  = Some (Js.VObj
            (Js.assoc_set "channels"
               (Js.VObj
                  (Js.assoc_set "telegram"
                     (Js.VObj (Js.assoc_set "responsePrefix" x tfs)) cfs)) fs)).
Proof.
  intros Hc Ht. unfold TraceModel.setTelegramPrefix, TraceModel.assign_under.
  cbn [Js.getp]. fold (Js.field "channels" fs). rewrite Hc.
  cbn [Js.getp]. fold (Js.field "telegram" cfs). rewrite Ht.
  reflexivity.
Qed.

Lemma getTelegramPrefix_set (fs cfs tfs : Js.fields_t) (x : Js.value) :
  TraceModel.getTelegramPrefix Number_toString
    (Js.VObj
       (Js.assoc_set "channels"
          (Js.VObj
             (Js.assoc_set "telegram"
                (Js.VObj (Js.assoc_set "responsePrefix" x tfs)) cfs)) fs))
  = TraceModel.to_text Number_toString (Js.or_else x (Js.VStr "")).
Proof.
  unfold TraceModel.getTelegramPrefix.
  change (Js.getp_opt (Js.VObj ?l) ?k) with (Js.field k l).
  rewrite field_assoc_set_same.
  change (Js.getp_opt (Js.VObj ?l) ?k) with (Js.field k l).
  rewrite field_assoc_set_same.
  change (Js.getp_opt (Js.VObj ?l) ?k) with (Js.field k l).
  now rewrite field_assoc_set_same.
Qed.



(** X11. Turning tracing on twice is the same as turning it on once:
    the second command leaves both files as the first left them, and the
    prefix remembered in the state file is the one found by the first
    command (or the one remembered before it), not the tracing prefix. *)
Theorem trace_on_remembers_once
    (files : TraceModel.Files) (fs cfs tfs sfs : Js.fields_t)
    (first again : option TraceModel.Args) :
  TraceModel.config_file files = inr (Js.VObj fs) ->
  Js.is_json (Js.VObj fs) = true ->
  Js.or_else (Js.field "channels" fs) (Js.VObj []) = Js.VObj cfs ->
  Js.or_else (Js.field "telegram" cfs) (Js.VObj []) = Js.VObj tfs ->
  TraceModel.loadState files = Js.VObj sfs ->
  TraceModel.normalizeArg (TraceModel.firstWord first) = TraceModel.On ->
  TraceModel.normalizeArg (TraceModel.firstWord again) = TraceModel.On ->
  exists files1,
    TraceModel.handler Number_toString Number_toJSON files first
    = TraceModel.Reply TraceModel.on_text files1
    /\ TraceModel.handler Number_toString Number_toJSON files1 again
       = TraceModel.Reply TraceModel.on_text files1
    /\ Js.getp_opt (TraceModel.loadState files1) "previousTelegramPrefix"
       = match Js.field "previousTelegramPrefix" sfs with
         | Js.VUndef =>
             Js.VStr (TraceModel.getTelegramPrefix Number_toString (Js.VObj fs))
         | x => x
         end.
Proof.
  intros Hcfg Hj Hc Ht Hst Hon Hon2.
  pose proof (or_else_json fs cfs "channels" Hj Hc) as Hjc.
  pose proof (or_else_json cfs tfs "telegram" Hjc Ht) as Hjt.
  set (tfs1 := Js.assoc_set "responsePrefix" (Js.VStr TraceModel.TRACE_PREFIX) tfs).
  set (cfs1 := Js.assoc_set "telegram" (Js.VObj tfs1) cfs).
  set (fs1 := Js.assoc_set "channels" (Js.VObj cfs1) fs).
  assert (Hj1 : Js.is_json (Js.VObj fs1) = true).
  { repeat apply is_json_assoc_set; auto. }
  assert (Hc1 : Js.or_else (Js.field "channels" fs1) (Js.VObj []) = Js.VObj cfs1)
    by (unfold fs1; now rewrite field_assoc_set_same).
  assert (Ht1 : Js.or_else (Js.field "telegram" cfs1) (Js.VObj []) = Js.VObj tfs1)
    by (unfold cfs1; now rewrite field_assoc_set_same).
  assert (Hset1 : TraceModel.setTelegramPrefix (Js.VObj fs1)
                    (Js.VStr TraceModel.TRACE_PREFIX) = Some (Js.VObj fs1)).
  { rewrite (setTelegramPrefix_shaped fs1 cfs1 tfs1 _ Hc1 Ht1).
    unfold tfs1 at 1. rewrite assoc_set_twice. fold tfs1.
    unfold cfs1 at 1. rewrite assoc_set_twice. fold cfs1.
    unfold fs1 at 1. rewrite assoc_set_twice. reflexivity. }
  set (cp := TraceModel.getTelegramPrefix Number_toString (Js.VObj fs)).
  destruct (Js.field "previousTelegramPrefix" sfs) eqn:Hprev.
  1:{ (* nothing remembered yet *)
    exists {| TraceModel.config_file := inr (Js.VObj fs1);
              TraceModel.state_file :=
                TraceModel.written
                  (Js.VObj (Js.assoc_set "previousTelegramPrefix" (Js.VStr cp) sfs)) |}.
    assert (Hload :
      Js.getp_opt
        (TraceModel.loadState
           {| TraceModel.config_file := inr (Js.VObj fs1);
              TraceModel.state_file :=
                TraceModel.written
                  (Js.VObj (Js.assoc_set "previousTelegramPrefix" (Js.VStr cp) sfs)) |})
        "previousTelegramPrefix" = Js.VStr cp).
    { unfold TraceModel.loadState, TraceModel.written.
      cbn [TraceModel.state_file]. rewrite reload_fields_eq.
      cbn [Js.or_else Js.truthy].
      change (Js.getp_opt (Js.VObj ?l) ?k) with (Js.field k l).
      rewrite field_reload_fields by (rewrite field_assoc_set_same; discriminate).
      now rewrite field_assoc_set_same. }
    split; [|split; [|exact Hload]].
    - unfold TraceModel.handler. rewrite Hcfg, Hon, Hst.
      change (Js.getp_opt (Js.VObj sfs) "previousTelegramPrefix")
        with (Js.field "previousTelegramPrefix" sfs).
      rewrite Hprev. cbn [TraceModel.assign].
      rewrite (setTelegramPrefix_shaped fs cfs tfs _ Hc Ht).
      unfold TraceModel.save_config, TraceModel.saveState.
      cbn [TraceModel.config_file TraceModel.state_file].
      fold tfs1. fold cfs1. fold fs1. unfold TraceModel.written at 1.
      rewrite (reload_json _ Hj1).
      rewrite (obj_set_name "previousTelegramPrefix") by reflexivity.
      reflexivity.
    - unfold TraceModel.handler at 1. cbn [TraceModel.config_file].
      rewrite Hon2, Hload, Hset1.
      unfold TraceModel.save_config, TraceModel.written.
      cbn [TraceModel.config_file TraceModel.state_file].
      now rewrite (reload_json _ Hj1). }
  all: (* a prefix is remembered already *)
    exists {| TraceModel.config_file := inr (Js.VObj fs1);
              TraceModel.state_file := TraceModel.state_file files |};
    (split; [|split]);
    [ unfold TraceModel.handler; rewrite Hcfg, Hon, Hst;
      change (Js.getp_opt (Js.VObj sfs) "previousTelegramPrefix")
        with (Js.field "previousTelegramPrefix" sfs);
      rewrite Hprev;
      rewrite (setTelegramPrefix_shaped fs cfs tfs _ Hc Ht);
      unfold TraceModel.save_config, TraceModel.written;
      fold tfs1; fold cfs1; fold fs1; now rewrite (reload_json _ Hj1)
    | unfold TraceModel.handler at 1; cbn [TraceModel.config_file];
      rewrite Hon2;
      change (TraceModel.loadState
                {| TraceModel.config_file := inr (Js.VObj fs1);
                   TraceModel.state_file := TraceModel.state_file files |})
        with (TraceModel.loadState files);
      rewrite Hst;
      change (Js.getp_opt (Js.VObj sfs) "previousTelegramPrefix")
        with (Js.field "previousTelegramPrefix" sfs);
      rewrite Hprev, Hset1;
      unfold TraceModel.save_config, TraceModel.written;
      cbn [TraceModel.config_file TraceModel.state_file];
      now rewrite (reload_json _ Hj1)
    | change (TraceModel.loadState
                {| TraceModel.config_file := inr (Js.VObj fs1);
                   TraceModel.state_file := TraceModel.state_file files |})
        with (TraceModel.loadState files);
      rewrite Hst; exact Hprev ].
Qed.


(** X13. Turning tracing off when no prefix is remembered (tracing
    was never turned on, or was turned off already) blanks the Telegram
    response prefix, whatever the config held there, and leaves an
    empty state file. *)
Theorem trace_off_without_on_blanks_prefix
    (files : TraceModel.Files) (fs cfs tfs : Js.fields_t)
    (args : option TraceModel.Args) :
  TraceModel.config_file files = inr (Js.VObj fs) ->
  Js.is_json (Js.VObj fs) = true ->
  Js.or_else (Js.field "channels" fs) (Js.VObj []) = Js.VObj cfs ->
  Js.or_else (Js.field "telegram" cfs) (Js.VObj []) = Js.VObj tfs ->
  Js.getp_opt (TraceModel.loadState files) "previousTelegramPrefix" = Js.VUndef
  \/ Js.getp_opt (TraceModel.loadState files) "previousTelegramPrefix" = Js.VNull ->
  TraceModel.normalizeArg (TraceModel.firstWord args) = TraceModel.Off ->
  exists config',
    TraceModel.handler Number_toString Number_toJSON files args
    = TraceModel.Reply (TraceModel.off_text Number_toJSON (Js.VStr ""))
        {| TraceModel.config_file := inr config';
           TraceModel.state_file := inr (Js.VObj []) |}
    /\ Js.getp_opt (Js.getp_opt (Js.getp_opt config' "channels") "telegram")
         "responsePrefix" = Js.VStr ""
    /\ TraceModel.getTelegramPrefix Number_toString config' = "".
Proof.
  intros Hcfg Hj Hc Ht Hnone Hoff.
  pose proof (or_else_json fs cfs "channels" Hj Hc) as Hjc.
  pose proof (or_else_json cfs tfs "telegram" Hjc Ht) as Hjt.
  eexists. split; [|split].
  - unfold TraceModel.handler. rewrite Hcfg, Hoff.
    assert (Hr : match Js.getp_opt (TraceModel.loadState files)
                         "previousTelegramPrefix" with
                 | Js.VUndef | Js.VNull => Js.VStr ""
                 | x => x
                 end = Js.VStr "").
    { now destruct Hnone as [-> | ->]. }
    rewrite Hr, (setTelegramPrefix_shaped fs cfs tfs _ Hc Ht).
    unfold TraceModel.saveState, TraceModel.save_config, TraceModel.written.
    cbn [TraceModel.config_file TraceModel.state_file].
    rewrite reload_json by (repeat apply is_json_assoc_set; auto).
    reflexivity.
  - change (Js.getp_opt (Js.VObj ?l) ?k) with (Js.field k l).
    rewrite field_assoc_set_same.
    change (Js.getp_opt (Js.VObj ?l) ?k) with (Js.field k l).
    rewrite field_assoc_set_same.
    change (Js.getp_opt (Js.VObj ?l) ?k) with (Js.field k l).
    now rewrite field_assoc_set_same.
  - now rewrite getTelegramPrefix_set.
Qed.

End TraceFacts.

Lemma trace_on_remembers_once_witness :
  exists files1,
    Samples.trace Samples.trace_files "on"
    = TraceModel.Reply TraceModel.on_text files1
    /\ Samples.trace files1 "ON"
       = TraceModel.Reply TraceModel.on_text files1
    /\ Js.getp_opt (TraceModel.loadState files1) "previousTelegramPrefix"
       = Js.VStr "[bot] ".
Proof.
  apply (trace_on_remembers_once Samples.literal Samples.literal
           Samples.trace_files Samples.restored_fields
           (Samples.restored_part "channels")
           [("botToken", Js.VStr "kept"); ("responsePrefix", Js.VStr "[bot] ")]
           []);
    vm_compute; reflexivity.
Defined.


Lemma trace_off_without_on_blanks_prefix_witness :
  exists config',
    Samples.trace Samples.trace_files "off"
    = TraceModel.Reply (TraceModel.off_text Samples.literal (Js.VStr ""))
        {| TraceModel.config_file := inr config';
           TraceModel.state_file := inr (Js.VObj []) |}
    /\ Js.getp_opt (Js.getp_opt (Js.getp_opt config' "channels") "telegram")
         "responsePrefix" = Js.VStr ""
    /\ TraceModel.getTelegramPrefix Samples.literal config' = "".
Proof.
  apply (trace_off_without_on_blanks_prefix Samples.literal Samples.literal
           Samples.trace_files Samples.restored_fields
           (Samples.restored_part "channels")
           [("botToken", Js.VStr "kept"); ("responsePrefix", Js.VStr "[bot] ")]);
    try (vm_compute; reflexivity).
  left. reflexivity.
Defined.

